(** * x402 Solana facilitator: verification and settlement of payments

    A shallow embedding of [src/x402/facilitator.py] (the verifier, the
    settler, the key loader and the global instance), of the endpoints of
    [src/x402/main.py] (the requirement builder with its price conversion,
    the verify, settle and fee-payer endpoints, the demo endpoint) and of
    the instruction builder and the signing step of the client
    [pay_x402.py], together with the properties the specification states
    about them and further properties of the code.

    Conventions.
    - Python exceptions are values of [Exc]: [Raise msg] carries [str(e)].
    - Python [bytes] are [list byte]; [str] is [string] (ASCII text).
    - Python [int] is [Z]; Python [float] is [spec_float] at binary64.
    - Functions of third-party packages (solders, solana-py, base58,
      pydantic) and the Python built-ins whose full behaviour is not part
      of this repository are the fields of the classes [PyBuiltins],
      [Solders], [KeyLoading] and [JsonBuiltins]; every theorem holds for
      all their implementations.
    - The module-level global [_facilitator] is passed in and out of the
      functions that read or assign it.
    - Calls of the RPC client are the nodes of a [Chain] program; calls of
      the logger are left out. *)

From Stdlib Require Import List ZArith NArith Bool Lia.
From Stdlib.Strings Require Import String Ascii Byte.
From Stdlib Require Import DecimalString SpecFloat.
Import ListNotations.

Local Open Scope string_scope.
Local Open Scope Z_scope.

(** ** Exceptions *)

Inductive Exc (A : Type) : Type :=
| Ok (a : A)
| Raise (msg : string).
Arguments Ok {A} a.
Arguments Raise {A} msg.

(** ** Control flow of a function body

    A statement either falls through to the next one, leaves the function
    with [return r], or raises. *)

Inductive Flow (R A : Type) : Type :=
| Next (a : A)
| Return (r : R)
| Throw (msg : string).
Arguments Next {R A} a.
Arguments Return {R A} r.
Arguments Throw {R A} msg.

Definition fbind {R A B} (m : Flow R A) (k : A -> Flow R B) : Flow R B :=
  match m with
  | Next a => k a
  | Return r => Return r
  | Throw msg => Throw msg
  end.

Declare Scope flow_scope.
Delimit Scope flow_scope with flow.
Notation "x <- m ;; k" := (fbind m (fun x => k))
  (at level 61, m at next level, right associativity) : flow_scope.
Notation "' p <- m ;; k" := (fbind m (fun x => match x with p => k end))
  (at level 61, p pattern, m at next level, right associativity) : flow_scope.
Notation "m1 ;;; m2" := (fbind m1 (fun _ => m2))
  (at level 61, right associativity) : flow_scope.
Local Open Scope flow_scope.

(** The value of a call expression inside a body. *)
Definition call {R A} (e : Exc A) : Flow R A :=
  match e with
  | Ok a => Next a
  | Raise msg => Throw msg
  end.

(** [if cond: return r] *)
Definition return_if {R} (cond : bool) (r : R) : Flow R unit :=
  if cond then Return r else Next tt.

(** [try: body  except: handler] *)
Definition try_except {R A} (body : Flow R A) (handler : string -> Flow R A)
  : Flow R A :=
  match body with
  | Throw msg => handler msg
  | other => other
  end.

(** The outcome of calling a function with the given body. *)
Definition run {R} (body : Flow R R) : Exc R :=
  match body with
  | Next r => Ok r
  | Return r => Ok r
  | Throw msg => Raise msg
  end.

(** The outcome of a function whose whole body is
    [try: body  except Exception as e: return handler(str(e))]. *)
Definition try_return {R} (body : Flow R R) (handler : string -> R) : R :=
  match body with
  | Next r => r
  | Return r => r
  | Throw msg => handler msg
  end.

(** A [for] loop threading the loop-carried variables [s]; a [return] or an
    exception in the body leaves the loop at once. *)
Fixpoint for_each {R A S} (l : list A) (s : S) (body : S -> A -> Flow R S)
  : Flow R S :=
  match l with
  | [] => Next s
  | x :: l' => s' <- body s x ;; for_each l' s' body
  end.

(** ** Python values *)

Definition bytes := list byte.

Definition byte_val (b : byte) : Z := Z.of_N (Byte.to_N b).

Definition byte_of_Z (z : Z) : byte :=
  match Byte.of_N (Z.to_N (z mod 256)) with
  | Some b => b
  | None => x00
  end.

(** [l[i]] for a non-negative index: [IndexError] when out of range. *)
Definition py_index {A} (l : list A) (i : nat) : Exc A :=
  match nth_error l i with
  | Some x => Ok x
  | None => Raise "list index out of range"
  end.

(** [b[i:j]] on bytes, for [0 <= i <= j]. *)
Definition py_slice {A} (l : list A) (i j : nat) : list A :=
  firstn (j - i) (skipn i l).

(** [str(n)] and the [{n}] of an f-string, for an [int]. *)
Definition str_int (n : Z) : string :=
  NilZero.string_of_int (Z.to_int n).

(** [struct.unpack("<Q", b)[0]]: the little-endian value of [b]. *)
Fixpoint unpack_le (b : bytes) : Z :=
  match b with
  | [] => 0
  | x :: b' => byte_val x + 256 * unpack_le b'
  end.

Fixpoint string_eqb_list (l1 l2 : bytes) : bool :=
  match l1, l2 with
  | [], [] => true
  | x :: l1', y :: l2' => Byte.eqb x y && string_eqb_list l1' l2'
  | _, _ => false
  end.

(** [needle in haystack] on strings. *)
Fixpoint contains (needle haystack : string) : bool :=
  String.prefix needle haystack ||
  match haystack with
  | EmptyString => false
  | String _ rest => contains needle rest
  end.

(** ** Public keys and base58 *)

(** A [solders.pubkey.Pubkey]: its 32 bytes. *)
Definition Pubkey := bytes.

Definition Pubkey_eqb : Pubkey -> Pubkey -> bool := string_eqb_list.

Definition b58_alphabet : string :=
  "123456789ABCDEFGHJKLMNPQRSTUVWXYZabcdefghijkmnopqrstuvwxyz".

Fixpoint index_of (c : ascii) (s : string) (i : Z) : option Z :=
  match s with
  | EmptyString => None
  | String d s' => if Ascii.eqb c d then Some i else index_of c s' (i + 1)
  end.

Fixpoint b58_value (s : string) (acc : Z) : option Z :=
  match s with
  | EmptyString => Some acc
  | String c s' =>
      match index_of c b58_alphabet 0 with
      | Some d => b58_value s' (acc * 58 + d)
      | None => None
      end
  end.

Fixpoint count_leading {A} (is_lead : A -> bool) (l : list A) : nat :=
  match l with
  | x :: l' => if is_lead x then S (count_leading is_lead l') else O
  | [] => O
  end.

Fixpoint be_digits (fuel : nat) (base n : Z) (acc : list Z) : list Z :=
  match fuel with
  | O => acc
  | S fuel' =>
      if n <=? 0 then acc
      else be_digits fuel' base (n / base) (n mod base :: acc)
  end.

(** The big-endian digits of [n] in [base], none for [0]. *)
Definition digits_of (base n : Z) : list Z :=
  be_digits (Z.to_nat (Z.log2 n) + 1) base n [].

Definition b58decode (s : string) : option bytes :=
  match b58_value s 0 with
  | Some n =>
      let zeros := count_leading (Ascii.eqb "1"%char) (list_ascii_of_string s) in
      Some (repeat x00 zeros ++ map byte_of_Z (digits_of 256 n))%list
  | None => None
  end.

Definition b58_char (d : Z) : ascii :=
  match String.get (Z.to_nat d) b58_alphabet with
  | Some c => c
  | None => "1"%char
  end.

Definition b58encode (b : bytes) : string :=
  let zeros := count_leading (Byte.eqb x00) b in
  let n := fold_left (fun acc x => acc * 256 + byte_val x) b 0 in
  string_of_list_ascii
    (repeat "1"%char zeros ++ map b58_char (digits_of 58 n))%list.

(** [Pubkey.from_string(s)]: the base58 text of exactly 32 bytes. A text
    of more than 44 characters is refused for its size before its
    characters are looked at. *)
Definition Pubkey_from_string (s : string) : Exc Pubkey :=
  if (44 <? String.length s)%nat then Raise "String is the wrong size"
  else
    match b58decode s with
    | None => Raise "Invalid Base58 string"
    | Some b =>
        if (List.length b =? 32)%nat then Ok b
        else Raise "String is the wrong size"
    end.

(** [str(pubkey)] *)
Definition Pubkey_str (k : Pubkey) : string := b58encode k.

(** Program IDs *)
Definition pubkey_literal (s : string) : Pubkey :=
  match Pubkey_from_string s with
  | Ok k => k
  | Raise _ => []
  end.

Definition COMPUTE_BUDGET_PROGRAM : Pubkey :=
  Eval vm_compute in pubkey_literal "ComputeBudget111111111111111111111111111111".
Definition SPL_TOKEN_PROGRAM : Pubkey :=
  Eval vm_compute in pubkey_literal "TokenkegQfeZyiNwAJbNbGKPFXCWuBvf9Ss623VQ5DA".
Definition TOKEN_2022_PROGRAM : Pubkey :=
  Eval vm_compute in pubkey_literal "TokenzQdBNbLqP5VEhdkAS6EPFLC1PHnBqCXEpPxuEb".
Definition ASSOCIATED_TOKEN_PROGRAM : Pubkey :=
  Eval vm_compute in pubkey_literal "ATokenGPvbdGVxr1b2hvZbsiqW5xWH25efTNsLJA8knL".


(** ** Data model *)

(** [solders.instruction.CompiledInstruction] *)
Record CompiledInstruction : Type := {
  program_id_index : byte;
  accounts : bytes;
  data : bytes
}.

Record MessageHeader : Type := {
  num_required_signatures : byte;
  num_readonly_signed_accounts : byte;
  num_readonly_unsigned_accounts : byte
}.

(** [solders.message.Message], the legacy message. *)
Record Message : Type := {
  header : MessageHeader;
  account_keys : list Pubkey;
  recent_blockhash : bytes;
  instructions : list CompiledInstruction
}.

Record MessageAddressTableLookup : Type := {
  lookup_account_key : Pubkey;
  writable_indexes : bytes;
  readonly_indexes : bytes
}.

(** [solders.message.MessageV0]; its [account_keys] are the static keys. *)
Record MessageV0 : Type := {
  v0_header : MessageHeader;
  v0_account_keys : list Pubkey;
  v0_recent_blockhash : bytes;
  v0_instructions : list CompiledInstruction;
  v0_address_table_lookups : list MessageAddressTableLookup
}.

Inductive VersionedMessage : Type :=
| LegacyMessage (m : Message)
| V0Message (m : MessageV0).

Definition Signature := bytes.

(** [solders.transaction.Transaction] (legacy) *)
Record Transaction : Type := {
  signatures : list Signature;
  message : Message
}.

(** [solders.transaction.VersionedTransaction] *)
Record VersionedTransaction : Type := {
  v_signatures : list Signature;
  v_message : VersionedMessage
}.

(** [types.py] *)
Record PaymentRequirementsExtra : Type := {
  fee_payer : string
}.

Record PaymentRequirements : Type := {
  scheme : string;
  network : string;
  max_amount_required : string;
  asset : string;
  pay_to : string;
  resource : string;
  description : string;
  mime_type : string;
  max_timeout_seconds : Z;
  extra : PaymentRequirementsExtra
}.

Record VerifyResponse : Type := {
  is_valid : bool;
  invalid_reason : option string
}.

Record SettleResponse : Type := {
  success : bool;
  error : option string;
  tx_hash : option string;
  settle_network : option string;
  payer : option string
}.

(** [config.py] *)
Record Settings : Type := {
  solana_network : string;
  usdc_mint : string;
  usdc_decimals : Z;
  max_compute_unit_price : Z
}.

Definition default_settings : Settings := {|
  solana_network := "mainnet-beta";
  usdc_mint := "EPjFWdd5AufqSSqeM2qN1xzybapC8G4wEGGkZwyTDt1v";
  usdc_decimals := 6;
  max_compute_unit_price := 5
|}.

Definition Keypair := bytes.

(** ** What the code calls and this repository does not define *)

(** Python built-ins. *)
Class PyBuiltins : Type := {
  (** [base64.b64decode(s)] *)
  b64decode : string -> Exc bytes;
  (** [int(s)] *)
  py_int : string -> Exc Z;
  (** [float(s)] *)
  py_float : string -> Exc spec_float;
  (** [10 ** d] for a negative [d], a float computed by the C library. *)
  pow10_negative : Z -> spec_float
}.

(** The solders package. *)
Class Solders : Type := {
  (** [Transaction.from_bytes(b)] *)
  Transaction_from_bytes : bytes -> Exc Transaction;
  (** [VersionedTransaction.from_bytes(b)] *)
  VersionedTransaction_from_bytes : bytes -> Exc VersionedTransaction;
  (** [Pubkey.find_program_address(seeds, program)]: address and bump. *)
  find_program_address : list bytes -> Pubkey -> Pubkey * Z;
  (** [keypair.pubkey()] *)
  Keypair_pubkey : Keypair -> Pubkey;
  (** [keypair.sign_message(b)] *)
  sign_message : Keypair -> bytes -> Signature;
  (** [bytes(message)] of a legacy message: its serialization. *)
  Message_bytes : Message -> bytes;
  (** [message.hash()] *)
  Message_hash : VersionedMessage -> bytes
}.

(** ** The chain client

    A program that talks to the RPC node: each node is one awaited call of
    [solana.rpc.async_api.AsyncClient], continued with what the call
    returned or raised. *)

Inductive AnyTransaction : Type :=
| LegacyTx (tx : Transaction)
| VersionedTx (tx : VersionedTransaction).

Record TxOpts : Type := {
  skip_preflight : bool;
  preflight_commitment : string
}.

Inductive Chain (A : Type) : Type :=
| Done (a : A)
| GetLatestBlockhash (commitment : string) (k : Exc bytes -> Chain A)
| SendTransaction (tx : AnyTransaction) (opts : TxOpts)
    (k : Exc string -> Chain A).
Arguments Done {A} a.
Arguments GetLatestBlockhash {A} commitment k.
Arguments SendTransaction {A} tx opts k.

(** A mock RPC node and the calls it has seen. *)
Inductive RpcCall : Type :=
| GetLatestBlockhashCall (commitment : string)
| SendTransactionCall (tx : AnyTransaction) (opts : TxOpts).

Record MockRpc : Type := {
  latest_blockhash : Exc bytes;
  send_result : AnyTransaction -> Exc string
}.

Fixpoint run_chain {A} (rpc : MockRpc) (p : Chain A) : A * list RpcCall :=
  match p with
  | Done a => (a, [])
  | GetLatestBlockhash c k =>
      let '(a, calls) := run_chain rpc (k rpc.(latest_blockhash)) in
      (a, GetLatestBlockhashCall c :: calls)
  | SendTransaction tx opts k =>
      let '(a, calls) := run_chain rpc (k (rpc.(send_result) tx)) in
      (a, SendTransactionCall tx opts :: calls)
  end.

Definition Confirmed : string := "confirmed".

(** ** The facilitator ([facilitator.py]) *)

(** The state of a [SolanaFacilitator] after [initialize]. *)
Record SolanaFacilitator : Type := {
  settings : Settings;
  facilitator_fee_payer : option Keypair
}.

Definition invalid (reason : string) : VerifyResponse :=
  {| is_valid := false; invalid_reason := Some reason |}.

Definition settle_error (e : string) : SettleResponse :=
  {| success := false; error := Some e; tx_hash := None;
     settle_network := None; payer := None |}.

Definition len {A} (l : list A) : Z := Z.of_nat (List.length l).

(** [l[i] = v] for a non-negative index. *)
Definition py_setitem {A} (l : list A) (i : nat) (v : A) : Exc (list A) :=
  if (i <? List.length l)%nat
  then Ok (firstn i l ++ v :: skipn (S i) l)%list
  else Raise "list assignment index out of range".

(** [enumerate(l)] *)
Definition enumerate {A} (l : list A) : list (nat * A) :=
  combine (seq 0 (List.length l)) l.

(** The [{x}] of an f-string for an [Optional[str]]. *)
Definition str_optional (x : option string) : string :=
  match x with
  | Some s => s
  | None => "None"
  end.

Section Facilitator.

Context {py : PyBuiltins} {sol : Solders}.
Variable self : SolanaFacilitator.

(** Check if instruction is a ComputeBudget instruction with given
    discriminator. *)
Definition _is_compute_budget_instruction (instruction : CompiledInstruction)
    (account_keys : list Pubkey) (discriminator : Z) : Exc bool :=
  run (
    program_id <- call (py_index account_keys
                          (Byte.to_nat instruction.(program_id_index))) ;;
    return_if (negb (Pubkey_eqb program_id COMPUTE_BUDGET_PROGRAM)) false ;;;
    return_if (len instruction.(data) <? 1) false ;;;
    data0 <- call (py_index instruction.(data) 0) ;;
    Return (byte_val data0 =? discriminator)).

(** Verify compute unit price is within limits. *)
Definition _verify_compute_price (instruction : CompiledInstruction)
  : Exc (bool * option string) :=
  run (
    return_if (len instruction.(data) <? 9)
      (false, Some "Invalid SetComputeUnitPrice instruction") ;;;
    let price := unpack_le (py_slice instruction.(data) 1 9) in
    let max_price := self.(settings).(max_compute_unit_price) in
    return_if (price >? max_price)
      (false, Some ("Compute unit price " ++ str_int price ++
                    " exceeds max " ++ str_int max_price)) ;;;
    Return (true, None)).

(** Derive associated token address. *)
Definition _get_associated_token_address (owner mint token_program : Pubkey)
  : Pubkey :=
  let seeds := [owner; token_program; mint] in
  let '(ata, _) := find_program_address seeds ASSOCIATED_TOKEN_PROGRAM in
  ata.

(** Verify TransferChecked instruction matches requirements. *)
Definition _verify_transfer_instruction (instruction : CompiledInstruction)
    (account_keys : list Pubkey) (requirements : PaymentRequirements)
  : Exc (bool * option string) :=
  run (
    program_id <- call (py_index account_keys
                          (Byte.to_nat instruction.(program_id_index))) ;;
    return_if (negb (Pubkey_eqb program_id SPL_TOKEN_PROGRAM
                     || Pubkey_eqb program_id TOKEN_2022_PROGRAM))
      (false, Some "Third instruction must be SPL Token TransferChecked") ;;;
    wrong_discriminator <-
      (if len instruction.(data) <? 1 then Next true
       else data0 <- call (py_index instruction.(data) 0) ;;
            Next (negb (byte_val data0 =? 12))) ;;
    return_if wrong_discriminator
      (false, Some "Expected TransferChecked instruction") ;;;
    return_if (len instruction.(data) <? 10)
      (false, Some "Invalid TransferChecked data") ;;;
    let amount := unpack_le (py_slice instruction.(data) 1 9) in
    data9 <- call (py_index instruction.(data) 9) ;;
    let decimals := byte_val data9 in
    required_amount <- call (py_int requirements.(max_amount_required)) ;;
    return_if (negb (amount =? required_amount))
      (false, Some ("Amount " ++ str_int amount ++
                    " does not match required " ++ str_int required_amount)) ;;;
    return_if (negb (decimals =? self.(settings).(usdc_decimals)))
      (false, Some ("Decimals " ++ str_int decimals ++
                    " does not match expected " ++
                    str_int self.(settings).(usdc_decimals))) ;;;
    return_if (len instruction.(accounts) <? 4)
      (false, Some "TransferChecked requires 4 accounts") ;;;
    accounts1 <- call (py_index instruction.(accounts) 1) ;;
    mint <- call (py_index account_keys (Byte.to_nat accounts1)) ;;
    expected_mint <- call (Pubkey_from_string requirements.(asset)) ;;
    return_if (negb (Pubkey_eqb mint expected_mint))
      (false, Some ("Mint " ++ Pubkey_str mint ++
                    " does not match required " ++ Pubkey_str expected_mint)) ;;;
    accounts2 <- call (py_index instruction.(accounts) 2) ;;
    destination <- call (py_index account_keys (Byte.to_nat accounts2)) ;;
    pay_to <- call (Pubkey_from_string requirements.(pay_to)) ;;
    let expected_ata :=
      _get_associated_token_address pay_to expected_mint program_id in
    return_if (negb (Pubkey_eqb destination expected_ata))
      (false, Some ("Destination " ++ Pubkey_str destination ++
                    " does not match expected ATA " ++
                    Pubkey_str expected_ata)) ;;;
    Return (true, None)).

(** Verify a payment payload. *)
Definition verify (payment_header : string)
    (requirements : PaymentRequirements) : VerifyResponse :=
  try_return (
    tx_bytes <- call (b64decode payment_header) ;;
    '(instructions, account_keys) <-
      try_except
        (tx <- call (Transaction_from_bytes tx_bytes) ;;
         let message := tx.(message) in
         Next (message.(instructions), message.(account_keys)))
        (fun _ =>
         tx <- call (VersionedTransaction_from_bytes tx_bytes) ;;
         match tx.(v_message) with
         | V0Message message =>
             Next (message.(v0_instructions), message.(v0_account_keys))
         | LegacyMessage _ =>
             Return (invalid "Unsupported transaction format")
         end) ;;
    return_if (negb (len instructions =? 3))
      (invalid ("Expected 3 instructions, got " ++
                str_int (len instructions))) ;;;
    '(compute_budget_count, price_instruction_idx) <-
      for_each [0%nat; 1%nat] (0, None)
        (fun '(compute_budget_count, price_instruction_idx) idx =>
           instruction <- call (py_index instructions idx) ;;
           is_limit <- call (_is_compute_budget_instruction
                               instruction account_keys 2) ;;
           if is_limit : bool then
             Next (compute_budget_count + 1, price_instruction_idx)
           else
             is_price <- call (_is_compute_budget_instruction
                                 instruction account_keys 3) ;;
             if is_price : bool then Next (compute_budget_count + 1, Some idx)
             else Next (compute_budget_count, price_instruction_idx)) ;;
    return_if (negb (compute_budget_count =? 2))
      (invalid "First 2 instructions must be ComputeBudget instructions") ;;;
    match price_instruction_idx with
    | Some idx =>
        instruction <- call (py_index instructions idx) ;;
        '(price_valid, price_reason) <-
          call (_verify_compute_price instruction) ;;
        return_if (negb price_valid)
          {| is_valid := false; invalid_reason := price_reason |}
    | None => Next tt
    end ;;;
    instruction2 <- call (py_index instructions 2) ;;
    '(transfer_valid, transfer_reason) <-
      call (_verify_transfer_instruction
              instruction2 account_keys requirements) ;;
    return_if (negb transfer_valid)
      {| is_valid := false; invalid_reason := transfer_reason |} ;;;
    fee_payer_pubkey <-
      call (Pubkey_from_string requirements.(extra).(fee_payer)) ;;
    for_each instructions tt (fun _ ix =>
      for_each ix.(accounts) tt (fun _ account_idx =>
        account_key <- call (py_index account_keys
                               (Byte.to_nat account_idx)) ;;
        return_if (Pubkey_eqb account_key fee_payer_pubkey)
          (invalid "Fee payer must not be in instruction accounts"))) ;;;
    Return {| is_valid := true; invalid_reason := None |})
  (fun e => invalid e).

(** The statements of [settle] up to the first RPC call: the decoded
    transaction, legacy or versioned. *)
Definition settle_decode (payment_header : string)
    (requirements : PaymentRequirements)
  : Flow SettleResponse (Keypair * AnyTransaction) :=
  match self.(facilitator_fee_payer) with
  | None => Return (settle_error "Facilitator not configured")
  | Some fee_payer =>
      let verify_result := verify payment_header requirements in
      return_if (negb verify_result.(is_valid))
        (settle_error ("Verification failed: " ++
                       str_optional verify_result.(invalid_reason))) ;;;
      tx_bytes <- call (b64decode payment_header) ;;
      match Transaction_from_bytes tx_bytes with
      | Ok tx => Next (fee_payer, LegacyTx tx)
      | Raise _ =>
          match VersionedTransaction_from_bytes tx_bytes with
          | Ok tx => Next (fee_payer, VersionedTx tx)
          | Raise e2 =>
              Return (settle_error ("Failed to parse transaction: " ++ e2))
          end
      end
  end.

(** The statements between the two RPC calls: the transaction to send. *)
Definition settle_sign (fee_payer : Keypair) (decoded : AnyTransaction)
  : Flow SettleResponse AnyTransaction :=
  match decoded with
  | LegacyTx tx =>
      let message := tx.(message) in
      let message_bytes := Message_bytes message in
      let facilitator_sig := sign_message fee_payer message_bytes in
      let num_signers :=
        Byte.to_nat message.(header).(num_required_signatures) in
      let signatures := tx.(signatures) in
      signatures <-
        for_each (enumerate (firstn num_signers message.(account_keys)))
          signatures
          (fun signatures '(i, account_key) =>
             if String.eqb (Pubkey_str account_key)
                           (Pubkey_str (Keypair_pubkey fee_payer))
             then call (py_setitem signatures i facilitator_sig)
             else Next signatures) ;;
      Next (LegacyTx {| signatures := signatures; message := message |})
  | VersionedTx tx =>
      let message := tx.(v_message) in
      let all_signatures := tx.(v_signatures) in
      let facilitator_sig := sign_message fee_payer (Message_hash message) in
      let all_signatures := (all_signatures ++ [facilitator_sig])%list in
      Next (VersionedTx {| v_signatures := all_signatures;
                           v_message := message |})
  end.

(** Settle a payment on-chain. *)
Definition settle (payment_header : string)
    (requirements : PaymentRequirements) : Chain SettleResponse :=
  match settle_decode payment_header requirements with
  | Return r => Done r
  | Throw e => Done (settle_error e)
  | Next (fee_payer, tx) =>
      GetLatestBlockhash Confirmed (fun blockhash_resp =>
        match blockhash_resp with
        | Raise e => Done (settle_error e)
        | Ok recent_blockhash =>
            match settle_sign fee_payer tx with
            | Return r => Done r
            | Throw e => Done (settle_error e)
            | Next tx_to_send =>
                SendTransaction tx_to_send
                  {| skip_preflight := false;
                     preflight_commitment := Confirmed |}
                  (fun result =>
                     match result with
                     | Raise e => Done (settle_error e)
                     | Ok tx_signature =>
                         Done {| success := true;
                                 error := None;
                                 tx_hash := Some tx_signature;
                                 settle_network :=
                                   Some self.(settings).(solana_network);
                                 payer := Some (Pubkey_str
                                            (Keypair_pubkey fee_payer)) |}
                     end)
            end
        end)
  end.

(** *** The decoded transaction

    What [verify] and [settle] obtain from the header before any check:
    the legacy transaction when the bytes parse as one, else the versioned
    transaction. *)
Definition decoded_transaction (payment_header : string)
  : Exc AnyTransaction :=
  match b64decode payment_header with
  | Raise e => Raise e
  | Ok tx_bytes =>
      match Transaction_from_bytes tx_bytes with
      | Ok tx => Ok (LegacyTx tx)
      | Raise _ =>
          match VersionedTransaction_from_bytes tx_bytes with
          | Ok tx => Ok (VersionedTx tx)
          | Raise e => Raise e
          end
      end
  end.

(** The checks of [verify] on the instructions and account keys of the
    decoded message, from the instruction count on. *)
Definition verify_checks (instructions : list CompiledInstruction)
    (account_keys : list Pubkey) (requirements : PaymentRequirements)
  : Flow VerifyResponse VerifyResponse :=
  return_if (negb (len instructions =? 3))
    (invalid ("Expected 3 instructions, got " ++
              str_int (len instructions))) ;;;
  '(compute_budget_count, price_instruction_idx) <-
    for_each [0%nat; 1%nat] (0, None)
      (fun '(compute_budget_count, price_instruction_idx) idx =>
         instruction <- call (py_index instructions idx) ;;
         is_limit <- call (_is_compute_budget_instruction
                             instruction account_keys 2) ;;
         if is_limit : bool then
           Next (compute_budget_count + 1, price_instruction_idx)
         else
           is_price <- call (_is_compute_budget_instruction
                               instruction account_keys 3) ;;
           if is_price : bool then Next (compute_budget_count + 1, Some idx)
           else Next (compute_budget_count, price_instruction_idx)) ;;
  return_if (negb (compute_budget_count =? 2))
    (invalid "First 2 instructions must be ComputeBudget instructions") ;;;
  match price_instruction_idx with
  | Some idx =>
      instruction <- call (py_index instructions idx) ;;
      '(price_valid, price_reason) <-
        call (_verify_compute_price instruction) ;;
      return_if (negb price_valid)
        {| is_valid := false; invalid_reason := price_reason |}
  | None => Next tt
  end ;;;
  instruction2 <- call (py_index instructions 2) ;;
  '(transfer_valid, transfer_reason) <-
    call (_verify_transfer_instruction
            instruction2 account_keys requirements) ;;
  return_if (negb transfer_valid)
    {| is_valid := false; invalid_reason := transfer_reason |} ;;;
  fee_payer_pubkey <-
    call (Pubkey_from_string requirements.(extra).(fee_payer)) ;;
  for_each instructions tt (fun _ ix =>
    for_each ix.(accounts) tt (fun _ account_idx =>
      account_key <- call (py_index account_keys
                             (Byte.to_nat account_idx)) ;;
      return_if (Pubkey_eqb account_key fee_payer_pubkey)
        (invalid "Fee payer must not be in instruction accounts"))) ;;;
  Return {| is_valid := true; invalid_reason := None |}.

End Facilitator.

(** The parts of a decoded transaction. *)
Definition tx_header (t : AnyTransaction) : MessageHeader :=
  match t with
  | LegacyTx tx => tx.(message).(header)
  | VersionedTx tx =>
      match tx.(v_message) with
      | LegacyMessage m => m.(header)
      | V0Message m => m.(v0_header)
      end
  end.

Definition tx_account_keys (t : AnyTransaction) : list Pubkey :=
  match t with
  | LegacyTx tx => tx.(message).(account_keys)
  | VersionedTx tx =>
      match tx.(v_message) with
      | LegacyMessage m => m.(account_keys)
      | V0Message m => m.(v0_account_keys)
      end
  end.

Definition tx_instructions (t : AnyTransaction) : list CompiledInstruction :=
  match t with
  | LegacyTx tx => tx.(message).(instructions)
  | VersionedTx tx =>
      match tx.(v_message) with
      | LegacyMessage m => m.(instructions)
      | V0Message m => m.(v0_instructions)
      end
  end.

Definition tx_signatures (t : AnyTransaction) : list Signature :=
  match t with
  | LegacyTx tx => tx.(signatures)
  | VersionedTx tx => tx.(v_signatures)
  end.

(** The message of a transaction, tagged with the format it came in. *)
Definition tx_message (t : AnyTransaction) : Message + VersionedMessage :=
  match t with
  | LegacyTx tx => inl tx.(message)
  | VersionedTx tx => inr tx.(v_message)
  end.

(** The formats [verify] goes on to check: a legacy transaction, or a
    versioned one with a v0 message. *)
Definition supported_format (t : AnyTransaction) : bool :=
  match t with
  | LegacyTx _ => true
  | VersionedTx tx =>
      match tx.(v_message) with
      | LegacyMessage _ => false
      | V0Message _ => true
      end
  end.

(** The account an instruction's index byte refers to. *)
Definition account_at (account_keys : list Pubkey) (idx : byte)
  : option Pubkey :=
  nth_error account_keys (Byte.to_nat idx).

(** The u64 stored little-endian at [offset] of an instruction's data. *)
Definition u64_at (offset : nat) (d : bytes) : Z :=
  unpack_le (py_slice d offset (offset + 8)).

(** The requirement [R] with another [max_amount_required]. *)
Definition with_max_amount (R : PaymentRequirements) (amount : string)
  : PaymentRequirements :=
  {| scheme := R.(scheme);
     network := R.(network);
     max_amount_required := amount;
     asset := R.(asset);
     pay_to := R.(pay_to);
     resource := R.(resource);
     description := R.(description);
     mime_type := R.(mime_type);
     max_timeout_seconds := R.(max_timeout_seconds);
     extra := R.(extra) |}.

(** Position [i] is a signer position whose account key renders to the
    same text as the facilitator's own public key: where [settle] puts
    the facilitator's signature. *)
Definition facilitator_slot {sol : Solders} (fee_payer : Keypair)
    (m : Message) (i : nat) : bool :=
  (i <? Byte.to_nat m.(header).(num_required_signatures))%nat &&
  match nth_error m.(account_keys) i with
  | Some account_key =>
      String.eqb (Pubkey_str account_key)
                 (Pubkey_str (Keypair_pubkey fee_payer))
  | None => false
  end.

(** The options [settle] sends a transaction with. *)
Definition send_opts : TxOpts :=
  {| skip_preflight := false; preflight_commitment := Confirmed |}.

(** The reason [verify] gives for a transfer of the wrong amount. *)
Definition amount_mismatch (amount required : Z) : string :=
  "Amount " ++ str_int amount ++ " does not match required " ++
  str_int required.

(** *** What makes a payment acceptable

    The conditions [verify] checks, stated on the decoded message. *)

(** The requirement [R] with another fee payer, and with another asset. *)
Definition with_fee_payer (R : PaymentRequirements) (address : string)
  : PaymentRequirements :=
  {| scheme := R.(scheme);
     network := R.(network);
     max_amount_required := R.(max_amount_required);
     asset := R.(asset);
     pay_to := R.(pay_to);
     resource := R.(resource);
     description := R.(description);
     mime_type := R.(mime_type);
     max_timeout_seconds := R.(max_timeout_seconds);
     extra := {| fee_payer := address |} |}.

Definition with_asset (R : PaymentRequirements) (address : string)
  : PaymentRequirements :=
  {| scheme := R.(scheme);
     network := R.(network);
     max_amount_required := R.(max_amount_required);
     asset := address;
     pay_to := R.(pay_to);
     resource := R.(resource);
     description := R.(description);
     mime_type := R.(mime_type);
     max_timeout_seconds := R.(max_timeout_seconds);
     extra := R.(extra) |}.

(** The facilitator with another maximum compute-unit price. *)
Definition with_max_price (self : SolanaFacilitator) (max_price : Z)
  : SolanaFacilitator :=
  {| settings :=
       {| solana_network := self.(settings).(solana_network);
          usdc_mint := self.(settings).(usdc_mint);
          usdc_decimals := self.(settings).(usdc_decimals);
          max_compute_unit_price := max_price |};
     facilitator_fee_payer := self.(facilitator_fee_payer) |}.

(** [ix] is an instruction of the compute-budget program whose data
    starts with the discriminator [d]. *)
Definition budget_instruction (account_keys : list Pubkey)
    (ix : CompiledInstruction) (d : Z) : Prop :=
  account_at account_keys ix.(program_id_index)
    = Some COMPUTE_BUDGET_PROGRAM /\
  exists d0 rest, ix.(data) = d0 :: rest /\ byte_val d0 = d.

(** The data of a set-compute-unit-price instruction carries a price the
    facilitator accepts. *)
Definition price_within_limit (self : SolanaFacilitator)
    (ix : CompiledInstruction) : Prop :=
  9 <= len ix.(data) /\
  u64_at 1 ix.(data) <= self.(settings).(max_compute_unit_price).

(** The first two instructions: each a limit (2) or a price (3)
    instruction; the price that counts is that of the second
    instruction when it is a price instruction, else that of the first. *)
Definition prelude_ok (self : SolanaFacilitator)
    (account_keys : list Pubkey) (i0 i1 : CompiledInstruction) : Prop :=
  (budget_instruction account_keys i0 2 \/
   budget_instruction account_keys i0 3) /\
  (budget_instruction account_keys i1 2 \/
   budget_instruction account_keys i1 3) /\
  (budget_instruction account_keys i1 3 -> price_within_limit self i1) /\
  (budget_instruction account_keys i0 3 ->
   budget_instruction account_keys i1 2 -> price_within_limit self i0).

(** The third instruction is the transfer the requirement asks for. *)
Definition transfer_ok {py : PyBuiltins} {sol : Solders}
    (self : SolanaFacilitator) (account_keys : list Pubkey)
    (R : PaymentRequirements) (ix : CompiledInstruction) : Prop :=
  exists token_program required_amount data9 accounts1 accounts2
         mint destination pay_to_key,
    account_at account_keys ix.(program_id_index) = Some token_program /\
    (token_program = SPL_TOKEN_PROGRAM \/
     token_program = TOKEN_2022_PROGRAM) /\
    (exists rest, ix.(data) = x0c :: rest) /\
    10 <= len ix.(data) /\
    py_int R.(max_amount_required) = Ok required_amount /\
    u64_at 1 ix.(data) = required_amount /\
    nth_error ix.(data) 9 = Some data9 /\
    byte_val data9 = self.(settings).(usdc_decimals) /\
    4 <= len ix.(accounts) /\
    nth_error ix.(accounts) 1 = Some accounts1 /\
    account_at account_keys accounts1 = Some mint /\
    Pubkey_from_string R.(asset) = Ok mint /\
    nth_error ix.(accounts) 2 = Some accounts2 /\
    account_at account_keys accounts2 = Some destination /\
    Pubkey_from_string R.(pay_to) = Ok pay_to_key /\
    destination =
      fst (find_program_address [pay_to_key; token_program; mint]
             ASSOCIATED_TOKEN_PROGRAM).

(** Every account index of every instruction is in range and refers to
    a key other than the fee payer. *)
Definition isolation_ok (account_keys : list Pubkey)
    (R : PaymentRequirements) (ixs : list CompiledInstruction) : Prop :=
  exists fp,
    Pubkey_from_string R.(extra).(fee_payer) = Ok fp /\
    forall ix, In ix ixs -> forall a, In a ix.(accounts) ->
      exists k, account_at account_keys a = Some k /\ k <> fp.

(** The reasons of the price check and of the isolation check. *)
Definition price_exceeds (price max_price : Z) : string :=
  "Compute unit price " ++ str_int price ++ " exceeds max " ++
  str_int max_price.

Definition fee_payer_in_accounts : string :=
  "Fee payer must not be in instruction accounts".

Definition mint_mismatch (mint expected_mint : Pubkey) : string :=
  "Mint " ++ Pubkey_str mint ++ " does not match required " ++
  Pubkey_str expected_mint.

(** The instruction whose price [verify] checks: the second instruction
    when it is a price instruction, else the first when it is one. *)
Definition checked_price_instruction (account_keys : list Pubkey)
    (i0 i1 ix : CompiledInstruction) : Prop :=
  (budget_instruction account_keys i1 3 /\ ix = i1 /\
   (budget_instruction account_keys i0 2 \/
    budget_instruction account_keys i0 3)) \/
  (budget_instruction account_keys i0 3 /\ ix = i0 /\
   budget_instruction account_keys i1 2).

(** The requirement [R] with another recipient. *)
Definition with_pay_to (R : PaymentRequirements) (address : string)
  : PaymentRequirements :=
  {| scheme := R.(scheme);
     network := R.(network);
     max_amount_required := R.(max_amount_required);
     asset := R.(asset);
     pay_to := address;
     resource := R.(resource);
     description := R.(description);
     mime_type := R.(mime_type);
     max_timeout_seconds := R.(max_timeout_seconds);
     extra := R.(extra) |}.

Definition destination_mismatch (destination expected_ata : Pubkey)
  : string :=
  "Destination " ++ Pubkey_str destination ++
  " does not match expected ATA " ++ Pubkey_str expected_ata.

(** The response of a successful settlement. *)
Definition settled (self : SolanaFacilitator) {sol : Solders}
    (fee_payer : Keypair) (tx_signature : string) : SettleResponse :=
  {| success := true;
     error := None;
     tx_hash := Some tx_signature;
     settle_network := Some self.(settings).(solana_network);
     payer := Some (Pubkey_str (Keypair_pubkey fee_payer)) |}.

(** *** The checks before the amount comparison

    What [verify] checks before it compares the amount of the transfer
    with the requirement, in the order of the code. *)

(** Instruction [ix] is a limit (2) or a price (3) instruction of the
    compute-budget program. *)
Definition counted_instruction (account_keys : list Pubkey)
    (ix : CompiledInstruction) : Prop :=
  budget_instruction account_keys ix 2 \/
  budget_instruction account_keys ix 3.

(** The program of [ix] is one of the two token programs. *)
Definition token_instruction (account_keys : list Pubkey)
    (ix : CompiledInstruction) : Prop :=
  account_at account_keys ix.(program_id_index) = Some SPL_TOKEN_PROGRAM \/
  account_at account_keys ix.(program_id_index) = Some TOKEN_2022_PROGRAM.

(** The header decodes to [t], whose third instruction is [i2], and
    every check before the amount comparison passes: the format, the
    number of instructions, the compute-budget prelude, the token
    program, the discriminator 12 and the length of the data. *)
Definition reaches_amount_check {py : PyBuiltins} {sol : Solders}
    (self : SolanaFacilitator) (h : string) (t : AnyTransaction)
    (i2 : CompiledInstruction) : Prop :=
  decoded_transaction h = Ok t /\
  supported_format t = true /\
  (exists i0 i1,
     tx_instructions t = [i0; i1; i2] /\
     prelude_ok self (tx_account_keys t) i0 i1) /\
  token_instruction (tx_account_keys t) i2 /\
  (exists rest, i2.(data) = x0c :: rest) /\
  10 <= len i2.(data).

(** The first check that fails is one before the amount comparison:
    [fails_before_amount self h reason] names it by its condition, with
    the reason [verify] gives. Every constructor assumes that the checks
    before it pass. *)
Inductive fails_before_amount {py : PyBuiltins} {sol : Solders}
    (self : SolanaFacilitator) (h : string) : string -> Prop :=
| header_not_base64 e :
    b64decode h = Raise e ->
    fails_before_amount self h e
| bytes_not_a_transaction tx_bytes e1 e2 :
    b64decode h = Ok tx_bytes ->
    Transaction_from_bytes tx_bytes = Raise e1 ->
    VersionedTransaction_from_bytes tx_bytes = Raise e2 ->
    fails_before_amount self h e2
| format_unsupported t :
    decoded_transaction h = Ok t ->
    supported_format t = false ->
    fails_before_amount self h "Unsupported transaction format"
| instruction_count t :
    decoded_transaction h = Ok t ->
    supported_format t = true ->
    len (tx_instructions t) <> 3 ->
    fails_before_amount self h
      ("Expected 3 instructions, got " ++ str_int (len (tx_instructions t)))
| prelude_program_out_of_range t i0 i1 i2 :
    decoded_transaction h = Ok t ->
    supported_format t = true ->
    tx_instructions t = [i0; i1; i2] ->
    account_at (tx_account_keys t) i0.(program_id_index) = None \/
    account_at (tx_account_keys t) i1.(program_id_index) = None ->
    fails_before_amount self h "list index out of range"
| prelude_not_compute_budget t i0 i1 i2 :
    decoded_transaction h = Ok t ->
    supported_format t = true ->
    tx_instructions t = [i0; i1; i2] ->
    account_at (tx_account_keys t) i0.(program_id_index) <> None ->
    account_at (tx_account_keys t) i1.(program_id_index) <> None ->
    ~ (counted_instruction (tx_account_keys t) i0 /\
       counted_instruction (tx_account_keys t) i1) ->
    fails_before_amount self h
      "First 2 instructions must be ComputeBudget instructions"
| price_data_short t i0 i1 i2 ix :
    decoded_transaction h = Ok t ->
    supported_format t = true ->
    tx_instructions t = [i0; i1; i2] ->
    checked_price_instruction (tx_account_keys t) i0 i1 ix ->
    len ix.(data) < 9 ->
    fails_before_amount self h "Invalid SetComputeUnitPrice instruction"
| price_above_maximum t i0 i1 i2 ix :
    decoded_transaction h = Ok t ->
    supported_format t = true ->
    tx_instructions t = [i0; i1; i2] ->
    checked_price_instruction (tx_account_keys t) i0 i1 ix ->
    9 <= len ix.(data) ->
    self.(settings).(max_compute_unit_price) < u64_at 1 ix.(data) ->
    fails_before_amount self h
      (price_exceeds (u64_at 1 ix.(data))
         self.(settings).(max_compute_unit_price))
| transfer_program_out_of_range t i0 i1 i2 :
    decoded_transaction h = Ok t ->
    supported_format t = true ->
    tx_instructions t = [i0; i1; i2] ->
    prelude_ok self (tx_account_keys t) i0 i1 ->
    account_at (tx_account_keys t) i2.(program_id_index) = None ->
    fails_before_amount self h "list index out of range"
| transfer_not_token_program t i0 i1 i2 program :
    decoded_transaction h = Ok t ->
    supported_format t = true ->
    tx_instructions t = [i0; i1; i2] ->
    prelude_ok self (tx_account_keys t) i0 i1 ->
    account_at (tx_account_keys t) i2.(program_id_index) = Some program ->
    program <> SPL_TOKEN_PROGRAM ->
    program <> TOKEN_2022_PROGRAM ->
    fails_before_amount self h
      "Third instruction must be SPL Token TransferChecked"
| transfer_wrong_discriminator t i0 i1 i2 :
    decoded_transaction h = Ok t ->
    supported_format t = true ->
    tx_instructions t = [i0; i1; i2] ->
    prelude_ok self (tx_account_keys t) i0 i1 ->
    token_instruction (tx_account_keys t) i2 ->
    (forall rest, i2.(data) <> x0c :: rest) ->
    fails_before_amount self h "Expected TransferChecked instruction"
| transfer_data_short t i0 i1 i2 :
    decoded_transaction h = Ok t ->
    supported_format t = true ->
    tx_instructions t = [i0; i1; i2] ->
    prelude_ok self (tx_account_keys t) i0 i1 ->
    token_instruction (tx_account_keys t) i2 ->
    (exists rest, i2.(data) = x0c :: rest) ->
    len i2.(data) < 10 ->
    fails_before_amount self h "Invalid TransferChecked data".

(** ** The requirement builder ([main.py]) *)

(** Python floats are IEEE 754 binary64 numbers. *)
Definition prec : Z := 53.
Definition emax : Z := 1024.

(** [float(n)] for an [int]: the nearest float, ties to even. *)
Definition float_of_int (n : Z) : Exc spec_float :=
  match binary_normalize prec emax n 0 false with
  | S754_infinity _ => Raise "int too large to convert to float"
  | f => Ok f
  end.

(** [int(x)] for a [float]: truncation toward zero. *)
Definition int_of_float (x : spec_float) : Exc Z :=
  match x with
  | S754_zero _ => Ok 0
  | S754_infinity _ => Raise "cannot convert float infinity to integer"
  | S754_nan => Raise "cannot convert float NaN to integer"
  | S754_finite s m e =>
      let magnitude :=
        if 0 <=? e then Z.pos m * 2 ^ e else Z.pos m / 2 ^ (- e) in
      Ok (if s then - magnitude else magnitude)
  end.

(** The nearest float, ties to even, to the decimal [n / 10^k], for
    [0 <= n] and [0 <= k]: what a correctly rounded [float()] returns for
    the numeral with digits [n] and [k] of them after the point. *)
Definition nearest_float (n k : Z) : spec_float :=
  match n with
  | Z.pos m =>
      if k =? 0 then binary_normalize prec emax n 0 false
      else SFdiv prec emax (S754_finite false m 0)
                           (S754_finite false (Z.to_pos (10 ^ k)) 0)
  | _ => S754_zero false
  end.

Definition digit_value (c : ascii) : option Z :=
  index_of c "0123456789" 0.

Fixpoint digits_value (s : string) (acc : Z) : option Z :=
  match s with
  | EmptyString => Some acc
  | String c s' =>
      match digit_value c with
      | Some d => digits_value s' (acc * 10 + d)
      | None => None
      end
  end.

Fixpoint split_at_point (s : string) : string * option string :=
  match s with
  | EmptyString => (EmptyString, None)
  | String c s' =>
      if Ascii.eqb c "."%char then (EmptyString, Some s')
      else let '(i, f) := split_at_point s' in (String c i, f)
  end.

(** A plain decimal numeral, [digits] or [digits.digits] with at least one
    digit before the point: its digits as a number, and how many of them
    follow the point. *)
Definition parse_decimal (s : string) : option (Z * Z) :=
  let '(int_part, frac) := split_at_point s in
  if String.eqb int_part "" then None
  else
    match frac with
    | None =>
        match digits_value int_part 0 with
        | Some n => Some (n, 0)
        | None => None
        end
    | Some frac_part =>
        match digits_value (int_part ++ frac_part) 0 with
        | Some n => Some (n, Z.of_nat (String.length frac_part))
        | None => None
        end
    end.

(** [s.replace(old, new_text)] for an empty [new_text] and a non-empty
    [old]: the occurrences of [old], found from the left without overlap,
    are removed. [skip] counts the characters of a match still to drop. *)
Fixpoint str_remove_from (old : string) (skip : nat) (s : string) : string :=
  match s with
  | EmptyString => EmptyString
  | String c s' =>
      match skip with
      | S skip' => str_remove_from old skip' s'
      | O =>
          if String.prefix old s
          then str_remove_from old (String.length old - 1) s'
          else String c (str_remove_from old O s')
      end
  end.

Definition str_remove (old s : string) : string := str_remove_from old 0 s.

Record PaymentRequiredResponse : Type := {
  x402_version : Z;
  accepts : list PaymentRequirements;
  response_error : string
}.

(** [GenerateRequirementsRequest] *)
Record GenerateRequirementsRequest : Type := {
  price : string;
  request_pay_to : string;
  request_resource : string;
  request_description : string;
  timeout_seconds : Z
}.

Section RequirementBuilder.

Context {py : PyBuiltins} {sol : Solders}.
Variable self : SolanaFacilitator.

(** Get the fee payer's public key. *)
Definition get_fee_payer_pubkey : Exc string :=
  match self.(facilitator_fee_payer) with
  | None => Raise "Facilitator not initialized"
  | Some fee_payer => Ok (Pubkey_str (Keypair_pubkey fee_payer))
  end.

(** [price_usd * (10 ** decimals)]: an [int] power is converted to float
    before the product. *)
Definition times_pow10 (price_usd : spec_float) (decimals : Z)
  : Exc spec_float :=
  if 0 <=? decimals then
    match float_of_int (10 ^ decimals) with
    | Ok scale => Ok (SFmul prec emax price_usd scale)
    | Raise e => Raise e
    end
  else Ok (SFmul prec emax price_usd (pow10_negative decimals)).

(** Convert USD price to USDC atomic units: the [amount_atomic] of
    [generate_requirements]. *)
Definition amount_atomic (price : string) : Exc Z :=
  run (
    price_usd <- call (py_float (str_remove "$" price)) ;;
    product <- call (times_pow10 price_usd
                       self.(settings).(usdc_decimals)) ;;
    amount <- call (int_of_float product) ;;
    Return amount).

(** Generate payment requirements for a protected resource; an exception
    becomes the detail of an HTTP 500 response. *)
Definition generate_requirements (request : GenerateRequirementsRequest)
  : Exc PaymentRequiredResponse :=
  run (
    amount <- call (amount_atomic request.(price)) ;;
    fee_payer_pubkey <- call get_fee_payer_pubkey ;;
    let requirements := {|
      scheme := "exact";
      network := str_remove "-beta" self.(settings).(solana_network);
      max_amount_required := str_int amount;
      asset := self.(settings).(usdc_mint);
      pay_to := request.(request_pay_to);
      resource := request.(request_resource);
      description := request.(request_description);
      mime_type := "application/json";
      max_timeout_seconds := request.(timeout_seconds);
      extra := {| fee_payer := fee_payer_pubkey |}
    |} in
    Return {| x402_version := 1;
              accepts := [requirements];
              response_error := "" |}).

End RequirementBuilder.

(** A request with the given price is answered with one requirement
    whose [max_amount_required] is [amount]. *)
Definition builds {py : PyBuiltins} {sol : Solders}
    (self : SolanaFacilitator) (price_text amount : string) : Prop :=
  forall request, request.(price) = price_text ->
  exists response requirements,
    generate_requirements self request = Ok response /\
    response.(accepts) = [requirements] /\
    requirements.(max_amount_required) = amount.

(** *** The price conversion as the specification words it

    Strip a leading [$] if present, parse as a decimal, multiply by
    [10^decimals] rounding to nearest even, clamp to [1, 2^64 - 1]. *)

Definition strip_leading_dollar (s : string) : string :=
  match s with
  | String c s' => if Ascii.eqb c "$"%char then s' else s
  | EmptyString => s
  end.

(** [num / den] rounded to the nearest integer, ties to even. *)
Definition round_half_even (num den : Z) : Z :=
  let q := num / den in
  let r := num mod den in
  if 2 * r <? den then q
  else if den <? 2 * r then q + 1
  else if Z.even q then q else q + 1.

Definition clamp (lo hi x : Z) : Z := Z.max lo (Z.min hi x).

Definition spec_price_conversion (decimals : Z) (price : string)
  : option Z :=
  match parse_decimal (strip_leading_dollar price) with
  | Some (n, k) =>
      Some (clamp 1 (2 ^ 64 - 1)
              (round_half_even (n * 10 ^ decimals) (10 ^ k)))
  | None => None
  end.

(** *** The price conversion in integer arithmetic

    What the floating-point product and [int()] compute, written with
    integers: a float is [m * 2^e], its product with [10^decimals] is
    rounded once to 53 significant bits, to nearest with ties to even,
    and then truncated toward zero. Nothing is clamped. The theorems of
    the builder prove this description equal to the floating-point
    operations. *)

(** The exponent of the binary64 number nearest to [m * 2^e], for
    [0 < m]: 53 significant bits, and no exponent below -1074. *)
Definition binary64_exponent (m e : Z) : Z :=
  Z.max (Z.log2 m + 1 + e - 53) (-1074).

(** [m * 2^e] rounded to binary64, ties to even: mantissa and exponent.
    The second step drops the bit that a carry out of the mantissa
    adds. *)
Definition round_binary64 (m e : Z) : Z * Z :=
  let k := Z.max 0 (binary64_exponent m e - e) in
  let q := round_half_even m (2 ^ k) in
  let k' := Z.max 0 (binary64_exponent q (e + k) - (e + k)) in
  (q / 2 ^ k', e + k + k').

(** [m * 2^e] truncated toward zero, for [0 <= m]. *)
Definition truncate (m e : Z) : Z :=
  if 0 <=? e then m * 2 ^ e else m / 2 ^ (- e).

(** [float(10 ** decimals)] for [0 <= decimals <= 15], where
    [10^decimals] has at most 53 bits and so is a binary64 number: its
    mantissa, shifted to 53 bits, and its exponent. For 6 decimals these
    are [10^6 * 2^33] and [-33]. *)
Definition scale_bits (decimals : Z) : Z := Z.log2 (10 ^ decimals) + 1.

Definition scale_mantissa (decimals : Z) : Z :=
  10 ^ decimals * 2 ^ (53 - scale_bits decimals).

Definition scale_exponent (decimals : Z) : Z := scale_bits decimals - 53.

(** The amount for the float [x] of the price. *)
Definition scaled_amount (decimals : Z) (x : spec_float) : Exc Z :=
  match x with
  | S754_zero _ => Ok 0
  | S754_infinity _ => Raise "cannot convert float infinity to integer"
  | S754_nan => Raise "cannot convert float NaN to integer"
  | S754_finite s m e =>
      let '(q, e') :=
        round_binary64 (Z.pos m * scale_mantissa decimals)
          (e + scale_exponent decimals) in
      if q =? 0 then Ok 0
      else if 971 <? e'
      then Raise "cannot convert float infinity to integer"
      else Ok (if s then - truncate q e' else truncate q e')
  end.

(** Where the remainder [r] of a division by [d] lies: zero, or below,
    at, or above the half of [d]. *)
Definition remainder_location (r d : Z) : location :=
  if r =? 0 then loc_Exact else loc_Inexact (2 * r ?= d).

(** ** Loading the key and the global instance ([facilitator.py]) *)

(** What [initialize] calls. *)
Class KeyLoading : Type := {
  (** [base58.b58decode(s)] *)
  base58_b58decode : string -> Exc bytes;
  (** [Keypair.from_bytes(b)] *)
  Keypair_from_bytes : bytes -> Exc Keypair
}.

(** The settings of the process: the record [Settings] and the setting
    [facilitator_private_key], which only [initialize] reads. *)
Record Environment : Type := {
  env_settings : Settings;
  facilitator_private_key : string
}.

(** [SolanaFacilitator()]: no RPC client yet, no fee payer. *)
Definition new_facilitator (env : Environment) : SolanaFacilitator :=
  {| settings := env.(env_settings); facilitator_fee_payer := None |}.

Section Instance.

Context {keys : KeyLoading}.
Variable env : Environment.

(** Initialize RPC client and fee payer keypair: what the call returns or
    raises, and the facilitator after it. *)
Definition initialize (self : SolanaFacilitator)
  : Exc unit * SolanaFacilitator :=
  if String.eqb env.(facilitator_private_key) "" then (Ok tt, self)
  else
    match run (secret_key <- call (base58_b58decode
                                     env.(facilitator_private_key)) ;;
               fee_payer <- call (Keypair_from_bytes secret_key) ;;
               Return fee_payer) with
    | Ok fee_payer =>
        (Ok tt, {| settings := self.(settings);
                   facilitator_fee_payer := Some fee_payer |})
    | Raise e => (Raise ("Invalid facilitator private key: " ++ e), self)
    end.

(** Get or create the global facilitator instance: the global
    [_facilitator] is passed in and out. It is assigned before
    [initialize] runs, so it stays assigned when [initialize] raises. *)
Definition get_facilitator (_facilitator : option SolanaFacilitator)
  : Exc SolanaFacilitator * option SolanaFacilitator :=
  match _facilitator with
  | Some facilitator => (Ok facilitator, _facilitator)
  | None =>
      let '(outcome, facilitator) := initialize (new_facilitator env) in
      match outcome with
      | Ok _ => (Ok facilitator, Some facilitator)
      | Raise e => (Raise e, Some facilitator)
      end
  end.

(** Close the global facilitator instance. *)
Definition close_facilitator (_facilitator : option SolanaFacilitator)
  : option SolanaFacilitator :=
  None.

(** The startup half of [lifespan] ([main.py]): the [ValueError] of a bad
    or missing key is caught and logged. *)
Definition lifespan_startup (_facilitator : option SolanaFacilitator)
  : option SolanaFacilitator :=
  snd (get_facilitator _facilitator).

End Instance.

(** ** The endpoints ([main.py]) *)

(** What the endpoints call to render a response. *)
Class JsonBuiltins : Type := {
  (** [settle_result.model_dump_json(by_alias=True)] *)
  model_dump_json : SettleResponse -> string;
  (** [base64.b64encode(b).decode()] *)
  b64encode_text : bytes -> string
}.

Inductive Content : Type :=
| PaymentRequiredContent (body : PaymentRequiredResponse)
| ProtectedContent (message secret_data : string) (tx_hash : option string)
| FeePayerContent (feePayer network : string).

(** What a handler hands to the framework: a response, an
    [HTTPException], or an exception it did not catch. *)
Inductive HttpResponse : Type :=
| JSONResponse (status_code : Z) (content : Content)
    (headers : list (string * string))
| HTTPException (status_code : Z) (detail : string)
| Unhandled (msg : string).

(** [p] then [k]: the awaits of [p] followed by those of [k]. *)
Fixpoint chain_bind {A B} (p : Chain A) (k : A -> Chain B) : Chain B :=
  match p with
  | Done a => k a
  | GetLatestBlockhash c k' =>
      GetLatestBlockhash c (fun r => chain_bind (k' r) k)
  | SendTransaction tx opts k' =>
      SendTransaction tx opts (fun r => chain_bind (k' r) k)
  end.

(** [x or default] for an [Optional[str]]: [None] and the empty string
    are falsy. *)
Definition or_default (x : option string) (default : string) : string :=
  match x with
  | None => default
  | Some s => if String.eqb s "" then default else s
  end.

(** The [message] of the protected content, as UTF-8 bytes: in the source
    file the text starts with four non-ASCII characters. *)
Definition demo_message : string :=
  string_of_list_byte [xc3; xb0; xc5; xb8; xc5; xbd; xe2; x80; xb0] ++
  " Payment successful! Here's your protected content.".

(** The answer of the demo endpoint when no key is loaded. *)
Definition demo_unavailable : HttpResponse :=
  HTTPException 503
    "Demo endpoint unavailable: facilitator not configured. Set FACILITATOR_KEYPAIR env var.".

Section Endpoints.

Context {py : PyBuiltins} {sol : Solders} {keys : KeyLoading}
        {json : JsonBuiltins}.
Variable env : Environment.

(** [POST /v1/x402/requirements], with the global passed in and out. *)
Definition generate_requirements_endpoint
    (_facilitator : option SolanaFacilitator)
    (request : GenerateRequirementsRequest)
  : HttpResponse * option SolanaFacilitator :=
  let '(got, _facilitator) := get_facilitator env _facilitator in
  (match got with
   | Raise e => HTTPException 500 e
   | Ok facilitator =>
       match generate_requirements facilitator request with
       | Ok payment_required =>
           JSONResponse 200 (PaymentRequiredContent payment_required) []
       | Raise e => HTTPException 500 e
       end
   end, _facilitator).

(** [POST /v1/x402/verify] *)
Definition verify_payment (_facilitator : option SolanaFacilitator)
    (payment_header : string) (payment_requirements : PaymentRequirements)
  : VerifyResponse * option SolanaFacilitator :=
  let '(got, _facilitator) := get_facilitator env _facilitator in
  (match got with
   | Raise e => invalid e
   | Ok facilitator =>
       verify facilitator payment_header payment_requirements
   end, _facilitator).

(** [POST /v1/x402/settle] *)
Definition settle_payment (_facilitator : option SolanaFacilitator)
    (payment_header : string) (payment_requirements : PaymentRequirements)
  : Chain SettleResponse * option SolanaFacilitator :=
  let '(got, _facilitator) := get_facilitator env _facilitator in
  (match got with
   | Raise e => Done (settle_error e)
   | Ok facilitator =>
       settle facilitator payment_header payment_requirements
   end, _facilitator).

(** [GET /v1/x402/fee-payer] *)
Definition get_fee_payer (_facilitator : option SolanaFacilitator)
  : HttpResponse * option SolanaFacilitator :=
  let '(got, _facilitator) := get_facilitator env _facilitator in
  (match got with
   | Raise e => HTTPException 500 e
   | Ok facilitator =>
       match get_fee_payer_pubkey facilitator with
       | Ok fee_payer =>
           JSONResponse 200
             (FeePayerContent fee_payer
                env.(env_settings).(solana_network)) []
       | Raise e => HTTPException 500 e
       end
   end, _facilitator).

(** Payment requirements for the demo endpoint. *)
Definition demo_requirements (fee_payer_pubkey url : string)
  : PaymentRequirements :=
  {| scheme := "exact";
     network := str_remove "-beta" env.(env_settings).(solana_network);
     max_amount_required := str_int 10000;
     asset := env.(env_settings).(usdc_mint);
     pay_to := fee_payer_pubkey;
     resource := url;
     description :=
       "Access to protected API endpoint - Real payment required: 0.01 USDC";
     mime_type := "application/json";
     max_timeout_seconds := 60;
     extra := {| fee_payer := fee_payer_pubkey |} |}.

Definition payment_required_402 (requirements : PaymentRequirements)
    (error_text : string) : HttpResponse :=
  JSONResponse 402
    (PaymentRequiredContent
       {| x402_version := 1;
          accepts := [requirements];
          response_error := error_text |}) [].

(** The handler of [GET /v1/x402/demo/protected] once [get_facilitator]
    has returned [facilitator]; [url] is [str(request.url)] and
    [x_payment] the [X-PAYMENT] header. *)
Definition demo_protected_with (facilitator : SolanaFacilitator)
    (url : string) (x_payment : option string) : Chain HttpResponse :=
  match get_fee_payer_pubkey facilitator with
  | Raise _ => Done demo_unavailable
  | Ok fee_payer_pubkey =>
      let demo_requirements := demo_requirements fee_payer_pubkey url in
      match x_payment with
      | None =>
          Done (payment_required_402 demo_requirements "Payment required")
      | Some payment =>
          if String.eqb payment "" then
            Done (payment_required_402 demo_requirements "Payment required")
          else
            let verify_result :=
              verify facilitator payment demo_requirements in
            if negb verify_result.(is_valid) then
              Done (payment_required_402 demo_requirements
                      (or_default verify_result.(invalid_reason)
                         "Invalid payment"))
            else
              chain_bind (settle facilitator payment demo_requirements)
                (fun settle_result =>
                   if negb settle_result.(success) then
                     Done (payment_required_402 demo_requirements
                             (or_default settle_result.(error)
                                "Settlement failed"))
                   else
                     let payment_response :=
                       b64encode_text
                         (list_byte_of_string
                            (model_dump_json settle_result)) in
                     Done (JSONResponse 200
                             (ProtectedContent demo_message
                                "This is the premium content you paid for."
                                settle_result.(tx_hash))
                             [("X-PAYMENT-RESPONSE", payment_response)]))
      end
  end.

(** [GET /v1/x402/demo/protected]; an exception of [get_facilitator] is
    not caught by the handler. *)
Definition demo_protected (_facilitator : option SolanaFacilitator)
    (url : string) (x_payment : option string)
  : Chain HttpResponse * option SolanaFacilitator :=
  let '(got, _facilitator) := get_facilitator env _facilitator in
  (match got with
   | Raise e => Done (Unhandled e)
   | Ok facilitator => demo_protected_with facilitator url x_payment
   end, _facilitator).

End Endpoints.

(** ** The paying client ([pay_x402.py]) *)

Record AccountMeta : Type := {
  meta_pubkey : Pubkey;
  is_signer : bool;
  is_writable : bool
}.

(** [solders.instruction.Instruction], before compilation. *)
Record Instruction : Type := {
  instruction_program_id : Pubkey;
  instruction_data : bytes;
  instruction_accounts : list AccountMeta
}.

(** The [n] low bytes of [v], least significant first. *)
Fixpoint le_bytes (n : nat) (v : Z) : bytes :=
  match n with
  | O => []
  | S n' => byte_of_Z v :: le_bytes n' (v / 256)
  end.

(** [struct.pack("<BQB", b, q, b2)]: ten bytes, no padding; a value that
    does not fit its field raises [struct.error] (its text varies with the
    Python version). *)
Definition struct_pack_BQB (b q b2 : Z) : Exc bytes :=
  if negb ((0 <=? b) && (b <=? 255)) then
    Raise "ubyte format requires 0 <= number <= 255"
  else if negb ((0 <=? q) && (q <? 2 ^ 64)) then
    Raise "argument out of range"
  else if negb ((0 <=? b2) && (b2 <=? 255)) then
    Raise "ubyte format requires 0 <= number <= 255"
  else Ok (le_bytes 1 b ++ le_bytes 8 q ++ le_bytes 1 b2)%list.

Definition TOKEN_PROGRAM_ID : Pubkey := SPL_TOKEN_PROGRAM.

(** [Signature.default()]: 64 zero bytes. *)
Definition Signature_default : Signature := repeat x00 64.

Section Client.

Context {sol : Solders}.

(** Get associated token address. *)
Definition get_associated_token_address (mint owner : Pubkey) : Pubkey :=
  let seeds := [owner; TOKEN_PROGRAM_ID; mint] in
  fst (find_program_address seeds ASSOCIATED_TOKEN_PROGRAM).

(** Create TransferChecked instruction. *)
Definition create_transfer_checked_instruction
    (source mint destination owner : Pubkey) (amount decimals : Z)
  : Exc Instruction :=
  run (
    data <- call (struct_pack_BQB 12 amount decimals) ;;
    let keys :=
      [ {| meta_pubkey := source; is_signer := false; is_writable := true |};
        {| meta_pubkey := mint; is_signer := false; is_writable := false |};
        {| meta_pubkey := destination; is_signer := false;
           is_writable := true |};
        {| meta_pubkey := owner; is_signer := true; is_writable := false |} ]
    in
    Return {| instruction_program_id := TOKEN_PROGRAM_ID;
              instruction_data := data;
              instruction_accounts := keys |}).

(** The partially signed transaction of [pay_x402]: a default signature
    for every required signer, and the customer's signature where the
    wallet's key stands among the signer keys. *)
Definition partially_signed (message : Message) (wallet : Keypair)
  : Exc Transaction :=
  run (
    let message_bytes := Message_bytes message in
    let customer_sig := sign_message wallet message_bytes in
    let num_signers :=
      Byte.to_nat message.(header).(num_required_signatures) in
    let signatures := repeat Signature_default num_signers in
    signatures <-
      for_each (enumerate (firstn num_signers message.(account_keys)))
        signatures
        (fun signatures '(i, account_key) =>
           if Pubkey_eqb account_key (Keypair_pubkey wallet)
           then call (py_setitem signatures i customer_sig)
           else Next signatures) ;;
    Return {| signatures := signatures; message := message |}).

End Client.

(** The signer positions that hold the wallet's key. *)
Definition customer_slot {sol : Solders} (wallet : Keypair) (m : Message)
    (i : nat) : bool :=
  (i <? Byte.to_nat m.(header).(num_required_signatures))%nat &&
  match nth_error m.(account_keys) i with
  | Some account_key => Pubkey_eqb account_key (Keypair_pubkey wallet)
  | None => false
  end.

(** [ix] is [instruction] compiled against [account_keys]: the same data,
    and indices that refer to the instruction's program and accounts. *)
Definition compiles (account_keys : list Pubkey) (instruction : Instruction)
    (ix : CompiledInstruction) : Prop :=
  account_at account_keys ix.(program_id_index)
    = Some instruction.(instruction_program_id) /\
  ix.(data) = instruction.(instruction_data) /\
  map (account_at account_keys) ix.(accounts)
    = map (fun meta => Some meta.(meta_pubkey))
          instruction.(instruction_accounts).

(** ** Notions about the service *)

(** The configured key cannot be loaded: there is none, or it is not
    base58, or its bytes are not a keypair. *)
Definition key_unusable {keys : KeyLoading} (env : Environment) : Prop :=
  env.(facilitator_private_key) = "" \/
  (exists e, base58_b58decode env.(facilitator_private_key) = Raise e) \/
  (exists secret_key e,
     base58_b58decode env.(facilitator_private_key) = Ok secret_key /\
     Keypair_from_bytes secret_key = Raise e).

(** [R] and [R'] agree on the amount, the asset, the recipient and the
    fee payer. *)
Definition same_terms (R R' : PaymentRequirements) : Prop :=
  R.(max_amount_required) = R'.(max_amount_required) /\
  R.(asset) = R'.(asset) /\
  R.(pay_to) = R'.(pay_to) /\
  R.(extra).(fee_payer) = R'.(extra).(fee_payer).

(** ** An executable instance of the interfaces

    Used to run the model on concrete payments.  Base64 and the
    transaction wire format (signatures, header, account keys, block hash,
    instructions, each list with a shortvec length) are implemented; the
    functions built on hashing and on Ed25519 (program addresses,
    signatures, message hashes) are stand-ins of the right shape, as a
    test double for the libraries would be. *)

Module Reference.

Definition Parser (A : Type) : Type := bytes -> option (A * bytes).

Definition take (n : nat) : Parser bytes :=
  fun b =>
    if (List.length b <? n)%nat then None else Some (firstn n b, skipn n b).

Fixpoint shortvec_len_from (fuel : nat) (shift acc : Z) : Parser Z :=
  fun b =>
    match fuel, b with
    | S fuel', x :: rest =>
        let v := byte_val x in
        let acc' := acc + (v mod 128) * 2 ^ shift in
        if v <? 128 then Some (acc', rest)
        else shortvec_len_from fuel' (shift + 7) acc' rest
    | _, _ => None
    end.

Definition shortvec_len : Parser Z := shortvec_len_from 3 0 0.

Fixpoint times {A} (n : nat) (p : Parser A) : Parser (list A) :=
  fun b =>
    match n with
    | O => Some ([], b)
    | S n' =>
        match p b with
        | Some (x, rest) =>
            match times n' p rest with
            | Some (xs, rest') => Some (x :: xs, rest')
            | None => None
            end
        | None => None
        end
    end.

Definition shortvec {A} (p : Parser A) : Parser (list A) :=
  fun b =>
    match shortvec_len b with
    | Some (n, rest) => times (Z.to_nat n) p rest
    | None => None
    end.

Definition shortvec_bytes : Parser bytes :=
  fun b =>
    match shortvec_len b with
    | Some (n, rest) => take (Z.to_nat n) rest
    | None => None
    end.

Definition parse_instruction : Parser CompiledInstruction :=
  fun b =>
    match b with
    | pid :: rest =>
        match shortvec_bytes rest with
        | Some (accs, rest') =>
            match shortvec_bytes rest' with
            | Some (d, rest'') =>
                Some ({| program_id_index := pid; accounts := accs;
                         data := d |}, rest'')
            | None => None
            end
        | None => None
        end
    | [] => None
    end.

Definition parse_message : Parser Message :=
  fun b =>
    match b with
    | h0 :: h1 :: h2 :: rest =>
        match shortvec (take 32) rest with
        | Some (keys, rest1) =>
            match take 32 rest1 with
            | Some (blockhash, rest2) =>
                match shortvec parse_instruction rest2 with
                | Some (ixs, rest3) =>
                    Some ({| header :=
                               {| num_required_signatures := h0;
                                  num_readonly_signed_accounts := h1;
                                  num_readonly_unsigned_accounts := h2 |};
                             account_keys := keys;
                             recent_blockhash := blockhash;
                             instructions := ixs |}, rest3)
                | None => None
                end
            | None => None
            end
        | None => None
        end
    | _ => None
    end.

Definition parse_lookup : Parser MessageAddressTableLookup :=
  fun b =>
    match take 32 b with
    | Some (key, rest) =>
        match shortvec_bytes rest with
        | Some (w, rest') =>
            match shortvec_bytes rest' with
            | Some (r, rest'') =>
                Some ({| lookup_account_key := key; writable_indexes := w;
                         readonly_indexes := r |}, rest'')
            | None => None
            end
        | None => None
        end
    | None => None
    end.

Definition is_versioned (b : bytes) : bool :=
  match b with
  | x :: _ => 128 <=? byte_val x
  | [] => false
  end.

Definition parse_versioned_message : Parser VersionedMessage :=
  fun b =>
    match b with
    | x :: rest =>
        if byte_val x =? 128 then
          match parse_message rest with
          | Some (m, rest') =>
              match shortvec parse_lookup rest' with
              | Some (lookups, rest'') =>
                  Some (V0Message
                          {| v0_header := m.(header);
                             v0_account_keys := m.(account_keys);
                             v0_recent_blockhash := m.(recent_blockhash);
                             v0_instructions := m.(instructions);
                             v0_address_table_lookups := lookups |}, rest'')
              | None => None
              end
          | None => None
          end
        else if 128 <? byte_val x then None
        else
          match parse_message b with
          | Some (m, rest') => Some (LegacyMessage m, rest')
          | None => None
          end
    | [] => None
    end.

Definition Transaction_from_bytes (b : bytes) : Exc Transaction :=
  match shortvec (take 64) b with
  | Some (sigs, rest) =>
      if is_versioned rest then Raise "not a legacy transaction"
      else
        match parse_message rest with
        | Some (m, []) => Ok {| signatures := sigs; message := m |}
        | _ => Raise "failed to deserialize transaction"
        end
  | None => Raise "failed to deserialize transaction"
  end.

Definition VersionedTransaction_from_bytes (b : bytes)
  : Exc VersionedTransaction :=
  match shortvec (take 64) b with
  | Some (sigs, rest) =>
      match parse_versioned_message rest with
      | Some (m, []) => Ok {| v_signatures := sigs; v_message := m |}
      | _ => Raise "failed to deserialize versioned transaction"
      end
  | None => Raise "failed to deserialize versioned transaction"
  end.

(** Serialization *)

Definition encode_len (n : Z) : bytes :=
  if n <? 128 then [byte_of_Z n]
  else if n <? 16384 then [byte_of_Z (n mod 128 + 128); byte_of_Z (n / 128)]
  else [byte_of_Z (n mod 128 + 128); byte_of_Z (n / 128 mod 128 + 128);
        byte_of_Z (n / 16384)].

Definition encode_instruction (ix : CompiledInstruction) : bytes :=
  (ix.(program_id_index) :: encode_len (len ix.(accounts)) ++ ix.(accounts)
   ++ encode_len (len ix.(data)) ++ ix.(data))%list.

Definition encode_header (h : MessageHeader) : bytes :=
  [h.(num_required_signatures); h.(num_readonly_signed_accounts);
   h.(num_readonly_unsigned_accounts)].

Definition Message_bytes (m : Message) : bytes :=
  (encode_header m.(header)
   ++ encode_len (len m.(account_keys)) ++ List.concat m.(account_keys)
   ++ m.(recent_blockhash)
   ++ encode_len (len m.(instructions))
   ++ List.concat (map encode_instruction m.(instructions)))%list.

Definition encode_lookup (l : MessageAddressTableLookup) : bytes :=
  (l.(lookup_account_key)
   ++ encode_len (len l.(writable_indexes)) ++ l.(writable_indexes)
   ++ encode_len (len l.(readonly_indexes)) ++ l.(readonly_indexes))%list.

Definition VersionedMessage_bytes (m : VersionedMessage) : bytes :=
  match m with
  | LegacyMessage m => Message_bytes m
  | V0Message m =>
      (byte_of_Z 128 ::
       Message_bytes {| header := m.(v0_header);
                        account_keys := m.(v0_account_keys);
                        recent_blockhash := m.(v0_recent_blockhash);
                        instructions := m.(v0_instructions) |}
       ++ encode_len (len m.(v0_address_table_lookups))
       ++ List.concat (map encode_lookup m.(v0_address_table_lookups)))%list
  end.

(** [bytes(tx)] *)
Definition AnyTransaction_bytes (t : AnyTransaction) : bytes :=
  match t with
  | LegacyTx tx =>
      (encode_len (len tx.(signatures)) ++ List.concat tx.(signatures)
       ++ Message_bytes tx.(message))%list
  | VersionedTx tx =>
      (encode_len (len tx.(v_signatures)) ++ List.concat tx.(v_signatures)
       ++ VersionedMessage_bytes tx.(v_message))%list
  end.

(** Base64, standard alphabet with padding. *)

Definition b64_alphabet : string :=
  "ABCDEFGHIJKLMNOPQRSTUVWXYZabcdefghijklmnopqrstuvwxyz0123456789+/".

Fixpoint b64_sextets (s : string) : option (list Z) :=
  match s with
  | EmptyString => Some []
  | String c s' =>
      if Ascii.eqb c "="%char then
        if String.eqb s' "" || String.eqb s' "=" then Some [] else None
      else
        match index_of c b64_alphabet 0, b64_sextets s' with
        | Some v, Some vs => Some (v :: vs)
        | _, _ => None
        end
  end.

Fixpoint b64_octets (l : list Z) : list Z :=
  match l with
  | a :: b :: c :: d :: rest =>
      a * 4 + b / 16 :: b mod 16 * 16 + c / 4 :: c mod 4 * 64 + d
      :: b64_octets rest
  | [a; b; c] => [a * 4 + b / 16; b mod 16 * 16 + c / 4]
  | [a; b] => [a * 4 + b / 16]
  | _ => []
  end.

Definition b64decode (s : string) : Exc bytes :=
  if negb (Nat.eqb (String.length s mod 4) 0) then Raise "Incorrect padding"
  else
    match b64_sextets s with
    | Some l => Ok (map byte_of_Z (b64_octets l))
    | None => Raise "Invalid base64-encoded string"
    end.

Definition b64_char (v : Z) : ascii :=
  match String.get (Z.to_nat v) b64_alphabet with
  | Some c => c
  | None => "="%char
  end.

Fixpoint b64_chars (l : list Z) : list ascii :=
  match l with
  | a :: b :: c :: rest =>
      b64_char (a / 4) :: b64_char (a mod 4 * 16 + b / 16)
      :: b64_char (b mod 16 * 4 + c / 64) :: b64_char (c mod 64)
      :: b64_chars rest
  | [a; b] =>
      [b64_char (a / 4); b64_char (a mod 4 * 16 + b / 16);
       b64_char (b mod 16 * 4); "="%char]
  | [a] => [b64_char (a / 4); b64_char (a mod 4 * 16); "="%char; "="%char]
  | [] => []
  end.

Definition b64encode (b : bytes) : string :=
  string_of_list_ascii (b64_chars (map byte_val b)).

Definition byte_xor (a b : byte) : byte :=
  byte_of_Z (Z.lxor (byte_val a) (byte_val b)).

(** Stand-in for a hash: every input byte is folded into a state that is
    rotated by one position each time. *)
Definition absorb (state : bytes) (x : byte) : bytes :=
  match state with
  | [] => []
  | s0 :: rest => (rest ++ [byte_xor s0 x])%list
  end.

Definition digest (size : nat) (input : bytes) : bytes :=
  fold_left absorb input (repeat x00 size).

Definition find_program_address (seeds : list bytes) (program : Pubkey)
  : Pubkey * Z :=
  (digest 32 (List.concat seeds ++ program)%list, 255).

(** The second half of a 64-byte keypair is its public key. *)
Definition Keypair_pubkey (k : Keypair) : Pubkey := skipn 32 k.

Definition sign_message (k : Keypair) (msg : bytes) : Signature :=
  fold_left absorb msg (firstn 32 k ++ digest 32 msg)%list.

Definition Message_hash (m : VersionedMessage) : bytes :=
  digest 32 (VersionedMessage_bytes m).

(** [int(s)] on an optional minus sign and digits. *)
Definition py_int (s : string) : Exc Z :=
  let invalid_literal :=
    Raise ("invalid literal for int() with base 10: '" ++ s ++ "'") in
  match s with
  | EmptyString => invalid_literal
  | String c s' =>
      if Ascii.eqb c "-"%char then
        match s' with
        | EmptyString => invalid_literal
        | _ =>
            match digits_value s' 0 with
            | Some n => Ok (- n)
            | None => invalid_literal
            end
        end
      else
        match digits_value s 0 with
        | Some n => Ok n
        | None => invalid_literal
        end
  end.

(** [float(s)] on plain decimal numerals. *)
Definition py_float (s : string) : Exc spec_float :=
  match parse_decimal s with
  | Some (n, k) => Ok (nearest_float n k)
  | None => Raise ("could not convert string to float: '" ++ s ++ "'")
  end.

Definition pow10_negative (d : Z) : spec_float := nearest_float 1 (- d).

#[export] Instance builtins : PyBuiltins :=
  Build_PyBuiltins b64decode py_int py_float pow10_negative.

#[export] Instance solders : Solders :=
  Build_Solders Transaction_from_bytes VersionedTransaction_from_bytes
    find_program_address Keypair_pubkey sign_message Message_bytes
    Message_hash.

End Reference.

(** ** A concrete payment

    The transaction that [pay_x402.py] builds for the demo requirement
    (0.01 USDC): the facilitator pays the fee, the customer signs the
    transfer. *)

Module Example.

Import Reference.

Definition key_from (first : Z) : Pubkey :=
  map (fun i => byte_of_Z (first + Z.of_nat i)) (seq 0 32).

Definition facilitator_key : Pubkey := Eval vm_compute in key_from 1.
Definition customer_key : Pubkey := Eval vm_compute in key_from 33.
Definition merchant_key : Pubkey := Eval vm_compute in key_from 65.
Definition customer_ata : Pubkey := Eval vm_compute in key_from 97.

Definition facilitator_keypair : Keypair :=
  Eval vm_compute in (repeat x07 32 ++ facilitator_key)%list.

Definition facilitator : SolanaFacilitator :=
  {| settings := default_settings;
     facilitator_fee_payer := Some facilitator_keypair |}.

Definition USDC_MINT : Pubkey :=
  Eval vm_compute in
    pubkey_literal "EPjFWdd5AufqSSqeM2qN1xzybapC8G4wEGGkZwyTDt1v".

Definition merchant_ata : Pubkey :=
  Eval vm_compute in
    fst (find_program_address [merchant_key; SPL_TOKEN_PROGRAM; USDC_MINT]
           ASSOCIATED_TOKEN_PROGRAM).

Definition requirements : PaymentRequirements :=
  Eval vm_compute in
  {| scheme := "exact";
     network := "solana";
     max_amount_required := "10000";
     asset := Pubkey_str USDC_MINT;
     pay_to := Pubkey_str merchant_key;
     resource := "https://example.com/api";
     description := "Test payment";
     mime_type := "application/json";
     max_timeout_seconds := 60;
     extra := {| fee_payer := Pubkey_str facilitator_key |} |}.

(** [struct.pack("<Q", n)] *)
Definition pack_u64 (n : Z) : bytes :=
  map (fun i => byte_of_Z (n / 256 ^ Z.of_nat i)) (seq 0 8).

Definition set_compute_unit_price (micro_lamports : Z) (program : byte)
  : CompiledInstruction :=
  {| program_id_index := program; accounts := [];
     data := x03 :: pack_u64 micro_lamports |}.

Definition set_compute_unit_limit (units : Z) (program : byte)
  : CompiledInstruction :=
  {| program_id_index := program; accounts := [];
     data := x02 :: firstn 4 (pack_u64 units) |}.

Definition transfer_checked (amount : Z) (decimals : byte) (program : byte)
    (accs : bytes) : CompiledInstruction :=
  {| program_id_index := program; accounts := accs;
     data := (x0c :: pack_u64 amount ++ [decimals])%list |}.

Definition payment_keys : list Pubkey :=
  [facilitator_key; customer_key; customer_ata; merchant_ata;
   USDC_MINT; SPL_TOKEN_PROGRAM; COMPUTE_BUDGET_PROGRAM].

Definition payment_header_bytes : MessageHeader :=
  {| num_required_signatures := x02;
     num_readonly_signed_accounts := x01;
     num_readonly_unsigned_accounts := x03 |}.

Definition blockhash : bytes := Eval vm_compute in key_from 200.

Definition payment_message : Message :=
  {| header := payment_header_bytes;
     account_keys := payment_keys;
     recent_blockhash := blockhash;
     instructions :=
       [set_compute_unit_price 5 x06;
        set_compute_unit_limit 200000 x06;
        transfer_checked 10000 x06 x05 [x02; x04; x03; x01]] |}.

Definition absent_signature : Signature := repeat x00 64.
Definition customer_signature : Signature :=
  Eval vm_compute in (key_from 10 ++ key_from 50)%list.

Definition payment : Transaction :=
  {| signatures := [absent_signature; customer_signature];
     message := payment_message |}.

(** The [X-PAYMENT] header: [base64.b64encode(bytes(tx))]. *)
Definition header_of (t : AnyTransaction) : string :=
  b64encode (AnyTransaction_bytes t).

Definition payment_header : string :=
  Eval vm_compute in header_of (LegacyTx payment).

(** The same message with no signature at all. *)
Definition unsigned_payment : Transaction :=
  {| signatures := [absent_signature; absent_signature];
     message := payment_message |}.

Definition unsigned_payment_header : string :=
  Eval vm_compute in header_of (LegacyTx unsigned_payment).

Definition with_instructions (ixs : list CompiledInstruction) : Transaction :=
  {| signatures := [absent_signature; customer_signature];
     message :=
       {| header := payment_header_bytes;
          account_keys := payment_keys;
          recent_blockhash := blockhash;
          instructions := ixs |} |}.

(** Two compute-unit-limit instructions and no price instruction. *)
Definition two_limits : Transaction :=
  with_instructions
    [set_compute_unit_limit 200000 x06;
     set_compute_unit_limit 1400000 x06;
     transfer_checked 10000 x06 x05 [x02; x04; x03; x01]].

Definition two_limits_header : string :=
  Eval vm_compute in header_of (LegacyTx two_limits).

(** Two compute-unit-price instructions, the first far above the limit. *)
Definition two_prices : Transaction :=
  with_instructions
    [set_compute_unit_price 1000000 x06;
     set_compute_unit_price 5 x06;
     transfer_checked 10000 x06 x05 [x02; x04; x03; x01]].

Definition two_prices_header : string :=
  Eval vm_compute in header_of (LegacyTx two_prices).

(** A transfer of 9999 followed by a fourth instruction. *)
Definition four_instructions : Transaction :=
  with_instructions
    [set_compute_unit_price 5 x06;
     set_compute_unit_limit 200000 x06;
     transfer_checked 9999 x06 x05 [x02; x04; x03; x01];
     set_compute_unit_limit 200000 x06].

Definition four_instructions_header : string :=
  Eval vm_compute in header_of (LegacyTx four_instructions).

(** A transfer of 9999 in an otherwise well-formed payment. *)
Definition wrong_amount : Transaction :=
  with_instructions
    [set_compute_unit_price 5 x06;
     set_compute_unit_limit 200000 x06;
     transfer_checked 9999 x06 x05 [x02; x04; x03; x01]].

Definition wrong_amount_header : string :=
  Eval vm_compute in header_of (LegacyTx wrong_amount).

(** A transfer with a fifth account, as a multisignature authority adds. *)
Definition five_accounts : Transaction :=
  with_instructions
    [set_compute_unit_price 5 x06;
     set_compute_unit_limit 200000 x06;
     transfer_checked 10000 x06 x05 [x02; x04; x03; x01; x01]].

Definition five_accounts_header : string :=
  Eval vm_compute in header_of (LegacyTx five_accounts).

(** The customer pays the fee: one signer, the facilitator nowhere. *)
Definition self_paid : Transaction :=
  {| signatures := [customer_signature];
     message :=
       {| header :=
            {| num_required_signatures := x01;
               num_readonly_signed_accounts := x00;
               num_readonly_unsigned_accounts := x03 |};
          account_keys :=
            [customer_key; customer_ata; merchant_ata;
             USDC_MINT; SPL_TOKEN_PROGRAM; COMPUTE_BUDGET_PROGRAM];
          recent_blockhash := blockhash;
          instructions :=
            [set_compute_unit_price 5 x05;
             set_compute_unit_limit 200000 x05;
             transfer_checked 10000 x06 x04 [x01; x03; x02; x00]] |} |}.

Definition self_paid_header : string :=
  Eval vm_compute in header_of (LegacyTx self_paid).

(** The facilitator is the second signer, behind the customer. *)
Definition facilitator_second : Transaction :=
  {| signatures := [customer_signature; absent_signature];
     message :=
       {| header := payment_header_bytes;
          account_keys :=
            [customer_key; facilitator_key; customer_ata; merchant_ata;
             USDC_MINT; SPL_TOKEN_PROGRAM; COMPUTE_BUDGET_PROGRAM];
          recent_blockhash := blockhash;
          instructions :=
            [set_compute_unit_price 5 x06;
             set_compute_unit_limit 200000 x06;
             transfer_checked 10000 x06 x05 [x02; x04; x03; x00]] |} |}.

Definition facilitator_second_header : string :=
  Eval vm_compute in header_of (LegacyTx facilitator_second).

(** The payment as a versioned transaction with a v0 message. *)
Definition versioned_payment : VersionedTransaction :=
  {| v_signatures := [absent_signature; customer_signature];
     v_message :=
       V0Message
         {| v0_header := payment_header_bytes;
            v0_account_keys := payment_keys;
            v0_recent_blockhash := blockhash;
            v0_instructions := payment_message.(instructions);
            v0_address_table_lookups := [] |} |}.

Definition versioned_payment_header : string :=
  Eval vm_compute in header_of (VersionedTx versioned_payment).

(** A transfer of 9999 that also declares 9 decimals. *)
Definition wrong_amount_and_decimals : Transaction :=
  with_instructions
    [set_compute_unit_price 5 x06;
     set_compute_unit_limit 200000 x06;
     transfer_checked 9999 x09 x05 [x02; x04; x03; x01]].

Definition wrong_amount_and_decimals_header : string :=
  Eval vm_compute in header_of (LegacyTx wrong_amount_and_decimals).

(** A compute-unit price of 6, above the default maximum of 5. *)
Definition high_price : Transaction :=
  with_instructions
    [set_compute_unit_price 6 x06;
     set_compute_unit_limit 200000 x06;
     transfer_checked 10000 x06 x05 [x02; x04; x03; x01]].

Definition high_price_header : string :=
  Eval vm_compute in header_of (LegacyTx high_price).

(** The payment with an empty signature array. *)
Definition no_signature_slots : Transaction :=
  {| signatures := []; message := payment_message |}.

Definition no_signature_slots_header : string :=
  Eval vm_compute in header_of (LegacyTx no_signature_slots).

Definition mock_rpc : MockRpc :=
  {| latest_blockhash := Ok blockhash;
     send_result := fun _ => Ok "5VERv8NMvzbJMEkV8xnrLkEaWRtSz9CosKDYjCJjBRnbJLgp8uirBgmQpjKhoR4tjF3ZpRzrFmBV6UjKdiSZkQUW" |}.

End Example.

(** ** A concrete service
    A key in the environment, stand-ins for the key loader and the JSON
    encoder, and a payment for the demo endpoint. *)

Module Service.

Definition base58_b58decode (s : string) : Exc bytes :=
  match b58decode s with
  | Some b => Ok b
  | None => Raise "Invalid character"
  end.

Definition Keypair_from_bytes (b : bytes) : Exc Keypair :=
  if (List.length b =? 64)%nat then Ok b
  else Raise "signature error".

Definition keys : KeyLoading :=
  Build_KeyLoading base58_b58decode Keypair_from_bytes.

Definition quote : string := String (ascii_of_nat 34) EmptyString.

Definition json_str (s : string) : string := quote ++ s ++ quote.

Definition json_opt (x : option string) : string :=
  match x with
  | Some s => json_str s
  | None => "null"
  end.

Definition model_dump_json (r : SettleResponse) : string :=
  "{" ++ json_str "success" ++ ":" ++
  (if r.(success) then "true" else "false") ++ "," ++
  json_str "error" ++ ":" ++ json_opt r.(error) ++ "," ++
  json_str "txHash" ++ ":" ++ json_opt r.(tx_hash) ++ "," ++
  json_str "network" ++ ":" ++ json_opt r.(settle_network) ++ "," ++
  json_str "payer" ++ ":" ++ json_opt r.(payer) ++ "}".

Definition json : JsonBuiltins :=
  Build_JsonBuiltins model_dump_json Reference.b64encode.

Definition env : Environment :=
  Eval vm_compute in
  {| env_settings := default_settings;
     facilitator_private_key := b58encode Example.facilitator_keypair |}.

(** [0], [O], [I] and [l] are not base58 digits. *)
Definition bad_env : Environment :=
  {| env_settings := default_settings;
     facilitator_private_key := "0OIl" |}.

Definition url : string := "http://localhost:8402/v1/x402/demo/protected".

Definition facilitator_ata : Pubkey :=
  Eval vm_compute in
    fst (Reference.find_program_address
           [Example.facilitator_key; SPL_TOKEN_PROGRAM; Example.USDC_MINT]
           ASSOCIATED_TOKEN_PROGRAM).

(** The payment of the demo: 10000 units to the facilitator's own token
    account. *)
Definition demo_payment : Transaction :=
  {| signatures := [Example.absent_signature; Example.customer_signature];
     message :=
       {| header := Example.payment_header_bytes;
          account_keys :=
            [Example.facilitator_key; Example.customer_key;
             Example.customer_ata; facilitator_ata; Example.USDC_MINT;
             SPL_TOKEN_PROGRAM; COMPUTE_BUDGET_PROGRAM];
          recent_blockhash := Example.blockhash;
          instructions := Example.payment_message.(instructions) |} |}.

Definition demo_payment_header : string :=
  Eval vm_compute in Example.header_of (LegacyTx demo_payment).

(** The requirement of [Example] for another resource on another
    network. *)
Definition elsewhere : PaymentRequirements :=
  {| scheme := "exact";
     network := "solana-devnet";
     max_amount_required := Example.requirements.(max_amount_required);
     asset := Example.requirements.(asset);
     pay_to := Example.requirements.(pay_to);
     resource := "https://example.com/other";
     description := "Another resource";
     mime_type := "text/plain";
     max_timeout_seconds := 5;
     extra := Example.requirements.(extra) |}.

(** The customer's wallet, and the payment as the client signs it. *)
Definition customer_keypair : Keypair :=
  Eval vm_compute in (repeat x09 32 ++ Example.customer_key)%list.

Definition client_payment : Transaction :=
  Eval vm_compute in
  match @partially_signed Reference.solders Example.payment_message
          customer_keypair with
  | Ok tx => tx
  | Raise _ => Example.unsigned_payment
  end.

Definition client_payment_header : string :=
  Eval vm_compute in Example.header_of (LegacyTx client_payment).

(** No address: 45 characters, the first outside the base58 alphabet. *)
Definition overlong_address : string :=
  "011111111111111111111111111111111111111111111".

(** A node that has no block hash to give. *)
Definition failing_rpc : MockRpc :=
  {| latest_blockhash := Raise "Connection refused";
     send_result := fun _ => Raise "Connection refused" |}.

End Service.

(** * Properties *)

(** ** Basic facts *)

Lemma Pubkey_eqb_eq (a b : Pubkey) : Pubkey_eqb a b = true <-> a = b.
Proof.
  unfold Pubkey_eqb. revert b.
  induction a as [|x a IH]; intros [|y b]; simpl; split; intro H;
    try reflexivity; try discriminate.
  - apply andb_true_iff in H as [Hx Hab].
    apply Byte.byte_dec_bl in Hx. apply IH in Hab. now subst.
  - injection H as -> ->. apply andb_true_iff. split.
    + now apply Byte.byte_dec_lb.
    + now apply IH.
Qed.

Lemma Pubkey_eqb_neq (a b : Pubkey) : Pubkey_eqb a b = false <-> a <> b.
Proof.
  split.
  - intros H E. apply Pubkey_eqb_eq in E. congruence.
  - intro H. destruct (Pubkey_eqb a b) eqn:E; [|reflexivity].
    apply Pubkey_eqb_eq in E. contradiction.
Qed.

Lemma py_index_Ok {A} (l : list A) i x :
  py_index l i = Ok x <-> nth_error l i = Some x.
Proof.
  unfold py_index. destruct (nth_error l i); split; congruence.
Qed.

Lemma prefix_refl (s : string) : String.prefix s s = true.
Proof.
  induction s as [|c s IH]; [reflexivity|].
  cbn [String.prefix]. destruct (Ascii.ascii_dec c c); [assumption|].
  contradiction.
Qed.

Lemma contains_append (before s : string) : contains s (before ++ s) = true.
Proof.
  induction before as [|c before IH].
  - destruct s; cbn [append contains]; rewrite prefix_refl; reflexivity.
  - cbn [append contains]. rewrite IH. apply orb_true_r.
Qed.

Lemma byte_val_inj (a b : byte) : byte_val a = byte_val b -> a = b.
Proof.
  unfold byte_val. intro H. apply N2Z.inj in H.
  assert (E : Byte.of_N (Byte.to_N a) = Byte.of_N (Byte.to_N b))
    by now rewrite H.
  rewrite !Byte.of_to_N in E. now injection E.
Qed.

(** Case analysis on the innermost scrutinee of a hypothesis about a
    body; the branches that contradict the hypothesis are closed. *)
Ltac break_innermost H :=
  match type of H with
  | context [match for_each ?l ?s ?body with _ => _ end] =>
      destruct (for_each l s body) eqn:?
  | context [match ?x with _ => _ end] =>
      lazymatch x with
      | context [match _ with _ => _ end] => fail
      | _ => destruct x eqn:?
      end
  end.

Ltac flow_step H :=
  cbv beta iota zeta delta [fbind call return_if run try_return
                            try_except negb is_valid invalid] in H.

Ltac flow_inv H :=
  repeat (flow_step H; try discriminate H; break_innermost H);
  flow_step H; try discriminate H.

(** ** The verifier, by cases on the decoded transaction *)

Section VerifierFacts.

Context {py : PyBuiltins} {sol : Solders}.
Variable self : SolanaFacilitator.

Lemma verify_cases (h : string) (R : PaymentRequirements) :
  verify self h R =
  match decoded_transaction h with
  | Raise e => invalid e
  | Ok t =>
      if supported_format t
      then try_return
             (verify_checks self (tx_instructions t) (tx_account_keys t) R)
             invalid
      else invalid "Unsupported transaction format"
  end.
Proof.
  unfold verify, decoded_transaction.
  destruct (b64decode h) as [tx_bytes|e]; [|reflexivity].
  cbn [call fbind try_except].
  destruct (Transaction_from_bytes tx_bytes) as [tx|e]; [reflexivity|].
  cbn [call fbind try_except].
  destruct (VersionedTransaction_from_bytes tx_bytes) as [tx|e2];
    [|reflexivity].
  cbn [call fbind try_except supported_format tx_instructions
       tx_account_keys].
  destruct (v_message tx); reflexivity.
Qed.

Ltac clean_facts :=
  repeat match goal with
    | H : py_index _ _ = Ok _ |- _ => apply py_index_Ok in H
    | H : Pubkey_eqb _ _ = true |- _ => apply Pubkey_eqb_eq in H
    | H : Pubkey_eqb _ _ = false |- _ => apply Pubkey_eqb_neq in H
    | H : Ok _ = Ok _ |- _ => injection H as H
    | H : Some _ = Some _ |- _ => injection H as H
    | H : Next _ = Next _ |- _ => injection H as H
    | H : Return _ = Return _ |- _ => injection H as H
    | H : (_, _) = (_, _) |- _ => injection H as ? ?
    | H : (_ || _) = true |- _ => apply orb_true_iff in H
    | H : (_ || _) = false |- _ => apply orb_false_iff in H as [? ?]
    | H : (_ =? _) = true |- _ => apply Z.eqb_eq in H
    | H : (_ =? _) = false |- _ => apply Z.eqb_neq in H
    | H : (_ <? _) = false |- _ => apply Z.ltb_ge in H
    | H : (_ <? _) = true |- _ => apply Z.ltb_lt in H
    | H : (_ >? _) = false |- _ => rewrite Z.gtb_ltb in H
    | H : (_ >? _) = true |- _ => rewrite Z.gtb_ltb in H
    end.

(** *** The compute-budget test *)

Lemma is_compute_budget_inv ix keys d :
  _is_compute_budget_instruction ix keys d = Ok true ->
  account_at keys ix.(program_id_index) = Some COMPUTE_BUDGET_PROGRAM /\
  exists d0 rest, ix.(data) = d0 :: rest /\ byte_val d0 = d.
Proof.
  unfold _is_compute_budget_instruction, account_at. intro H.
  flow_inv H. clean_facts. subst. split; [assumption|].
  destruct (data ix) as [|d0 rest]; [discriminate|].
  exists d0, rest. split; [reflexivity|].
  cbn in *. congruence.
Qed.

(** *** The price check *)

Lemma verify_compute_price_inv ix r :
  _verify_compute_price self ix = Ok (true, r) ->
  9 <= len ix.(data) /\
  u64_at 1 ix.(data) <= self.(settings).(max_compute_unit_price).
Proof.
  unfold _verify_compute_price, u64_at. intro H.
  flow_inv H. clean_facts. split; [assumption|].
  cbn [Nat.add]. lia.
Qed.

(** *** The transfer check *)

Lemma verify_transfer_inv ix keys R r :
  _verify_transfer_instruction self ix keys R = Ok (true, r) ->
  exists token_program required_amount data9 accounts1 accounts2
         mint destination pay_to_key,
    account_at keys ix.(program_id_index) = Some token_program /\
    (token_program = SPL_TOKEN_PROGRAM \/
     token_program = TOKEN_2022_PROGRAM) /\
    (exists rest, ix.(data) = x0c :: rest) /\
    10 <= len ix.(data) /\
    py_int R.(max_amount_required) = Ok required_amount /\
    u64_at 1 ix.(data) = required_amount /\
    nth_error ix.(data) 9 = Some data9 /\
    byte_val data9 = self.(settings).(usdc_decimals) /\
    4 <= len ix.(accounts) /\
    nth_error ix.(accounts) 1 = Some accounts1 /\
    account_at keys accounts1 = Some mint /\
    Pubkey_from_string R.(asset) = Ok mint /\
    nth_error ix.(accounts) 2 = Some accounts2 /\
    account_at keys accounts2 = Some destination /\
    Pubkey_from_string R.(pay_to) = Ok pay_to_key /\
    destination =
      fst (find_program_address [pay_to_key; token_program; mint]
             ASSOCIATED_TOKEN_PROGRAM).
Proof.
  unfold _verify_transfer_instruction, _get_associated_token_address,
    account_at, u64_at.
  intro H. flow_inv H. clean_facts.
  match goal with
  | Hp : find_program_address _ _ = (?p, _) |- _ =>
      exists a, a2, a1, a3, a6, a5, a7, a8; subst; rewrite Hp
  end.
  repeat split; try assumption; try reflexivity.
  - destruct Heqb as [E|E]; apply Pubkey_eqb_eq in E; auto.
  - destruct (data ix) as [|d0 rest]; [discriminate|].
    exists rest. cbn in Heqe0. injection Heqe0 as ->.
    f_equal. now apply byte_val_inj.
Qed.

Ltac flow_goal :=
  cbv beta iota zeta delta [fbind call return_if run try_return
                            try_except negb is_valid invalid].

Ltac replay :=
  repeat (flow_goal;
          match goal with
          | Heq : ?lhs = _ |- context [?lhs] => rewrite Heq
          end);
  flow_goal.

Lemma transfer_wrong_amount ix keys R r s' n' :
  _verify_transfer_instruction self ix keys R = Ok (true, r) ->
  py_int s' = Ok n' ->
  n' <> u64_at 1 ix.(data) ->
  _verify_transfer_instruction self ix keys (with_max_amount R s')
  = Ok (false, Some (amount_mismatch (u64_at 1 ix.(data)) n')).
Proof.
  unfold _verify_transfer_instruction, u64_at, amount_mismatch.
  intros H Hs Hne. flow_inv H.
  cbn [with_max_amount max_amount_required asset pay_to Nat.add] in *.
  assert (Hcmp : (unpack_le (py_slice (data ix) 1 9) =? n') = false)
    by (apply Z.eqb_neq; congruence).
  replay. reflexivity.
Qed.

(** *** The loops *)

Lemma for_each_unit_inv {R A} (l : list A) (body : unit -> A -> Flow R unit) :
  for_each l tt body = Next tt ->
  forall x, In x l -> body tt x = Next tt.
Proof.
  induction l as [|y l IH]; cbn [for_each]; intros H x Hin.
  - contradiction.
  - unfold fbind in H. destruct (body tt y) as [[]| |] eqn:Hy;
      try discriminate.
    destruct Hin as [->|Hin]; [assumption|]. now apply IH.
Qed.

(** *** All checks *)

Lemma three_instructions {A} (l : list A) :
  len l = 3 -> exists a b c, l = [a; b; c].
Proof.
  unfold len. intro H.
  destruct l as [|a [|b [|c [|d l]]]]; cbn in H; try lia.
  now exists a, b, c.
Qed.

Lemma for_each_unit_Return {R A} (l : list A)
    (body : unit -> A -> Flow R unit) r :
  for_each l tt body = Return r ->
  exists x, In x l /\ body tt x = Return r.
Proof.
  induction l as [|y l IH]; cbn [for_each]; intro H.
  - discriminate.
  - unfold fbind in H. destruct (body tt y) as [[]| |] eqn:Hy;
      try discriminate.
    + destruct (IH H) as (x & Hx & Hr). exists x. split; [now right|easy].
    + exists y. split; [now left|congruence].
Qed.

Lemma isolation_loop_Return keys fp (accs : bytes) r :
  for_each (R := VerifyResponse) accs tt
    (fun _ account_idx =>
       account_key <- call (py_index keys (Byte.to_nat account_idx)) ;;
       return_if (Pubkey_eqb account_key fp)
         (invalid "Fee payer must not be in instruction accounts")) =
  Return r ->
  r = invalid "Fee payer must not be in instruction accounts".
Proof.
  intro H. apply for_each_unit_Return in H as (a & _ & H).
  flow_inv H. now injection H.
Qed.

Lemma isolation_loop keys fp (accs : bytes) :
  for_each (R := VerifyResponse) accs tt
    (fun _ account_idx =>
       account_key <- call (py_index keys (Byte.to_nat account_idx)) ;;
       return_if (Pubkey_eqb account_key fp)
         (invalid "Fee payer must not be in instruction accounts")) =
  Next tt ->
  forall a, In a accs -> exists k, account_at keys a = Some k /\ k <> fp.
Proof.
  intros H a Ha.
  apply for_each_unit_inv with (x := a) in H; [|assumption].
  flow_inv H. clean_facts. eexists. split; eassumption.
Qed.

Lemma checks_valid ixs keys R :
  is_valid (try_return (verify_checks self ixs keys R) invalid) = true ->
  exists i0 i1 i2 r fp,
    ixs = [i0; i1; i2] /\
    _verify_transfer_instruction self i2 keys R = Ok (true, r) /\
    Pubkey_from_string R.(extra).(fee_payer) = Ok fp /\
    forall ix, In ix ixs -> forall a, In a ix.(accounts) ->
      exists k, account_at keys a = Some k /\ k <> fp.
Proof.
  unfold verify_checks. intro H.
  destruct (len ixs =? 3) eqn:Hlen.
  2:{ flow_inv H. }
  apply Z.eqb_eq, three_instructions in Hlen as (i0 & i1 & i2 & ->).
  cbn [for_each] in H. flow_inv H.
  all: clean_facts; try (exfalso; lia).
  all: cbn [nth_error] in *; clean_facts; subst.
  all: repeat match goal with u : unit |- _ => destruct u end.
  all: try match goal with
       | Hloop : for_each _ _ _ = Return _ |- _ =>
           pose proof (isolation_loop_Return _ _ _ _ Hloop); discriminate
       end.
  all: do 5 eexists; split; [reflexivity|]; split; [eassumption|];
    split; [reflexivity|].
  all: intros ix [<-|[<-|[<-|[]]]] idx Hidx.
  all: match goal with
       | Hloop : for_each (accounts ?i) _ _ = Next tt,
         Hi : In _ (accounts ?i) |- _ =>
           exact (isolation_loop _ _ _ Hloop _ Hi)
       end.
Qed.

Lemma checks_wrong_amount i0 i1 i2 keys R s' n' :
  is_valid (try_return (verify_checks self [i0; i1; i2] keys R) invalid)
  = true ->
  py_int s' = Ok n' ->
  n' <> u64_at 1 i2.(data) ->
  try_return
    (verify_checks self [i0; i1; i2] keys (with_max_amount R s')) invalid
  = invalid (amount_mismatch (u64_at 1 i2.(data)) n').
Proof.
  unfold verify_checks. intros H Hs Hne.
  cbn [for_each] in *.
  repeat (cbv beta iota delta [py_index nth_error] in H;
          flow_step H; try discriminate H; break_innermost H).
  all: cbv beta iota delta [py_index nth_error].
  all: match goal with
       | Htr : _verify_transfer_instruction _ _ _ _ = Ok (true, _) |- _ =>
           pose proof (transfer_wrong_amount _ _ _ _ _ _ Htr Hs Hne) as Hbad;
           clear Htr
       end.
  all: repeat (replay; cbv beta iota delta [py_index nth_error]).
  all: reflexivity.
Qed.

(** *** The compute-budget prelude

    What the loop over the first two instructions does enforce: each
    targets the compute-budget program with discriminator 2 or 3. The two
    need not differ, and the price that is checked is that of the last
    price instruction. *)

Lemma checks_prelude i0 i1 i2 keys R :
  is_valid (try_return (verify_checks self [i0; i1; i2] keys R) invalid)
  = true ->
  (forall ix, ix = i0 \/ ix = i1 ->
     account_at keys ix.(program_id_index) = Some COMPUTE_BUDGET_PROGRAM /\
     exists d rest, ix.(data) = d :: rest /\
                    (byte_val d = 2 \/ byte_val d = 3)) /\
  ((exists rest, i1.(data) = x03 :: rest) ->
   u64_at 1 i1.(data) <= self.(settings).(max_compute_unit_price)) /\
  ((exists rest, i0.(data) = x03 :: rest) ->
   (exists rest, i1.(data) = x02 :: rest) ->
   u64_at 1 i0.(data) <= self.(settings).(max_compute_unit_price)).
Proof.
  unfold verify_checks. intro H. cbn [for_each] in H.
  repeat (cbv beta iota delta [py_index nth_error] in H;
          flow_step H; try discriminate H; break_innermost H).
  all: clean_facts; try (exfalso; lia); subst.
  all: repeat match goal with
       | Hcb : _is_compute_budget_instruction _ _ _ = Ok true |- _ =>
           apply is_compute_budget_inv in Hcb
             as (? & ? & ? & ? & ?)
       | Hp : _verify_compute_price _ _ = Ok (true, _) |- _ =>
           apply verify_compute_price_inv in Hp as (_ & ?)
       end.
  all: split; [|split].
  all: try (intros ix [-> | ->]; (split; [assumption|]);
            do 2 eexists; (split; [eassumption|]); auto).
  all: try (intros _; assumption).
  all: try (intros _ _; assumption).
  all: try (intros (rest & Hd); exfalso;
            match goal with
            | Hd' : data ?i = _ :: _ |- _ =>
                rewrite Hd in Hd'; inversion Hd'; subst;
                cbn in *; congruence
            end).
  all: try (intros _ (rest & Hd); exfalso;
            match goal with
            | Hd' : data ?i = _ :: _ |- _ =>
                rewrite Hd in Hd'; inversion Hd'; subst;
                cbn in *; congruence
            end).
Qed.

(** *** Every rejection carries a reason *)

Lemma compute_price_reason ix r :
  _verify_compute_price self ix = Ok (false, r) -> exists m, r = Some m.
Proof.
  unfold _verify_compute_price. intro H. flow_inv H.
  all: injection H as <-; eexists; reflexivity.
Qed.

Lemma transfer_reason ix keys R r :
  _verify_transfer_instruction self ix keys R = Ok (false, r) ->
  exists m, r = Some m.
Proof.
  unfold _verify_transfer_instruction. intro H. flow_inv H.
  all: injection H as <-; eexists; reflexivity.
Qed.

Lemma checks_invalid_reason ixs keys R :
  is_valid (try_return (verify_checks self ixs keys R) invalid) = false ->
  exists m, try_return (verify_checks self ixs keys R) invalid = invalid m.
Proof.
  remember (try_return (verify_checks self ixs keys R) invalid) as res
    eqn:Hres.
  intro Hval. symmetry in Hres. unfold verify_checks in Hres.
  destruct (len ixs =? 3) eqn:Hlen.
  2:{ flow_inv Hres. subst res. eexists; reflexivity. }
  apply Z.eqb_eq, three_instructions in Hlen as (i0 & i1 & i2 & ->).
  cbn [for_each] in Hres. flow_inv Hres.
  all: subst; try discriminate Hval; try (eexists; reflexivity).
  all: try match goal with
       | Hloop : for_each _ _ _ = Return _ |- _ =>
           rewrite (isolation_loop_Return _ _ _ _ Hloop);
           eexists; reflexivity
       end.
  all: match goal with
       | Hp : _verify_compute_price _ _ = Ok (false, _) |- _ =>
           apply compute_price_reason in Hp as (m & ->)
       | Ht : _verify_transfer_instruction _ _ _ _ = Ok (false, _) |- _ =>
           apply transfer_reason in Ht as (m & ->)
       end.
  all: eexists; reflexivity.
Qed.

Lemma verify_invalid_reason h R :
  is_valid (verify self h R) = false ->
  exists m, verify self h R = invalid m.
Proof.
  rewrite verify_cases.
  destruct (decoded_transaction h) as [t|e]; [|eexists; reflexivity].
  destruct (supported_format t); [|eexists; reflexivity].
  apply checks_invalid_reason.
Qed.

(** *** A transaction that passes verification *)

Lemma verify_valid h R :
  is_valid (verify self h R) = true ->
  exists t i0 i1 i2 r fp,
    decoded_transaction h = Ok t /\
    supported_format t = true /\
    tx_instructions t = [i0; i1; i2] /\
    _verify_transfer_instruction self i2 (tx_account_keys t) R
      = Ok (true, r) /\
    Pubkey_from_string R.(extra).(fee_payer) = Ok fp /\
    forall ix, In ix (tx_instructions t) ->
    forall a, In a ix.(accounts) ->
      exists k, account_at (tx_account_keys t) a = Some k /\ k <> fp.
Proof.
  rewrite verify_cases. intro H.
  destruct (decoded_transaction h) as [t|e]; [|discriminate].
  destruct (supported_format t) eqn:Hfmt; [|discriminate].
  apply checks_valid in H as (i0 & i1 & i2 & r & fp & Hixs & Htr & Hfp & Hiso).
  exists t, i0, i1, i2, r, fp. repeat split; assumption.
Qed.

(** What a valid result gives about the compute-budget prelude. *)
Lemma verify_prelude h R :
  is_valid (verify self h R) = true ->
  exists t i0 i1 i2,
    decoded_transaction h = Ok t /\
    tx_instructions t = [i0; i1; i2] /\
    (forall ix, ix = i0 \/ ix = i1 ->
       account_at (tx_account_keys t) ix.(program_id_index)
         = Some COMPUTE_BUDGET_PROGRAM /\
       exists d rest, ix.(data) = d :: rest /\
                      (byte_val d = 2 \/ byte_val d = 3)) /\
    ((exists rest, i1.(data) = x03 :: rest) ->
     u64_at 1 i1.(data) <= self.(settings).(max_compute_unit_price)) /\
    ((exists rest, i0.(data) = x03 :: rest) ->
     (exists rest, i1.(data) = x02 :: rest) ->
     u64_at 1 i0.(data) <= self.(settings).(max_compute_unit_price)).
Proof.
  intro H. pose proof H as Hvalid.
  apply verify_valid in H as (t & i0 & i1 & i2 & r & fp & Ht & Hfmt & Hixs
                              & _).
  rewrite verify_cases, Ht, Hfmt, Hixs in Hvalid.
  exists t, i0, i1, i2. split; [assumption|]. split; [assumption|].
  eapply checks_prelude. eassumption.
Qed.

(** ** Fee-payer isolation *)

(** C3. If [verify] returns valid, the decoded transaction has three
    instructions and no account index of any of them refers to the
    address [requirements.extra.fee_payer]: every referenced account key
    exists and differs from the fee payer. *)
Theorem verify_fee_payer_isolation h R :
  is_valid (verify self h R) = true ->
  exists t fp,
    decoded_transaction h = Ok t /\
    Pubkey_from_string R.(extra).(fee_payer) = Ok fp /\
    List.length (tx_instructions t) = 3%nat /\
    forall ix, In ix (tx_instructions t) ->
    forall a, In a ix.(accounts) ->
      exists k, account_at (tx_account_keys t) a = Some k /\ k <> fp.
Proof.
  intro H.
  apply verify_valid in H as (t & i0 & i1 & i2 & r & fp & Ht & _ & Hixs
                              & _ & Hfp & Hiso).
  exists t, fp. rewrite Hixs in *. repeat split; assumption.
Qed.

(** C1, as the code has it. [verify] never compares [account_keys[0]]
    with the fee payer. What a valid result gives is that no instruction
    refers to the fee payer; so where the fee payer does sit at
    [account_keys[0]], no instruction carries the account index 0. *)
Theorem verify_fee_payer_first_unreferenced h R :
  is_valid (verify self h R) = true ->
  exists t fp,
    decoded_transaction h = Ok t /\
    Pubkey_from_string R.(extra).(fee_payer) = Ok fp /\
    (nth_error (tx_account_keys t) 0 = Some fp ->
     forall ix, In ix (tx_instructions t) -> ~ In x00 ix.(accounts)).
Proof.
  intro H.
  apply verify_valid in H as (t & i0 & i1 & i2 & r & fp & Ht & _ & _
                              & _ & Hfp & Hiso).
  exists t, fp. repeat split; try assumption.
  intros H0 ix Hix Hin.
  destruct (Hiso ix Hix x00 Hin) as (k & Hk & Hne).
  unfold account_at in Hk. change (Byte.to_nat x00) with 0%nat in Hk.
  congruence.
Qed.

(** ** The transfer instruction *)

(** C2, as the code has it. [verify] reads neither
    [num_required_signatures] nor [account_keys[1]]. What a valid result
    gives about the authority: instruction 2 has a fourth account index,
    and it refers to an existing account key that is not the fee payer. *)
Theorem verify_transfer_authority h R :
  is_valid (verify self h R) = true ->
  exists t i0 i1 i2 accounts3 authority fp,
    decoded_transaction h = Ok t /\
    tx_instructions t = [i0; i1; i2] /\
    nth_error i2.(accounts) 3 = Some accounts3 /\
    account_at (tx_account_keys t) accounts3 = Some authority /\
    Pubkey_from_string R.(extra).(fee_payer) = Ok fp /\
    authority <> fp.
Proof.
  intro H.
  apply verify_valid in H as (t & i0 & i1 & i2 & r & fp & Ht & _ & Hixs
                              & Htr & Hfp & Hiso).
  apply verify_transfer_inv in Htr
    as (tp & ra & d9 & a1 & a2 & mint & dest & pk & _ & _ & _ & _ & _ & _
        & _ & _ & Hlen & _).
  destruct (nth_error (accounts i2) 3) as [accounts3|] eqn:H3.
  2:{ apply nth_error_None in H3. unfold len in Hlen. lia. }
  destruct (Hiso i2) with (a := accounts3) as (k & Hk & Hne).
  - rewrite Hixs. cbn. auto.
  - eapply nth_error_In. eassumption.
  - exists t, i0, i1, i2, accounts3, k, fp. repeat split; assumption.
Qed.

(** C7, as the code has it. If [verify] returns valid, instruction 2 has
    at least four account indices (more are accepted), its program is one
    of the two token programs, its second account is the mint
    [requirements.asset], and its third account, the destination, is the
    address [find_program_address] derives from the seeds
    [[pay_to, token_program, mint]] under the associated-token program. *)
Theorem verify_transfer_destination h R :
  is_valid (verify self h R) = true ->
  exists t i0 i1 i2 source mint_idx destination_idx authority more
         token_program mint destination pay_to_key,
    decoded_transaction h = Ok t /\
    tx_instructions t = [i0; i1; i2] /\
    i2.(accounts) =
      (source :: mint_idx :: destination_idx :: authority :: more)%list /\
    account_at (tx_account_keys t) i2.(program_id_index)
      = Some token_program /\
    (token_program = SPL_TOKEN_PROGRAM \/
     token_program = TOKEN_2022_PROGRAM) /\
    Pubkey_from_string R.(asset) = Ok mint /\
    Pubkey_from_string R.(pay_to) = Ok pay_to_key /\
    account_at (tx_account_keys t) mint_idx = Some mint /\
    account_at (tx_account_keys t) destination_idx = Some destination /\
    destination =
      fst (find_program_address [pay_to_key; token_program; mint]
             ASSOCIATED_TOKEN_PROGRAM).
Proof.
  intro H.
  apply verify_valid in H as (t & i0 & i1 & i2 & r & fp & Ht & _ & Hixs
                              & Htr & _).
  apply verify_transfer_inv in Htr
    as (tp & ra & d9 & a1 & a2 & mint & dest & pk & Hprog & Htp & _ & _ & _
        & _ & _ & _ & Hlen & Ha1 & Hmint & Hasset & Ha2 & Hdest & Hpay
        & Hata).
  destruct (accounts i2) as [|s [|m [|d [|au more]]]] eqn:Haccs;
    unfold len in Hlen; cbn in Hlen; try lia.
  cbn in Ha1, Ha2. injection Ha1 as ->. injection Ha2 as ->.
  exists t, i0, i1, i2, s, a1, a2, au, more, tp, mint, dest, pk.
  repeat split; assumption.
Qed.

(** ** The signatures play no part *)

(** C10. The result of [verify] depends on the header only through the
    message of the decoded transaction: two headers that decode to
    transactions of the same format with equal messages, whatever their
    signature arrays hold, get the same result for the same
    requirement. *)
Theorem verify_ignores_signatures h1 h2 R t1 t2 :
  decoded_transaction h1 = Ok t1 ->
  decoded_transaction h2 = Ok t2 ->
  tx_message t1 = tx_message t2 ->
  verify self h1 R = verify self h2 R.
Proof.
  intros H1 H2 Hmsg. rewrite !verify_cases, H1, H2.
  destruct t1 as [tx1|tx1], t2 as [tx2|tx2]; cbn in Hmsg;
    try discriminate; injection Hmsg as Hmsg;
    unfold supported_format, tx_instructions, tx_account_keys;
    now rewrite Hmsg.
Qed.

End VerifierFacts.


(** ** Settlement *)

Section SettlerFacts.

Context {py : PyBuiltins} {sol : Solders}.
Variable self : SolanaFacilitator.

Lemma settle_decode_verified h R fee_payer :
  self.(facilitator_fee_payer) = Some fee_payer ->
  is_valid (verify self h R) = true ->
  forall t, decoded_transaction h = Ok t ->
  settle_decode self h R = Next (fee_payer, t).
Proof.
  intros Hkey Hvalid t Ht.
  unfold settle_decode. rewrite Hkey, Hvalid.
  unfold decoded_transaction in Ht.
  cbn [negb return_if fbind].
  destruct (b64decode h) as [tx_bytes|]; [|discriminate].
  cbn [call fbind].
  destruct (Transaction_from_bytes tx_bytes) as [tx|];
    [now injection Ht as <-|].
  destruct (VersionedTransaction_from_bytes tx_bytes) as [tx|];
    [now injection Ht as <-|discriminate].
Qed.

(** C9. When verification fails, [settle] returns at once, before any
    call of the RPC client: the response has [success = False] and its
    error is ["Verification failed: "] followed by the verifier's reason
    (or ["Facilitator not configured"] when no key is loaded, in which
    case the verifier is not even run); a mock RPC sees no call. *)
Theorem settle_rejection_touches_no_chain h R :
  is_valid (verify self h R) = false ->
  exists reason response e,
    verify self h R = invalid reason /\
    settle self h R = Done response /\
    response.(success) = false /\
    response.(error) = Some e /\
    e = match self.(facilitator_fee_payer) with
        | Some _ => "Verification failed: " ++ reason
        | None => "Facilitator not configured"
        end /\
    (self.(facilitator_fee_payer) <> None -> contains reason e = true) /\
    response.(tx_hash) = None /\
    forall rpc, run_chain rpc (settle self h R) = (response, []).
Proof.
  intro H. destruct (verify_invalid_reason self h R H) as (reason & Hr).
  exists reason.
  assert (Hs : settle self h R =
               Done (settle_error
                       (match self.(facilitator_fee_payer) with
                        | Some _ => "Verification failed: " ++ reason
                        | None => "Facilitator not configured"
                        end))).
  { unfold settle, settle_decode.
    destruct (facilitator_fee_payer self); [|reflexivity].
    rewrite Hr. reflexivity. }
  do 2 eexists. split; [assumption|]. split; [exact Hs|].
  repeat split.
  - intro Hkey. destruct (facilitator_fee_payer self); [|contradiction].
    apply contains_append.
  - intro rpc. rewrite Hs. reflexivity.
Qed.

(** *** Writing the facilitator's signature *)

Lemma py_setitem_Ok {A} (l : list A) n v :
  (n < List.length l)%nat ->
  exists l', py_setitem l n v = Ok l' /\
    List.length l' = List.length l /\
    forall i, nth_error l' i =
              if (i =? n)%nat then Some v else nth_error l i.
Proof.
  intro Hn. unfold py_setitem.
  destruct (Nat.ltb_spec n (List.length l)) as [_|]; [|lia].
  eexists. split; [reflexivity|]. split.
  - rewrite length_app, length_firstn. cbn [List.length].
    rewrite length_skipn. lia.
  - intro i. assert (Hf : List.length (firstn n l) = n)
      by (rewrite length_firstn; lia).
    destruct (Nat.eqb_spec i n) as [->|Hne].
    + rewrite nth_error_app2 by lia. rewrite Hf, Nat.sub_diag. reflexivity.
    + destruct (Nat.lt_ge_cases i n) as [Hlt|Hge].
      * rewrite nth_error_app1 by lia. rewrite nth_error_firstn.
        destruct (Nat.ltb_spec i n); [reflexivity|lia].
      * rewrite nth_error_app2 by lia. rewrite Hf.
        destruct (i - n)%nat as [|j] eqn:Hj; [lia|].
        cbn [nth_error]. rewrite nth_error_skipn. f_equal. lia.
Qed.

Lemma sign_loop (fee_payer : Keypair) (facilitator_sig : Signature)
    (keys : list Pubkey) :
  forall (start : nat) (sigs : list Signature),
    (start + List.length keys <= List.length sigs)%nat ->
    exists sigs',
      for_each (R := SettleResponse)
        (combine (seq start (List.length keys)) keys) sigs
        (fun signatures '(i, account_key) =>
           if String.eqb (Pubkey_str account_key)
                         (Pubkey_str (Keypair_pubkey fee_payer))
           then call (py_setitem signatures i facilitator_sig)
           else Next signatures)
      = Next sigs' /\
      List.length sigs' = List.length sigs /\
      forall i,
        nth_error sigs' i =
        if (start <=? i)%nat &&
           match nth_error keys (i - start) with
           | Some account_key =>
               String.eqb (Pubkey_str account_key)
                          (Pubkey_str (Keypair_pubkey fee_payer))
           | None => false
           end
        then Some facilitator_sig
        else nth_error sigs i.
Proof.
  induction keys as [|k keys IH]; intros start sigs Hlen.
  - exists sigs. split; [reflexivity|]. split; [reflexivity|].
    intro i. destruct (i - start)%nat; cbn [nth_error];
      now rewrite andb_false_r.
  - cbn [List.length seq combine for_each] in *.
    assert (Hstep : exists sigs1,
      (if String.eqb (Pubkey_str k) (Pubkey_str (Keypair_pubkey fee_payer))
       then call (R := SettleResponse)
              (py_setitem sigs start facilitator_sig)
       else Next sigs) = Next sigs1 /\
      List.length sigs1 = List.length sigs /\
      forall i, nth_error sigs1 i =
        if (i =? start)%nat &&
           String.eqb (Pubkey_str k) (Pubkey_str (Keypair_pubkey fee_payer))
        then Some facilitator_sig else nth_error sigs i).
    { destruct (String.eqb (Pubkey_str k) _).
      - destruct (py_setitem_Ok sigs start facilitator_sig)
          as (l' & -> & Hl & Hn); [lia|].
        exists l'. split; [reflexivity|]. split; [assumption|].
        intro i. rewrite Hn. now rewrite andb_true_r.
      - exists sigs. split; [reflexivity|]. split; [reflexivity|].
        intro i. now rewrite andb_false_r. }
    destruct Hstep as (sigs1 & -> & Hl1 & Hn1). cbn [fbind].
    destruct (IH (S start) sigs1) as (sigs' & Hloop & Hl' & Hn'); [lia|].
    exists sigs'. split; [assumption|]. split; [congruence|].
    intro i. rewrite Hn', Hn1.
    destruct (Nat.leb_spec (S start) i) as [Hgt|Hle].
    + destruct (Nat.leb_spec start i); [|lia].
      replace (i - start)%nat with (S (i - S start)) by lia.
      cbn [nth_error andb].
      destruct (Nat.eqb_spec i start); [lia|]. reflexivity.
    + cbn [andb]. destruct (Nat.eqb_spec i start) as [->|Hne].
      * rewrite Nat.leb_refl, Nat.sub_diag. reflexivity.
      * destruct (Nat.leb_spec start i); [lia|]. reflexivity.
Qed.

(** C4, as the code has it, for legacy transactions. For a legacy
    transaction that passes verification and has one signature slot per
    required signer, [settle] fetches a block hash and then submits a
    transaction with the same message whose signature array has the same
    length and differs from the input only at the signer positions whose
    account key is the facilitator's own public key: these hold the
    facilitator's signature over the serialized message bytes. The
    position is searched for, not fixed: only [signatures[0]] changes
    when position 0 is the only such position. *)
Theorem settle_signature_localized h R tx fee_payer rpc recent :
  self.(facilitator_fee_payer) = Some fee_payer ->
  is_valid (verify self h R) = true ->
  decoded_transaction h = Ok (LegacyTx tx) ->
  List.length tx.(signatures) =
    Byte.to_nat tx.(message).(header).(num_required_signatures) ->
  rpc.(latest_blockhash) = Ok recent ->
  exists signatures',
    snd (run_chain rpc (settle self h R)) =
      [GetLatestBlockhashCall Confirmed;
       SendTransactionCall
         (LegacyTx {| signatures := signatures';
                      message := tx.(message) |})
         send_opts] /\
    List.length signatures' = List.length tx.(signatures) /\
    (forall i,
       nth_error signatures' i =
       if facilitator_slot fee_payer tx.(message) i
       then Some (sign_message fee_payer (Message_bytes tx.(message)))
       else nth_error tx.(signatures) i) /\
    ((forall i, facilitator_slot fee_payer tx.(message) i = true ->
                i = 0%nat) ->
     forall i, i <> 0%nat ->
       nth_error signatures' i = nth_error tx.(signatures) i).
Proof.
  intros Hkey Hvalid Ht Hslots Hrpc.
  set (msg := tx.(message)) in *.
  set (n := Byte.to_nat msg.(header).(num_required_signatures)) in *.
  destruct (sign_loop fee_payer
              (sign_message fee_payer (Message_bytes msg))
              (firstn n msg.(account_keys)) 0 tx.(signatures))
    as (sigs' & Hloop & Hlen & Hnth).
  { pose proof (firstn_le_length n msg.(account_keys)). lia. }
  assert (Hspec : forall i,
    nth_error sigs' i =
    if facilitator_slot fee_payer msg i
    then Some (sign_message fee_payer (Message_bytes msg))
    else nth_error tx.(signatures) i).
  { intro i. rewrite Hnth. unfold facilitator_slot. fold n.
    rewrite Nat.sub_0_r, nth_error_firstn. cbn [Nat.leb andb].
    destruct (i <? n)%nat; reflexivity. }
  exists sigs'. split; [|split; [assumption|split; [assumption|]]].
  - unfold settle.
    rewrite (settle_decode_verified h R fee_payer Hkey Hvalid _ Ht).
    cbn [run_chain]. rewrite Hrpc.
    unfold settle_sign, enumerate. fold msg. fold n.
    rewrite Hloop. cbn [fbind run_chain].
    destruct (send_result rpc _); reflexivity.
  - intros Honly i Hi. rewrite Hspec.
    destruct (facilitator_slot fee_payer msg i) eqn:Hslot; [|reflexivity].
    apply Honly in Hslot. contradiction.
Qed.

(** *** Versioned transactions

    For a versioned transaction the facilitator's signature is computed
    over [message.hash()], not over the message bytes, and it is appended
    to the signature array instead of being written into a slot. *)

(** X13. For a versioned payment that passes verification, [settle]
    sends the transaction with the facilitator's signature over the
    message hash appended after the signatures that came. *)
Lemma settle_versioned_appends h R tx fee_payer rpc recent :
  self.(facilitator_fee_payer) = Some fee_payer ->
  is_valid (verify self h R) = true ->
  decoded_transaction h = Ok (VersionedTx tx) ->
  rpc.(latest_blockhash) = Ok recent ->
  snd (run_chain rpc (settle self h R)) =
    [GetLatestBlockhashCall Confirmed;
     SendTransactionCall
       (VersionedTx
          {| v_signatures :=
               (tx.(v_signatures) ++
                [sign_message fee_payer (Message_hash tx.(v_message))])%list;
             v_message := tx.(v_message) |})
       send_opts].
Proof.
  intros Hkey Hvalid Ht Hrpc. unfold settle.
  rewrite (settle_decode_verified h R fee_payer Hkey Hvalid _ Ht).
  cbn [run_chain]. rewrite Hrpc. cbn [settle_sign run_chain].
  destruct (send_result rpc _); reflexivity.
Qed.

End SettlerFacts.

(** ** Binary64 rounding in integer arithmetic *)

Section FloatArithmetic.

(** The state of the shift after [j] bits of [M] have been dropped. *)
Lemma shr_1_invariant (M j : Z) (st : shr_record) :
  0 <= M -> 0 <= j ->
  shr_m st = M / 2 ^ j ->
  loc_of_shr_record st = remainder_location (M mod 2 ^ j) (2 ^ j) ->
  shr_m (shr_1 st) = M / 2 ^ (j + 1) /\
  loc_of_shr_record (shr_1 st)
  = remainder_location (M mod 2 ^ (j + 1)) (2 ^ (j + 1)).
Proof.
  intros HM Hj Hm Hloc.
  assert (Hpow : 0 < 2 ^ j) by (apply Z.pow_pos_nonneg; lia).
  set (m := M / 2 ^ j) in *. set (r := M mod 2 ^ j) in *.
  assert (Hr : 0 <= r < 2 ^ j) by (apply Z.mod_pos_bound; lia).
  assert (Hm0 : 0 <= m) by (apply Z.div_pos; lia).
  assert (Hdiv : M / 2 ^ (j + 1) = m / 2).
  { rewrite Z.pow_add_r, Z.pow_1_r by lia.
    unfold m. now rewrite Z.div_div by lia. }
  assert (Hmod : M mod 2 ^ (j + 1) = r + 2 ^ j * (m mod 2)).
  { rewrite Z.pow_add_r, Z.pow_1_r by lia.
    unfold r, m. apply Z.rem_mul_r; lia. }
  rewrite Hdiv, Hmod, Z.pow_add_r, Z.pow_1_r by lia.
  assert (Hzero : orb (shr_r st) (shr_s st) = negb (r =? 0)).
  { unfold remainder_location in Hloc.
    destruct st as [m' [|] [|]]; cbn in Hloc |- *;
      destruct (r =? 0); try discriminate; reflexivity. }
  destruct st as [m' rb sb]. cbn [shr_m shr_r shr_s] in *. subst m'.
  unfold shr_1. rewrite Hzero.
  assert (Hcases : (m mod 2 = 0 \/ m mod 2 = 1) /\ 0 <= m / 2).
  { pose proof (Z.mod_pos_bound m 2 ltac:(lia)).
    split; [lia|]. apply Z.div_pos; lia. }
  destruct Hcases as (Hbit & _).
  unfold remainder_location.
  clearbody m r.
  destruct m as [|[p|p|]|p]; try lia.
  - (* 0 *)
    change (0 / 2) with 0. change (0 mod 2) with 0.
    cbn [shr_m]. split; [reflexivity|].
    destruct (Z.eqb_spec r 0) as [->|Hne]; cbn [negb loc_of_shr_record].
    + destruct (Z.eqb_spec (0 + 2 ^ j * 0) 0); [reflexivity|lia].
    + destruct (Z.eqb_spec (r + 2 ^ j * 0) 0); [lia|].
      f_equal. symmetry. apply Z.compare_lt_iff. lia.
  - (* 2p + 1 *)
    assert (E1 : Z.pos p~1 / 2 = Z.pos p)
      by (symmetry; apply (Z.div_unique _ _ _ 1); lia).
    assert (E2 : Z.pos p~1 mod 2 = 1)
      by (symmetry; apply (Z.mod_unique _ _ (Z.pos p)); lia).
    rewrite E1, E2. cbn [shr_m]. split; [reflexivity|].
    destruct (Z.eqb_spec r 0) as [->|Hne]; cbn [negb loc_of_shr_record].
    + destruct (Z.eqb_spec (0 + 2 ^ j * 1) 0); [lia|].
      f_equal. symmetry. apply Z.compare_eq_iff. lia.
    + destruct (Z.eqb_spec (r + 2 ^ j * 1) 0); [lia|].
      f_equal. symmetry. apply Z.compare_gt_iff. lia.
  - (* 2p *)
    assert (E1 : Z.pos p~0 / 2 = Z.pos p)
      by (symmetry; apply (Z.div_unique _ _ _ 0); lia).
    assert (E2 : Z.pos p~0 mod 2 = 0)
      by (symmetry; apply (Z.mod_unique _ _ (Z.pos p)); lia).
    rewrite E1, E2. cbn [shr_m]. split; [reflexivity|].
    destruct (Z.eqb_spec r 0) as [->|Hne]; cbn [negb loc_of_shr_record].
    + destruct (Z.eqb_spec (0 + 2 ^ j * 0) 0); [reflexivity|lia].
    + destruct (Z.eqb_spec (r + 2 ^ j * 0) 0); [lia|].
      f_equal. symmetry. apply Z.compare_lt_iff. lia.
  - (* 1 *)
    change (1 / 2) with 0. change (1 mod 2) with 1.
    cbn [shr_m]. split; [reflexivity|].
    destruct (Z.eqb_spec r 0) as [->|Hne]; cbn [negb loc_of_shr_record].
    + destruct (Z.eqb_spec (0 + 2 ^ j * 1) 0); [lia|].
      f_equal. symmetry. apply Z.compare_eq_iff. lia.
    + destruct (Z.eqb_spec (r + 2 ^ j * 1) 0); [lia|].
      f_equal. symmetry. apply Z.compare_gt_iff. lia.
Qed.

Lemma iter_shr_1_invariant (M : Z) (p : positive) :
  0 <= M ->
  forall (j : Z) (st : shr_record),
    0 <= j ->
    shr_m st = M / 2 ^ j ->
    loc_of_shr_record st = remainder_location (M mod 2 ^ j) (2 ^ j) ->
    shr_m (iter_pos shr_1 p st) = M / 2 ^ (j + Z.pos p) /\
    loc_of_shr_record (iter_pos shr_1 p st)
    = remainder_location (M mod 2 ^ (j + Z.pos p)) (2 ^ (j + Z.pos p)).
Proof.
  intro HM. induction p as [p IH|p IH|]; intros j st Hj Hm Hloc;
    cbn [iter_pos].
  - destruct (shr_1_invariant M j st HM Hj Hm Hloc) as (Hm1 & Hloc1).
    destruct (IH (j + 1) _ ltac:(lia) Hm1 Hloc1) as (Hm2 & Hloc2).
    destruct (IH (j + 1 + Z.pos p) _ ltac:(lia) Hm2 Hloc2) as (Hm3 & Hloc3).
    replace (j + Z.pos p~1) with (j + 1 + Z.pos p + Z.pos p) by lia.
    now split.
  - destruct (IH j _ Hj Hm Hloc) as (Hm2 & Hloc2).
    destruct (IH (j + Z.pos p) _ ltac:(lia) Hm2 Hloc2) as (Hm3 & Hloc3).
    replace (j + Z.pos p~0) with (j + Z.pos p + Z.pos p) by lia.
    now split.
  - now apply shr_1_invariant.
Qed.

(** [shr] drops [n] bits: the quotient, and where the remainder lies. *)
Lemma shr_exact (M e n : Z) :
  0 <= M ->
  let '(st, e') := shr (shr_record_of_loc M loc_Exact) e n in
  let k := Z.max 0 n in
  shr_m st = M / 2 ^ k /\
  loc_of_shr_record st = remainder_location (M mod 2 ^ k) (2 ^ k) /\
  e' = e + k.
Proof.
  intro HM. unfold shr.
  assert (H0 : shr_m (shr_record_of_loc M loc_Exact) = M / 2 ^ 0 /\
               loc_of_shr_record (shr_record_of_loc M loc_Exact)
               = remainder_location (M mod 2 ^ 0) (2 ^ 0)).
  { cbn [shr_record_of_loc shr_m loc_of_shr_record].
    change (2 ^ 0) with 1. rewrite Z.div_1_r, Z.mod_1_r. now split. }
  destruct H0 as (Hm & Hloc).
  destruct n as [|p|p].
  - change (Z.max 0 0) with 0. repeat split; try assumption; try lia.
  - replace (Z.max 0 (Z.pos p)) with (0 + Z.pos p) by lia.
    destruct (iter_shr_1_invariant M p HM 0 _ ltac:(lia) Hm Hloc)
      as (Hm' & Hloc').
    repeat split; try assumption; try lia.
  - replace (Z.max 0 (Z.neg p)) with 0 by lia.
    repeat split; try assumption; try lia.
Qed.

Lemma round_nearest_even_spec (M d : Z) :
  0 <= M -> 0 < d ->
  round_nearest_even (M / d) (remainder_location (M mod d) d)
  = round_half_even M d.
Proof.
  intros HM Hd. unfold round_half_even, remainder_location.
  pose proof (Z.mod_pos_bound M d Hd) as Hr.
  destruct (Z.eqb_spec (M mod d) 0) as [E|E].
  - rewrite E. cbn [round_nearest_even].
    destruct (Z.ltb_spec (2 * 0) d); [reflexivity|lia].
  - cbn [round_nearest_even].
    destruct (Z.compare_spec (2 * (M mod d)) d) as [H|H|H].
    + destruct (Z.ltb_spec (2 * (M mod d)) d); [lia|].
      destruct (Z.ltb_spec d (2 * (M mod d))); [lia|]. reflexivity.
    + destruct (Z.ltb_spec (2 * (M mod d)) d); [reflexivity|lia].
    + destruct (Z.ltb_spec (2 * (M mod d)) d); [lia|].
      destruct (Z.ltb_spec d (2 * (M mod d))); [reflexivity|lia].
Qed.

Lemma digits2_pos_size p : digits2_pos p = Pos.size p.
Proof. induction p; cbn; congruence. Qed.

Lemma Zdigits2_log2 (m : Z) : 0 < m -> Zdigits2 m = Z.log2 m + 1.
Proof.
  destruct m as [|p|p]; try lia. intros _. cbn [Zdigits2].
  rewrite digits2_pos_size.
  destruct p; cbn [Z.log2 Pos.size]; lia.
Qed.

Lemma fexp_binary64 (e : Z) : fexp prec emax e = Z.max (e - 53) (-1074).
Proof. reflexivity. Qed.

Lemma round_half_even_nonneg (M d : Z) :
  0 <= M -> 0 < d -> 0 <= round_half_even M d.
Proof.
  intros HM Hd. unfold round_half_even.
  assert (0 <= M / d) by (apply Z.div_pos; lia).
  destruct (_ <? _); [lia|]. destruct (_ <? _); [lia|].
  destruct (Z.even _); lia.
Qed.

(** Rounding as the library does it and as the arithmetic says it. *)
Lemma binary_round_aux_spec (s : bool) (M : positive) (E : Z) :
  binary_round_aux prec emax s (Z.pos M) E loc_Exact =
  let '(q, e') := round_binary64 (Z.pos M) E in
  if q =? 0 then S754_zero s
  else if 971 <? e' then S754_infinity s
  else S754_finite s (Z.to_pos q) e'.
Proof.
  unfold binary_round_aux, round_binary64, shr_fexp.
  rewrite Zdigits2_log2, fexp_binary64 by lia.
  unfold binary64_exponent.
  replace (Z.log2 (Z.pos M) + 1 + E - 53) with (Z.log2 (Z.pos M) + 1 + E - 53)
    by reflexivity.
  set (n := Z.max (Z.log2 (Z.pos M) + 1 + E - 53) (-1074) - E).
  pose proof (shr_exact (Z.pos M) E n ltac:(lia)) as H1.
  destruct (shr (shr_record_of_loc (Z.pos M) loc_Exact) E n) as [st e'].
  cbv zeta in H1. destruct H1 as (Hm & Hloc & He').
  set (k := Z.max 0 n) in *.
  assert (Hk : 0 < 2 ^ k) by (apply Z.pow_pos_nonneg; lia).
  rewrite Hm, Hloc, round_nearest_even_spec by lia.
  set (q := round_half_even (Z.pos M) (2 ^ k)).
  assert (Hq : 0 <= q) by (apply round_half_even_nonneg; lia).
  subst e'.
  assert (He : -1074 <= E + k) by lia.
  destruct (Z.eqb_spec q 0) as [Hq0|Hq0].
  - rewrite Hq0. cbn [Zdigits2].
    pose proof (shr_exact 0 (E + k)
                  (fexp prec emax (0 + (E + k)) - (E + k)) ltac:(lia)) as H2.
    destruct (shr (shr_record_of_loc 0 loc_Exact) (E + k)
                (fexp prec emax (0 + (E + k)) - (E + k))) as [st' e''].
    cbv zeta in H2. destruct H2 as (Hm' & _ & _).
    rewrite Hm', !Zdiv_0_l. reflexivity.
  - rewrite Zdigits2_log2, fexp_binary64 by lia.
    set (n' := Z.max (Z.log2 q + 1 + (E + k) - 53) (-1074) - (E + k)).
    pose proof (shr_exact q (E + k) n' Hq) as H2.
    destruct (shr (shr_record_of_loc q loc_Exact) (E + k) n') as [st' e''].
    cbv zeta in H2. destruct H2 as (Hm' & _ & He'').
    rewrite Hm'. subst e''.
    set (k' := Z.max 0 n') in *.
    assert (Hq' : 0 <= q / 2 ^ k')
      by (apply Z.div_pos; [lia|apply Z.pow_pos_nonneg; lia]).
    destruct (q / 2 ^ k') as [|p|p] eqn:Eq; try lia.
    + reflexivity.
    + cbn [Z.eqb].
      change (emax - prec) with 971.
      destruct (Z.leb_spec (E + k + k') 971);
        destruct (Z.ltb_spec 971 (E + k + k')); try lia; reflexivity.
Qed.

Lemma truncate_magnitude (q : positive) (e : Z) :
  int_of_float (S754_finite false q e) = Ok (truncate (Z.pos q) e) /\
  int_of_float (S754_finite true q e) = Ok (- truncate (Z.pos q) e).
Proof. split; reflexivity. Qed.

Lemma round_binary64_nonneg (M E : Z) :
  0 <= M -> 0 <= fst (round_binary64 M E).
Proof.
  intro HM. unfold round_binary64. cbn [fst].
  apply Z.div_pos; [|apply Z.pow_pos_nonneg; lia].
  apply round_half_even_nonneg; [lia|apply Z.pow_pos_nonneg; lia].
Qed.

Lemma scale_bits_bounds (decimals : Z) :
  0 <= decimals <= 15 ->
  0 < 10 ^ decimals < 2 ^ 53 /\ 1 <= scale_bits decimals <= 53.
Proof.
  intro Hd.
  assert (Hpos : 0 < 10 ^ decimals) by (apply Z.pow_pos_nonneg; lia).
  assert (Hle : 10 ^ decimals <= 10 ^ 15)
    by (apply Z.pow_le_mono_r; lia).
  assert (H15 : 10 ^ 15 < 2 ^ 53) by reflexivity.
  split; [lia|]. unfold scale_bits.
  pose proof (Z.log2_nonneg (10 ^ decimals)).
  assert (Z.log2 (10 ^ decimals) < 53) by (apply Z.log2_lt_pow2; lia).
  lia.
Qed.

Lemma scale_mantissa_pos (decimals : Z) :
  0 <= decimals <= 15 -> 0 < scale_mantissa decimals.
Proof.
  intro Hd. destruct (scale_bits_bounds decimals Hd) as (Hp & Hb).
  unfold scale_mantissa. apply Z.mul_pos_pos; [lia|].
  apply Z.pow_pos_nonneg; lia.
Qed.

(** The product with [float(10 ** decimals)] and its conversion by
    [int()]. *)
Lemma int_of_scaled (decimals : Z) (x : spec_float) :
  0 <= decimals <= 15 ->
  int_of_float
    (SFmul prec emax x
       (S754_finite false (Z.to_pos (scale_mantissa decimals))
          (scale_exponent decimals)))
  = scaled_amount decimals x.
Proof.
  intro Hd.
  destruct x as [s|s| |s m e]; try reflexivity.
  cbn [SFmul scaled_amount]. rewrite xorb_false_r.
  rewrite binary_round_aux_spec.
  pose proof (scale_mantissa_pos decimals Hd) as Hm.
  assert (HM : Z.pos (m * Z.to_pos (scale_mantissa decimals))
               = Z.pos m * scale_mantissa decimals).
  { rewrite Pos2Z.inj_mul, Z2Pos.id by assumption. reflexivity. }
  rewrite HM.
  pose proof (round_binary64_nonneg (Z.pos m * scale_mantissa decimals)
                (e + scale_exponent decimals) ltac:(lia)) as Hq0.
  destruct (round_binary64 (Z.pos m * scale_mantissa decimals)
              (e + scale_exponent decimals)) as [q e'].
  cbn [fst] in Hq0.
  destruct (Z.eqb_spec q 0) as [Hq|Hq]; [reflexivity|].
  destruct (971 <? e'); [reflexivity|].
  destruct q as [|q|q]; try lia.
  cbn [Z.to_pos]. destruct s; reflexivity.
Qed.

(** A number of at most 53 bits, shifted left, is rounded to itself. *)
Lemma round_binary64_exact (N sh e : Z) :
  0 < N < 2 ^ 53 -> 0 <= sh ->
  53 <= sh + (Z.log2 N + 1) ->
  -1074 <= e + sh + (Z.log2 N + 1) - 53 ->
  round_binary64 (N * 2 ^ sh) e
  = (N * 2 ^ (53 - (Z.log2 N + 1)), e + sh + (Z.log2 N + 1) - 53).
Proof.
  intros HN Hsh Hshift Hrange.
  set (D := Z.log2 N + 1) in *.
  assert (HD : 1 <= D <= 53).
  { unfold D. pose proof (Z.log2_nonneg N).
    assert (Z.log2 N < 53) by (apply Z.log2_lt_pow2; lia). lia. }
  unfold round_binary64, binary64_exponent.
  rewrite Z.log2_mul_pow2 by lia. fold D.
  replace (Z.max (sh + Z.log2 N + 1 + e - 53) (-1074) - e)
    with (sh + D - 53) by (unfold D; lia).
  replace (Z.max 0 (sh + D - 53)) with (sh + D - 53) by lia.
  set (k := sh + D - 53).
  assert (Hk : 0 < 2 ^ k) by (apply Z.pow_pos_nonneg; lia).
  assert (Hsplit : N * 2 ^ sh = N * 2 ^ (53 - D) * 2 ^ k).
  { rewrite <- Z.mul_assoc, <- Z.pow_add_r by lia. f_equal. f_equal. lia. }
  assert (Hround : round_half_even (N * 2 ^ sh) (2 ^ k)
                   = N * 2 ^ (53 - D)).
  { unfold round_half_even. rewrite Hsplit.
    rewrite Z.div_mul, Z.mod_mul by lia.
    destruct (Z.ltb_spec (2 * 0) (2 ^ k)); [reflexivity|lia]. }
  rewrite Hround.
  assert (Hlog : Z.log2 (N * 2 ^ (53 - D)) = 52).
  { rewrite Z.log2_mul_pow2 by lia. unfold D. lia. }
  rewrite Hlog.
  replace (Z.max 0 (Z.max (52 + 1 + (e + k) - 53) (-1074) - (e + k)))
    with 0 by lia.
  change (2 ^ 0) with 1. rewrite Z.div_1_r.
  f_equal. lia.
Qed.

Lemma pos_iter_xO (m d : positive) :
  Z.pos (Pos.iter xO m d) = Z.pos m * 2 ^ Z.pos d.
Proof.
  revert m. induction d as [|d IH] using Pos.peano_ind; intro m.
  - cbn [Pos.iter]. change (2 ^ 1) with 2. lia.
  - rewrite Pos.iter_succ, Pos2Z.inj_succ, Z.pow_succ_r by lia.
    rewrite Pos2Z.inj_xO, IH. lia.
Qed.

(** [float(n)] for a positive integer of at most 53 bits. *)
Lemma float_of_small_int (n : positive) :
  Z.pos n < 2 ^ 53 ->
  binary_normalize prec emax (Z.pos n) 0 false
  = S754_finite false
      (Z.to_pos (Z.pos n * 2 ^ (53 - (Z.log2 (Z.pos n) + 1))))
      (Z.log2 (Z.pos n) + 1 - 53).
Proof.
  intro Hn. cbn [binary_normalize]. unfold binary_round.
  set (D := Z.log2 (Z.pos n) + 1).
  assert (HD : 1 <= D <= 53).
  { unfold D. pose proof (Z.log2_nonneg (Z.pos n)).
    assert (Z.log2 (Z.pos n) < 53) by (apply Z.log2_lt_pow2; lia). lia. }
  assert (Hdig : Z.pos (digits2_pos n) = D)
    by (apply (Zdigits2_log2 (Z.pos n)); lia).
  rewrite Hdig, fexp_binary64.
  replace (Z.max (D + 0 - 53) (-1074)) with (D - 53) by lia.
  assert (Hshift : exists mz,
            shl_align n 0 (D - 53) = (mz, D - 53) /\
            Z.pos mz = Z.pos n * 2 ^ (53 - D)).
  { unfold shl_align. rewrite Z.sub_0_r.
    destruct (D - 53) as [|p|p] eqn:E; try lia.
    - exists n. split; [reflexivity|].
      replace (53 - D) with 0 by lia. lia.
    - exists (Pos.iter xO n p). split; [reflexivity|].
      rewrite pos_iter_xO. f_equal. f_equal. lia. }
  destruct Hshift as (mz & -> & Hmz).
  rewrite binary_round_aux_spec, Hmz.
  rewrite (round_binary64_exact (Z.pos n) (53 - D) (D - 53)); fold D;
    try lia.
  replace (D - 53 + (53 - D) + D - 53) with (D - 53) by lia.
  assert (0 < Z.pos n * 2 ^ (53 - D)).
  { apply Z.mul_pos_pos; [lia|apply Z.pow_pos_nonneg; lia]. }
  destruct (Z.eqb_spec (Z.pos n * 2 ^ (53 - D)) 0); [lia|].
  destruct (Z.ltb_spec 971 (D - 53)); [lia|]. reflexivity.
Qed.

(** [float(10 ** decimals)] is exact up to 15 decimals. *)
Lemma float_of_int_pow10 (decimals : Z) :
  0 <= decimals <= 15 ->
  float_of_int (10 ^ decimals)
  = Ok (S754_finite false (Z.to_pos (scale_mantissa decimals))
          (scale_exponent decimals)).
Proof.
  intro Hd. destruct (scale_bits_bounds decimals Hd) as (Hp & _).
  unfold float_of_int.
  destruct (10 ^ decimals) as [|n|n] eqn:E; try lia.
  rewrite (float_of_small_int n) by lia.
  unfold scale_mantissa, scale_exponent, scale_bits. rewrite E.
  reflexivity.
Qed.

(** A whole number [n] with [n * 10^decimals] below [2^53] is converted
    exactly. *)
Lemma scaled_amount_of_int (decimals n : Z) :
  0 <= decimals <= 15 ->
  0 <= n -> n * 10 ^ decimals < 2 ^ 53 ->
  scaled_amount decimals (nearest_float n 0) = Ok (n * 10 ^ decimals).
Proof.
  intros Hdec Hn Hbound. unfold nearest_float.
  destruct (scale_bits_bounds decimals Hdec) as (Hp & Hb).
  destruct n as [|n|n]; try lia; [reflexivity|].
  change (0 =? 0) with true. cbv iota.
  assert (Hn53 : Z.pos n < 2 ^ 53) by nia.
  rewrite (float_of_small_int n Hn53).
  set (d := Z.log2 (Z.pos n) + 1).
  set (N := Z.pos n * 10 ^ decimals) in *.
  set (D := Z.log2 N + 1).
  set (S := scale_bits decimals) in *.
  assert (HN : 0 < N) by (unfold N; nia).
  assert (Hd : 1 <= d <= 53).
  { unfold d. pose proof (Z.log2_nonneg (Z.pos n)).
    assert (Z.log2 (Z.pos n) < 53) by (apply Z.log2_lt_pow2; lia). lia. }
  assert (HD : d + S - 1 <= D <= 53).
  { unfold D. split.
    - unfold d, S, scale_bits, N.
      pose proof (Z.log2_mul_below (Z.pos n) (10 ^ decimals)
                    ltac:(lia) ltac:(lia)). lia.
    - assert (Z.log2 N < 53); [|lia]. apply Z.log2_lt_pow2; lia. }
  assert (Hpow : 0 < 2 ^ (53 - d)) by (apply Z.pow_pos_nonneg; lia).
  assert (HpowS : 0 < 2 ^ (53 - S)) by (apply Z.pow_pos_nonneg; lia).
  cbn [scaled_amount].
  rewrite Z2Pos.id by (apply Z.mul_pos_pos; lia).
  unfold scale_mantissa, scale_exponent. fold S.
  replace (Z.pos n * 2 ^ (53 - d) * (10 ^ decimals * 2 ^ (53 - S)))
    with (N * 2 ^ (106 - d - S)).
  2:{ unfold N. replace (106 - d - S) with (53 - d + (53 - S)) by lia.
      rewrite Z.pow_add_r by lia. ring. }
  rewrite (round_binary64_exact N (106 - d - S) (d - 53 + (S - 53)));
    fold D; try lia.
  assert (HpowD : 0 < 2 ^ (53 - D)) by (apply Z.pow_pos_nonneg; lia).
  destruct (Z.eqb_spec (N * 2 ^ (53 - D)) 0) as [E|_]; [nia|].
  destruct (Z.ltb_spec 971 (d - 53 + (S - 53) + (106 - d - S) + D - 53));
    [lia|].
  f_equal. unfold truncate.
  replace (d - 53 + (S - 53) + (106 - d - S) + D - 53) with (D - 53)
    by lia.
  destruct (Z.leb_spec 0 (D - 53)).
  - replace (53 - D) with 0 by lia. replace (D - 53) with 0 by lia.
    change (2 ^ 0) with 1. lia.
  - replace (- (D - 53)) with (53 - D) by lia.
    apply Z.div_mul. lia.
Qed.

End FloatArithmetic.

(** *** Plain decimal numerals *)

Lemma index_of_bound c s i j : index_of c s i = Some j -> i <= j.
Proof.
  revert i. induction s as [|d s IH]; intro i; cbn [index_of];
    [discriminate|].
  destruct (Ascii.eqb c d); [intros [= <-]; lia|].
  intro H. apply IH in H. lia.
Qed.

Lemma digits_value_nonneg s acc n :
  0 <= acc -> digits_value s acc = Some n -> 0 <= n.
Proof.
  revert acc. induction s as [|c s IH]; intros acc Hacc; cbn [digits_value].
  - intros [= <-]. assumption.
  - unfold digit_value.
    destruct (index_of c "0123456789" 0) as [d|] eqn:Hd; [|discriminate].
    apply index_of_bound in Hd. apply IH. lia.
Qed.

Lemma parse_decimal_nonneg s n k : parse_decimal s = Some (n, k) -> 0 <= n.
Proof.
  unfold parse_decimal. destruct (split_at_point s) as [i f].
  destruct (String.eqb i ""); [discriminate|].
  destruct f as [f|].
  - destruct (digits_value (i ++ f) 0) as [m|] eqn:E; [|discriminate].
    intros [= <- _]. apply (digits_value_nonneg _ 0 _ ltac:(lia) E).
  - destruct (digits_value i 0) as [m|] eqn:E; [|discriminate].
    intros [= <- _]. apply (digits_value_nonneg _ 0 _ ltac:(lia) E).
Qed.

(** ** The requirement builder *)

Section BuilderFacts.

Context {py : PyBuiltins} {sol : Solders}.
Variable self : SolanaFacilitator.

Lemma str_remove_from_idem c s :
  str_remove_from (String c "") 0 (str_remove_from (String c "") 0 s)
  = str_remove_from (String c "") 0 s.
Proof.
  induction s as [|d s IH]; [reflexivity|].
  cbn [str_remove_from String.prefix String.length Nat.sub].
  destruct (Ascii.ascii_dec c d) as [->|Hne] eqn:E.
  - destruct s; assumption.
  - cbn [str_remove_from String.prefix String.length Nat.sub].
    rewrite E. now rewrite IH.
Qed.

Lemma amount_atomic_dollar p :
  amount_atomic self ("$" ++ p) = amount_atomic self p /\
  amount_atomic self (str_remove "$" p) = amount_atomic self p.
Proof.
  unfold amount_atomic, str_remove. split.
  - destruct p; reflexivity.
  - now rewrite str_remove_from_idem.
Qed.

Lemma builds_of_amount kp p n :
  self.(facilitator_fee_payer) = Some kp ->
  amount_atomic self p = Ok n ->
  builds self p (str_int n).
Proof.
  intros Hkey Hn request Hp.
  unfold generate_requirements, get_fee_payer_pubkey.
  rewrite Hp, Hn, Hkey. cbn [call fbind run].
  eexists. eexists. repeat split.
Qed.

Lemma builds_amount p a :
  builds self p a ->
  exists n, amount_atomic self p = Ok n /\ a = str_int n.
Proof.
  intro H.
  destruct (H {| price := p; request_pay_to := ""; request_resource := "";
                 request_description := ""; timeout_seconds := 60 |}
              eq_refl) as (response & r & Hg & Hacc & Hmax).
  unfold generate_requirements in Hg. cbn [price] in Hg.
  flow_inv Hg. injection Hg as <-. cbn [accepts] in Hacc.
  injection Hacc as <-. cbn [max_amount_required] in Hmax.
  eexists. split; [reflexivity|]. now symmetry.
Qed.

Lemma amount_atomic_scaled p :
  0 <= self.(settings).(usdc_decimals) <= 15 ->
  amount_atomic self p =
  match py_float (str_remove "$" p) with
  | Raise e => Raise e
  | Ok x => scaled_amount self.(settings).(usdc_decimals) x
  end.
Proof.
  intro Hdec. unfold amount_atomic, times_pow10.
  destruct (Z.leb_spec 0 (usdc_decimals (settings self))); [|lia].
  rewrite (float_of_int_pow10 _ Hdec).
  destruct (py_float (str_remove "$" p)) as [x|e]; [|reflexivity].
  cbn [call fbind]. rewrite (int_of_scaled _ x Hdec).
  destruct (scaled_amount _ x); reflexivity.
Qed.

Lemma generate_requirements_raises p e :
  amount_atomic self p = Raise e ->
  forall request, request.(price) = p ->
  generate_requirements self request = Raise e.
Proof.
  intros Ha request Hp. unfold generate_requirements.
  rewrite Hp, Ha. reflexivity.
Qed.


End BuilderFacts.

(** ** The verifier, completely *)

Section VerifierComplete.

Context {py : PyBuiltins} {sol : Solders}.
Variable self : SolanaFacilitator.

(** Evaluation of a body whose calls are known: rewrite the call at the
    head with its equation and take the step. *)
Ltac forward :=
  repeat (cbn [fbind call return_if run try_return try_except negb
               for_each py_index nth_error];
          match goal with
          | Heq : ?lhs = _ |- context [?lhs] => rewrite Heq
          end);
  cbn [fbind call return_if run try_return try_except negb
       for_each py_index nth_error].

Lemma is_compute_budget_eval ix keys d program :
  account_at keys ix.(program_id_index) = Some program ->
  _is_compute_budget_instruction ix keys d =
  Ok (Pubkey_eqb program COMPUTE_BUDGET_PROGRAM &&
      match ix.(data) with
      | d0 :: _ => byte_val d0 =? d
      | [] => false
      end).
Proof.
  unfold _is_compute_budget_instruction, account_at, py_index. intros ->.
  cbn [call fbind].
  destruct (Pubkey_eqb program COMPUTE_BUDGET_PROGRAM); [|reflexivity].
  destruct (data ix) as [|d0 rest]; [reflexivity|].
  cbn [negb return_if fbind]. unfold len.
  destruct (Z.ltb_spec (Z.of_nat (List.length (d0 :: rest))) 1) as [Hlt|_].
  - cbn [List.length] in Hlt. lia.
  - reflexivity.
Qed.

Lemma budget_instruction_eval ix keys d d' :
  budget_instruction keys ix d ->
  _is_compute_budget_instruction ix keys d' = Ok (d =? d').
Proof.
  intros (Hprog & d0 & rest & Hdata & Hd).
  rewrite (is_compute_budget_eval _ _ _ _ Hprog), Hdata, Hd.
  now rewrite (proj2 (Pubkey_eqb_eq _ _) eq_refl).
Qed.

Lemma budget_instruction_iff ix keys d :
  _is_compute_budget_instruction ix keys d = Ok true <->
  budget_instruction keys ix d.
Proof.
  split.
  - apply is_compute_budget_inv.
  - intro H. rewrite (budget_instruction_eval _ _ _ d H).
    now rewrite Z.eqb_refl.
Qed.

Lemma compute_price_eval ix :
  price_within_limit self ix ->
  _verify_compute_price self ix = Ok (true, None).
Proof.
  unfold price_within_limit, _verify_compute_price, u64_at.
  cbn [Nat.add]. intros (Hlen & Hprice).
  destruct (Z.ltb_spec (len (data ix)) 9); [lia|].
  cbn [return_if fbind].
  destruct (Z.gtb_spec (unpack_le (py_slice (data ix) 1 9))
              (max_compute_unit_price (settings self))); [lia|].
  reflexivity.
Qed.

Lemma transfer_eval ix keys R :
  transfer_ok self keys R ix ->
  _verify_transfer_instruction self ix keys R = Ok (true, None).
Proof.
  intros (tp & ra & d9 & a1 & a2 & mint & dest & pk & Hprog & Htp & Hdisc
          & Hlen & Hint & Hamount & H9 & Hdec & Haccs & Ha1 & Hmint
          & Hasset & Ha2 & Hdest & Hpay & Hata).
  unfold _verify_transfer_instruction, _get_associated_token_address.
  unfold account_at, u64_at in *. cbn [Nat.add] in *.
  destruct Hdisc as (rest & Hdata).
  assert (Hprog' : Pubkey_eqb tp SPL_TOKEN_PROGRAM
                   || Pubkey_eqb tp TOKEN_2022_PROGRAM = true).
  { apply orb_true_iff.
    destruct Htp as [->| ->]; [left|right]; now apply Pubkey_eqb_eq. }
  assert (H0 : py_index (data ix) 0 = Ok x0c)
    by (rewrite Hdata; reflexivity).
  assert (Hl1 : (len (data ix) <? 1) = false) by (apply Z.ltb_ge; lia).
  assert (Hl10 : (len (data ix) <? 10) = false) by (apply Z.ltb_ge; lia).
  assert (Hl4 : (len (accounts ix) <? 4) = false) by (apply Z.ltb_ge; lia).
  apply py_index_Ok in Hprog, H9, Ha1, Hmint, Ha2, Hdest.
  assert (Heq1 : (unpack_le (py_slice (data ix) 1 9) =? ra) = true)
    by now apply Z.eqb_eq.
  assert (Heq2 : (byte_val d9 =? usdc_decimals (settings self)) = true)
    by now apply Z.eqb_eq.
  assert (Heq3 : Pubkey_eqb mint mint = true) by now apply Pubkey_eqb_eq.
  destruct (find_program_address [pk; tp; mint] ASSOCIATED_TOKEN_PROGRAM)
    as [ata bump] eqn:Hfind.
  cbn [fst] in Hata. subst dest.
  assert (Heq4 : Pubkey_eqb ata ata = true) by now apply Pubkey_eqb_eq.
  forward. reflexivity.
Qed.

Lemma for_each_unit_Next {R A} (l : list A) (body : unit -> A -> Flow R unit) :
  (forall x, In x l -> body tt x = Next tt) ->
  for_each l tt body = Next tt.
Proof.
  induction l as [|y l IH]; cbn [for_each]; intro H.
  - reflexivity.
  - rewrite (H y (or_introl eq_refl)). cbn [fbind].
    apply IH. intros x Hx. apply H. now right.
Qed.

Lemma isolation_loop_eval keys fp (accs : bytes) :
  (forall a, In a accs ->
     exists k, account_at keys a = Some k /\ k <> fp) ->
  for_each (R := VerifyResponse) accs tt
    (fun _ account_idx =>
       account_key <- call (py_index keys (Byte.to_nat account_idx)) ;;
       return_if (Pubkey_eqb account_key fp)
         (invalid "Fee payer must not be in instruction accounts")) =
  Next tt.
Proof.
  intro H. apply for_each_unit_Next. intros a Ha.
  destruct (H a Ha) as (k & Hk & Hne).
  apply py_index_Ok in Hk. unfold account_at in Hk. rewrite Hk.
  cbn [call fbind]. apply Pubkey_eqb_neq in Hne. now rewrite Hne.
Qed.

Lemma checks_accept i0 i1 i2 keys R :
  prelude_ok self keys i0 i1 ->
  transfer_ok self keys R i2 ->
  isolation_ok keys R [i0; i1; i2] ->
  try_return (verify_checks self [i0; i1; i2] keys R) invalid
  = {| is_valid := true; invalid_reason := None |}.
Proof.
  intros (H0 & H1 & Hp1 & Hp0) Htr (fp & Hfp & Hiso).
  apply transfer_eval in Htr.
  assert (L0 := isolation_loop_eval keys fp (accounts i0)
                  (Hiso i0 (or_introl eq_refl))).
  assert (L1 := isolation_loop_eval keys fp (accounts i1)
                  (Hiso i1 (or_intror (or_introl eq_refl)))).
  assert (L2 := isolation_loop_eval keys fp (accounts i2)
                  (Hiso i2 (or_intror (or_intror (or_introl eq_refl))))).
  unfold verify_checks.
  destruct H0 as [H0|H0], H1 as [H1|H1].
  - pose proof (budget_instruction_eval _ _ _ 2 H0) as E0.
    pose proof (budget_instruction_eval _ _ _ 2 H1) as E1.
    cbn [Z.eqb Pos.eqb] in E0, E1. forward. reflexivity.
  - pose proof (budget_instruction_eval _ _ _ 2 H0) as E0.
    pose proof (budget_instruction_eval _ _ _ 2 H1) as E1.
    pose proof (budget_instruction_eval _ _ _ 3 H1) as E1'.
    pose proof (compute_price_eval _ (Hp1 H1)) as P1.
    cbn [Z.eqb Pos.eqb] in E0, E1, E1'. forward. reflexivity.
  - pose proof (budget_instruction_eval _ _ _ 2 H0) as E0.
    pose proof (budget_instruction_eval _ _ _ 3 H0) as E0'.
    pose proof (budget_instruction_eval _ _ _ 2 H1) as E1.
    pose proof (compute_price_eval _ (Hp0 H0 H1)) as P0.
    cbn [Z.eqb Pos.eqb] in E0, E0', E1. forward. reflexivity.
  - pose proof (budget_instruction_eval _ _ _ 2 H0) as E0.
    pose proof (budget_instruction_eval _ _ _ 3 H0) as E0'.
    pose proof (budget_instruction_eval _ _ _ 2 H1) as E1.
    pose proof (budget_instruction_eval _ _ _ 3 H1) as E1'.
    pose proof (compute_price_eval _ (Hp1 H1)) as P1.
    cbn [Z.eqb Pos.eqb] in E0, E0', E1, E1'. forward. reflexivity.
Qed.

Lemma checks_prelude_ok i0 i1 i2 keys R :
  is_valid (try_return (verify_checks self [i0; i1; i2] keys R) invalid)
  = true ->
  prelude_ok self keys i0 i1.
Proof.
  unfold verify_checks. intro H. cbn [for_each] in H.
  repeat (cbv beta iota delta [py_index nth_error] in H;
          flow_step H; try discriminate H; break_innermost H).
  all: repeat match goal with
       | Hc : (_ =? _) = true |- _ => apply Z.eqb_eq in Hc
       | Hc : (_ =? _) = false |- _ => apply Z.eqb_neq in Hc
       end; try (exfalso; lia); subst.
  all: repeat match goal with
       | Hp : _verify_compute_price _ _ = Ok (true, _) |- _ =>
           apply verify_compute_price_inv in Hp
       end.
  all: unfold prelude_ok; split; [|split; [|split]].
  all: try (first [ left; apply budget_instruction_iff; assumption
                  | right; apply budget_instruction_iff; assumption ]).
  all: try (intro Hb; pose proof (budget_instruction_eval _ _ _ 2 Hb) as E;
            cbn [Z.eqb Pos.eqb] in E;
            first [congruence | assumption]).
  all: intros Hb0 Hb1;
    pose proof (budget_instruction_eval _ _ _ 2 Hb0) as E0;
    pose proof (budget_instruction_eval _ _ _ 2 Hb1) as E1;
    cbn [Z.eqb Pos.eqb] in E0, E1;
    first [congruence | assumption].
Qed.

(** A valid payment has the shape of the template. *)
Lemma verify_valid_parts h R :
  is_valid (verify self h R) = true ->
  exists t i0 i1 i2,
    decoded_transaction h = Ok t /\
    supported_format t = true /\
    tx_instructions t = [i0; i1; i2] /\
    prelude_ok self (tx_account_keys t) i0 i1 /\
    transfer_ok self (tx_account_keys t) R i2 /\
    isolation_ok (tx_account_keys t) R (tx_instructions t).
Proof.
  intro H. pose proof H as Hvalid.
  apply verify_valid in H as (t & i0 & i1 & i2 & r & fp & Ht & Hfmt
                              & Hixs & Htr & Hfp & Hiso).
  rewrite verify_cases, Ht, Hfmt, Hixs in Hvalid.
  exists t, i0, i1, i2.
  refine (conj Ht (conj Hfmt (conj Hixs (conj _ (conj _ _))))).
  - eapply checks_prelude_ok. eassumption.
  - apply verify_transfer_inv in Htr. exact Htr.
  - exists fp. split; assumption.
Qed.

(** X1. [verify] returns valid exactly for the payments of the template:
    the header decodes to a legacy transaction or to a versioned one with
    a v0 message, with three instructions, of which the first two form an
    acceptable compute-budget prelude, the third is the transfer the
    requirement asks for, and none refers to the fee payer. *)
Theorem verify_valid_iff h R :
  is_valid (verify self h R) = true <->
  exists t i0 i1 i2,
    decoded_transaction h = Ok t /\
    supported_format t = true /\
    tx_instructions t = [i0; i1; i2] /\
    prelude_ok self (tx_account_keys t) i0 i1 /\
    transfer_ok self (tx_account_keys t) R i2 /\
    isolation_ok (tx_account_keys t) R (tx_instructions t).
Proof.
  split.
  - apply verify_valid_parts.
  - intros (t & i0 & i1 & i2 & Ht & Hfmt & Hixs & Hpre & Htr & Hiso).
    rewrite verify_cases, Ht, Hfmt, Hixs. rewrite Hixs in Hiso.
    now rewrite checks_accept.
Qed.

End VerifierComplete.

Section VerifierSettings.

Context {py : PyBuiltins} {sol : Solders}.

(** X2. Raising the maximum compute-unit price never turns a valid
    payment into an invalid one. *)
Theorem verify_monotone_in_max_price self h R max_price :
  self.(settings).(max_compute_unit_price) <= max_price ->
  is_valid (verify self h R) = true ->
  is_valid (verify (with_max_price self max_price) h R) = true.
Proof.
  intros Hle H.
  apply verify_valid_parts in H
    as (t & i0 & i1 & i2 & Ht & Hfmt & Hixs & Hpre & Htr & Hiso).
  assert (Hprice : forall ix, price_within_limit self ix ->
            price_within_limit (with_max_price self max_price) ix).
  { intros ix (Hlen & Hp). split; [assumption|].
    cbn [with_max_price settings max_compute_unit_price]. lia. }
  rewrite verify_cases, Ht, Hfmt, Hixs. rewrite Hixs in Hiso.
  rewrite checks_accept; [reflexivity| |exact Htr|exact Hiso].
  destruct Hpre as (H0 & H1 & Hp1 & Hp0).
  split; [exact H0|]. split; [exact H1|].
  split; [intro; apply Hprice; auto|intros; apply Hprice; auto].
Qed.

End VerifierSettings.

(** ** The reasons of rejection *)

Section VerifierRejections.

Context {py : PyBuiltins} {sol : Solders}.
Variable self : SolanaFacilitator.

Ltac forward :=
  repeat (cbn [fbind call return_if run try_return try_except negb
               for_each py_index nth_error];
          match goal with
          | Heq : ?lhs = _ |- context [?lhs] => rewrite Heq
          end);
  cbn [fbind call return_if run try_return try_except negb
       for_each py_index nth_error].

(** X3. A header that decodes to a transaction without exactly three
    instructions is rejected with the count it has, whatever else the
    transaction holds. *)
Theorem verify_instruction_count h R t :
  decoded_transaction h = Ok t ->
  supported_format t = true ->
  len (tx_instructions t) <> 3 ->
  verify self h R =
  invalid ("Expected 3 instructions, got " ++
           str_int (len (tx_instructions t))).
Proof.
  intros Ht Hfmt Hlen. rewrite verify_cases, Ht, Hfmt.
  unfold verify_checks. apply Z.eqb_neq in Hlen. rewrite Hlen.
  reflexivity.
Qed.

(** X4. What is reported when the header does not decode: the message of
    the base64 error; else, when neither parser accepts the bytes, the
    message of the versioned parser (that of the legacy parser is
    dropped); and a versioned transaction with a legacy message is an
    unsupported format. *)
Theorem verify_undecodable h R :
  (forall e, b64decode h = Raise e -> verify self h R = invalid e) /\
  (forall tx_bytes e1 e2,
     b64decode h = Ok tx_bytes ->
     Transaction_from_bytes tx_bytes = Raise e1 ->
     VersionedTransaction_from_bytes tx_bytes = Raise e2 ->
     verify self h R = invalid e2) /\
  (forall tx_bytes e1 tx m,
     b64decode h = Ok tx_bytes ->
     Transaction_from_bytes tx_bytes = Raise e1 ->
     VersionedTransaction_from_bytes tx_bytes = Ok tx ->
     tx.(v_message) = LegacyMessage m ->
     verify self h R = invalid "Unsupported transaction format").
Proof.
  repeat split.
  - intros e He. rewrite verify_cases. unfold decoded_transaction.
    now rewrite He.
  - intros tx_bytes e1 e2 Hb H1 H2. rewrite verify_cases.
    unfold decoded_transaction. now rewrite Hb, H1, H2.
  - intros tx_bytes e1 tx m Hb H1 H2 Hm. rewrite verify_cases.
    unfold decoded_transaction. rewrite Hb, H1, H2.
    unfold supported_format. now rewrite Hm.
Qed.

Lemma compute_price_rejected ix :
  (len ix.(data) < 9 ->
   _verify_compute_price self ix
   = Ok (false, Some "Invalid SetComputeUnitPrice instruction")) /\
  (9 <= len ix.(data) ->
   self.(settings).(max_compute_unit_price) < u64_at 1 ix.(data) ->
   _verify_compute_price self ix
   = Ok (false, Some (price_exceeds (u64_at 1 ix.(data))
                        self.(settings).(max_compute_unit_price)))).
Proof.
  unfold _verify_compute_price, u64_at, price_exceeds. cbn [Nat.add].
  split.
  - intro H. destruct (Z.ltb_spec (len (data ix)) 9); [reflexivity|lia].
  - intros H Hp. destruct (Z.ltb_spec (len (data ix)) 9); [lia|].
    cbn [return_if fbind].
    destruct (Z.gtb_spec (unpack_le (py_slice (data ix) 1 9))
                (max_compute_unit_price (settings self))); [|lia].
    reflexivity.
Qed.

Lemma checks_price_rejected i0 i1 i2 ix keys R r :
  checked_price_instruction keys i0 i1 ix ->
  _verify_compute_price self ix = Ok (false, r) ->
  try_return (verify_checks self [i0; i1; i2] keys R) invalid
  = {| is_valid := false; invalid_reason := r |}.
Proof.
  intros Hchecked P. unfold verify_checks.
  destruct Hchecked as [(H1 & -> & [H0|H0])|(H0 & -> & H1)].
  - pose proof (budget_instruction_eval _ _ _ 2 H0) as E0.
    pose proof (budget_instruction_eval _ _ _ 2 H1) as E1.
    pose proof (budget_instruction_eval _ _ _ 3 H1) as E1'.
    cbn [Z.eqb Pos.eqb] in E0, E1, E1'. forward. reflexivity.
  - pose proof (budget_instruction_eval _ _ _ 2 H0) as E0.
    pose proof (budget_instruction_eval _ _ _ 3 H0) as E0'.
    pose proof (budget_instruction_eval _ _ _ 2 H1) as E1.
    pose proof (budget_instruction_eval _ _ _ 3 H1) as E1'.
    cbn [Z.eqb Pos.eqb] in E0, E0', E1, E1'. forward. reflexivity.
  - pose proof (budget_instruction_eval _ _ _ 2 H0) as E0.
    pose proof (budget_instruction_eval _ _ _ 3 H0) as E0'.
    pose proof (budget_instruction_eval _ _ _ 2 H1) as E1.
    cbn [Z.eqb Pos.eqb] in E0, E0', E1. forward. reflexivity.
Qed.

(** X5. When the first two instructions are compute-budget instructions,
    a price above the maximum in the price instruction that is checked
    rejects the payment with ["Compute unit price <p> exceeds max <m>"],
    and price data shorter than 9 bytes with
    ["Invalid SetComputeUnitPrice instruction"]; the transfer is not
    looked at. *)
Theorem verify_price_rejected h R t i0 i1 i2 ix :
  decoded_transaction h = Ok t ->
  supported_format t = true ->
  tx_instructions t = [i0; i1; i2] ->
  checked_price_instruction (tx_account_keys t) i0 i1 ix ->
  (len ix.(data) < 9 ->
   verify self h R = invalid "Invalid SetComputeUnitPrice instruction") /\
  (9 <= len ix.(data) ->
   self.(settings).(max_compute_unit_price) < u64_at 1 ix.(data) ->
   verify self h R =
   invalid (price_exceeds (u64_at 1 ix.(data))
              self.(settings).(max_compute_unit_price))).
Proof.
  intros Ht Hfmt Hixs Hchecked.
  rewrite verify_cases, Ht, Hfmt, Hixs.
  destruct (compute_price_rejected ix) as (Hshort & Hhigh).
  split.
  - intro H. apply (checks_price_rejected _ _ _ ix); auto.
  - intros H Hp. apply (checks_price_rejected _ _ _ ix); auto.
Qed.

Lemma checks_to_isolation i0 i1 i2 keys R :
  prelude_ok self keys i0 i1 ->
  transfer_ok self keys R i2 ->
  try_return (verify_checks self [i0; i1; i2] keys R) invalid =
  try_return
    (fee_payer_pubkey <-
       call (Pubkey_from_string R.(extra).(fee_payer)) ;;
     for_each [i0; i1; i2] tt (fun _ ix =>
       for_each ix.(accounts) tt (fun _ account_idx =>
         account_key <- call (py_index keys (Byte.to_nat account_idx)) ;;
         return_if (Pubkey_eqb account_key fee_payer_pubkey)
           (invalid "Fee payer must not be in instruction accounts"))) ;;;
     Return {| is_valid := true; invalid_reason := None |})
    invalid.
Proof.
  intros (H0 & H1 & Hp1 & Hp0) Htr.
  apply transfer_eval in Htr.
  unfold verify_checks.
  destruct (Pubkey_from_string (fee_payer (extra R))) as [fp|e] eqn:Hfp.
  all: destruct H0 as [H0|H0], H1 as [H1|H1].
  all: pose proof (budget_instruction_eval _ _ _ 2 H0) as E0;
    pose proof (budget_instruction_eval _ _ _ 3 H0) as E0';
    pose proof (budget_instruction_eval _ _ _ 2 H1) as E1;
    pose proof (budget_instruction_eval _ _ _ 3 H1) as E1';
    cbn [Z.eqb Pos.eqb] in E0, E0', E1, E1'.
  all: try pose proof (compute_price_eval self _ (Hp1 H1)) as P1.
  all: try pose proof (compute_price_eval self _ (Hp0 H0 H1)) as P0.
  all: forward; reflexivity.
Qed.

Lemma isolation_loop_cases keys fp (accs : bytes) :
  (forall a, In a accs -> exists k, account_at keys a = Some k) ->
  (for_each (R := VerifyResponse) accs tt
     (fun _ account_idx =>
        account_key <- call (py_index keys (Byte.to_nat account_idx)) ;;
        return_if (Pubkey_eqb account_key fp)
          (invalid "Fee payer must not be in instruction accounts"))
   = Next tt /\
   forall a, In a accs -> account_at keys a <> Some fp) \/
  (for_each (R := VerifyResponse) accs tt
     (fun _ account_idx =>
        account_key <- call (py_index keys (Byte.to_nat account_idx)) ;;
        return_if (Pubkey_eqb account_key fp)
          (invalid "Fee payer must not be in instruction accounts"))
   = Return (invalid "Fee payer must not be in instruction accounts")).
Proof.
  induction accs as [|a accs IH]; intro Hrange.
  - left. split; [reflexivity|]. intros a [].
  - cbn [for_each].
    destruct (Hrange a (or_introl eq_refl)) as (k & Hk).
    pose proof Hk as Hk'. apply py_index_Ok in Hk'.
    unfold account_at in Hk'. rewrite Hk'. cbn [call fbind].
    destruct (Pubkey_eqb k fp) eqn:Hkfp.
    + right. reflexivity.
    + cbn [return_if fbind].
      destruct IH as [(Hloop & Hne)|Hloop].
      * intros b Hb. apply Hrange. now right.
      * left. split; [assumption|]. intros b [<-|Hb].
        -- rewrite Hk. apply Pubkey_eqb_neq in Hkfp. congruence.
        -- now apply Hne.
      * right. assumption.
Qed.

Lemma isolation_loops_reject keys fp (ixs : list CompiledInstruction) :
  (forall ix, In ix ixs -> forall a, In a ix.(accounts) ->
     exists k, account_at keys a = Some k) ->
  (exists ix a, In ix ixs /\ In a ix.(accounts) /\
                account_at keys a = Some fp) ->
  for_each (R := VerifyResponse) ixs tt (fun _ ix =>
    for_each ix.(accounts) tt (fun _ account_idx =>
      account_key <- call (py_index keys (Byte.to_nat account_idx)) ;;
      return_if (Pubkey_eqb account_key fp)
        (invalid "Fee payer must not be in instruction accounts")))
  = Return (invalid "Fee payer must not be in instruction accounts").
Proof.
  induction ixs as [|ix ixs IH]; intros Hrange (ix' & a & Hix & Ha & Hfp).
  - destruct Hix.
  - cbn [for_each].
    destruct (isolation_loop_cases keys fp (accounts ix))
      as [(Hloop & Hne)|Hloop].
    + apply Hrange. now left.
    + rewrite Hloop. cbn [fbind]. apply IH.
      * intros ix0 Hix0. apply Hrange. now right.
      * destruct Hix as [->|Hix].
        -- exfalso. now apply (Hne a Ha).
        -- exists ix', a. auto.
    + rewrite Hloop. reflexivity.
Qed.

(** X6. A payment that is valid for [R] is rejected for the requirement
    that names as fee payer an address some instruction refers to, with
    the reason ["Fee payer must not be in instruction accounts"]; and
    for a fee payer that is no address, with the message of the parse
    error. *)
Theorem verify_fee_payer_referenced h R s :
  is_valid (verify self h R) = true ->
  exists t,
    decoded_transaction h = Ok t /\
    (forall fp ix a,
       Pubkey_from_string s = Ok fp ->
       In ix (tx_instructions t) -> In a ix.(accounts) ->
       account_at (tx_account_keys t) a = Some fp ->
       verify self h (with_fee_payer R s) = invalid fee_payer_in_accounts) /\
    (forall e,
       Pubkey_from_string s = Raise e ->
       verify self h (with_fee_payer R s) = invalid e).
Proof.
  intro H.
  apply verify_valid_parts in H
    as (t & i0 & i1 & i2 & Ht & Hfmt & Hixs & Hpre & Htr & Hiso).
  exists t. split; [assumption|].
  assert (Hchecks :
    verify self h (with_fee_payer R s) =
    try_return
      (fee_payer_pubkey <- call (Pubkey_from_string s) ;;
       for_each [i0; i1; i2] tt (fun _ ix =>
         for_each ix.(accounts) tt (fun _ account_idx =>
           account_key <- call (py_index (tx_account_keys t)
                                  (Byte.to_nat account_idx)) ;;
           return_if (Pubkey_eqb account_key fee_payer_pubkey)
             (invalid "Fee payer must not be in instruction accounts"))) ;;;
       Return {| is_valid := true; invalid_reason := None |})
      invalid).
  { rewrite verify_cases, Ht, Hfmt, Hixs.
    now rewrite (checks_to_isolation i0 i1 i2 (tx_account_keys t)
                   (with_fee_payer R s) Hpre Htr). }
  split.
  - intros fp ix a Hs Hix Ha Hfp. rewrite Hchecks, Hs. cbn [call fbind].
    rewrite isolation_loops_reject; [reflexivity| |].
    + destruct Hiso as (fp0 & _ & Hiso). rewrite Hixs in Hiso.
      intros ix0 Hix0 a0 Ha0.
      destruct (Hiso ix0 Hix0 a0 Ha0) as (k & Hk & _). now exists k.
    + rewrite Hixs in Hix. now exists ix, a.
  - intros e Hs. rewrite Hchecks, Hs. reflexivity.
Qed.

Lemma checks_transfer_rejected i0 i1 i2 keys R r :
  prelude_ok self keys i0 i1 ->
  _verify_transfer_instruction self i2 keys R = Ok (false, r) ->
  try_return (verify_checks self [i0; i1; i2] keys R) invalid
  = {| is_valid := false; invalid_reason := r |}.
Proof.
  intros (H0 & H1 & Hp1 & Hp0) Htr.
  unfold verify_checks.
  destruct H0 as [H0|H0], H1 as [H1|H1].
  all: pose proof (budget_instruction_eval _ _ _ 2 H0) as E0;
    pose proof (budget_instruction_eval _ _ _ 3 H0) as E0';
    pose proof (budget_instruction_eval _ _ _ 2 H1) as E1;
    pose proof (budget_instruction_eval _ _ _ 3 H1) as E1';
    cbn [Z.eqb Pos.eqb] in E0, E0', E1, E1'.
  all: try pose proof (compute_price_eval self _ (Hp1 H1)) as P1.
  all: try pose proof (compute_price_eval self _ (Hp0 H0 H1)) as P0.
  all: forward; reflexivity.
Qed.

Lemma transfer_wrong_asset ix keys R :
  transfer_ok self keys R ix ->
  exists mint destination token_program,
    Pubkey_from_string R.(asset) = Ok mint /\
    (forall s mint',
       Pubkey_from_string s = Ok mint' -> mint' <> mint ->
       _verify_transfer_instruction self ix keys (with_asset R s)
       = Ok (false, Some (mint_mismatch mint mint'))) /\
    (forall s pay_to_key,
       Pubkey_from_string s = Ok pay_to_key ->
       fst (find_program_address [pay_to_key; token_program; mint]
              ASSOCIATED_TOKEN_PROGRAM) <> destination ->
       _verify_transfer_instruction self ix keys (with_pay_to R s)
       = Ok (false,
             Some (destination_mismatch destination
                     (fst (find_program_address
                             [pay_to_key; token_program; mint]
                             ASSOCIATED_TOKEN_PROGRAM))))).
Proof.
  intros (tp & ra & d9 & a1 & a2 & mint & dest & pk & Hprog & Htp & Hdisc
          & Hlen & Hint & Hamount & H9 & Hdec & Haccs & Ha1 & Hmint
          & Hasset & Ha2 & Hdest & Hpay & Hata).
  exists mint, dest, tp. split; [assumption|].
  unfold account_at, u64_at in *. cbn [Nat.add] in *.
  clear Hata.
  destruct Hdisc as (rest & Hdata).
  assert (Hprog' : Pubkey_eqb tp SPL_TOKEN_PROGRAM
                   || Pubkey_eqb tp TOKEN_2022_PROGRAM = true).
  { apply orb_true_iff.
    destruct Htp as [->| ->]; [left|right]; now apply Pubkey_eqb_eq. }
  assert (H0 : py_index (data ix) 0 = Ok x0c)
    by (rewrite Hdata; reflexivity).
  assert (Hl1 : (len (data ix) <? 1) = false) by (apply Z.ltb_ge; lia).
  assert (Hl10 : (len (data ix) <? 10) = false) by (apply Z.ltb_ge; lia).
  assert (Hl4 : (len (accounts ix) <? 4) = false) by (apply Z.ltb_ge; lia).
  apply py_index_Ok in Hprog, H9, Ha1, Hmint, Ha2, Hdest.
  assert (Heq1 : (unpack_le (py_slice (data ix) 1 9) =? ra) = true)
    by now apply Z.eqb_eq.
  assert (Heq2 : (byte_val d9 =? usdc_decimals (settings self)) = true)
    by now apply Z.eqb_eq.
  split.
  - intros s mint' Hs Hne.
    assert (Hneq : Pubkey_eqb mint mint' = false)
      by (apply Pubkey_eqb_neq; congruence).
    unfold _verify_transfer_instruction, mint_mismatch.
    cbn [with_asset max_amount_required asset pay_to].
    forward. reflexivity.
  - intros s pay_to_key Hs Hne.
    assert (Heq3 : Pubkey_eqb mint mint = true) by now apply Pubkey_eqb_eq.
    unfold _verify_transfer_instruction, _get_associated_token_address,
      destination_mismatch.
    cbn [with_pay_to max_amount_required asset pay_to].
    destruct (find_program_address [pay_to_key; tp; mint]
                ASSOCIATED_TOKEN_PROGRAM) as [ata bump] eqn:Hfind.
    cbn [fst] in Hne |- *.
    assert (Hneq : Pubkey_eqb dest ata = false)
      by (apply Pubkey_eqb_neq; congruence).
    forward. reflexivity.
Qed.

(** X7. A payment that is valid for [R] is rejected for the requirement
    with another mint, with the reason
    ["Mint <mint> does not match required <other>"], and for the
    requirement with a recipient whose associated token address is not
    the destination, with
    ["Destination <destination> does not match expected ATA <address>"]. *)
Theorem verify_wrong_asset_or_recipient h R :
  is_valid (verify self h R) = true ->
  exists mint destination token_program,
    Pubkey_from_string R.(asset) = Ok mint /\
    (forall s mint',
       Pubkey_from_string s = Ok mint' -> mint' <> mint ->
       verify self h (with_asset R s)
       = invalid (mint_mismatch mint mint')) /\
    (forall s pay_to_key,
       Pubkey_from_string s = Ok pay_to_key ->
       fst (find_program_address [pay_to_key; token_program; mint]
              ASSOCIATED_TOKEN_PROGRAM) <> destination ->
       verify self h (with_pay_to R s)
       = invalid (destination_mismatch destination
                    (fst (find_program_address
                            [pay_to_key; token_program; mint]
                            ASSOCIATED_TOKEN_PROGRAM)))).
Proof.
  intro H.
  apply verify_valid_parts in H
    as (t & i0 & i1 & i2 & Ht & Hfmt & Hixs & Hpre & Htr & Hiso).
  destruct (transfer_wrong_asset _ _ _ Htr)
    as (mint & dest & tp & Hasset & Hmint & Hpay).
  exists mint, dest, tp. split; [assumption|]. split.
  - intros s mint' Hs Hne. rewrite verify_cases, Ht, Hfmt, Hixs.
    now rewrite (checks_transfer_rejected _ _ _ _ _ _ Hpre
                   (Hmint s mint' Hs Hne)).
  - intros s pk Hs Hne. rewrite verify_cases, Ht, Hfmt, Hixs.
    now rewrite (checks_transfer_rejected _ _ _ _ _ _ Hpre
                   (Hpay s pk Hs Hne)).
Qed.

(** X8. [verify] reads the instructions and the account keys of the
    decoded message and nothing else: not the message header, not the
    recent block hash, not the address table lookups, not the
    signatures, and not whether the transaction is legacy or v0. *)
Theorem verify_reads_instructions_and_keys h1 h2 R t1 t2 :
  decoded_transaction h1 = Ok t1 ->
  decoded_transaction h2 = Ok t2 ->
  supported_format t1 = true ->
  supported_format t2 = true ->
  tx_instructions t1 = tx_instructions t2 ->
  tx_account_keys t1 = tx_account_keys t2 ->
  verify self h1 R = verify self h2 R.
Proof.
  intros H1 H2 F1 F2 Hixs Hkeys.
  rewrite !verify_cases, H1, H2, F1, F2, Hixs, Hkeys. reflexivity.
Qed.

End VerifierRejections.

(** ** The amount check and the checks before it *)

Section AmountCheck.

Context {py : PyBuiltins} {sol : Solders}.
Variable self : SolanaFacilitator.

Ltac forward :=
  repeat (cbn [fbind call return_if run try_return try_except negb
               for_each py_index nth_error];
          match goal with
          | Heq : ?lhs = _ |- context [?lhs] => rewrite Heq
          end);
  cbn [fbind call return_if run try_return try_except negb
       for_each py_index nth_error].

Lemma py_index_None {A} (l : list A) i :
  nth_error l i = None -> py_index l i = Raise "list index out of range".
Proof. unfold py_index. now intros ->. Qed.

Lemma is_compute_budget_out_of_range ix keys d :
  account_at keys ix.(program_id_index) = None ->
  _is_compute_budget_instruction ix keys d
  = Raise "list index out of range".
Proof.
  intro H. unfold _is_compute_budget_instruction.
  unfold account_at in H. apply py_index_None in H. now rewrite H.
Qed.

(** The two tests of the loop on an instruction whose program is in
    range: booleans that say whether it is a limit or a price
    instruction. *)
Lemma is_compute_budget_decided ix keys :
  account_at keys ix.(program_id_index) <> None ->
  exists b2 b3,
    _is_compute_budget_instruction ix keys 2 = Ok b2 /\
    _is_compute_budget_instruction ix keys 3 = Ok b3 /\
    (b2 = true <-> budget_instruction keys ix 2) /\
    (b3 = true <-> budget_instruction keys ix 3).
Proof.
  intro H. destruct (account_at keys (program_id_index ix)) as [p|] eqn:Hp;
    [|contradiction].
  exists (Pubkey_eqb p COMPUTE_BUDGET_PROGRAM &&
          match ix.(data) with d0 :: _ => byte_val d0 =? 2 | [] => false end),
         (Pubkey_eqb p COMPUTE_BUDGET_PROGRAM &&
          match ix.(data) with d0 :: _ => byte_val d0 =? 3 | [] => false end).
  split; [now apply is_compute_budget_eval|].
  split; [now apply is_compute_budget_eval|].
  split; (rewrite <- budget_instruction_iff,
            (is_compute_budget_eval _ _ _ _ Hp); split; congruence).
Qed.

Lemma checks_prelude_out_of_range i0 i1 i2 keys R :
  account_at keys i0.(program_id_index) = None \/
  account_at keys i1.(program_id_index) = None ->
  try_return (verify_checks self [i0; i1; i2] keys R) invalid
  = invalid "list index out of range".
Proof.
  intro H. unfold verify_checks.
  destruct (account_at keys (program_id_index i0)) as [p0|] eqn:H0.
  - destruct H as [H|H]; [discriminate|].
    destruct (is_compute_budget_decided i0 keys) as (b2 & b3 & E2 & E3 & _);
      [congruence|].
    pose proof (is_compute_budget_out_of_range i1 keys 2 H) as F2.
    destruct b2, b3; forward; reflexivity.
  - pose proof (is_compute_budget_out_of_range i0 keys 2 H0) as F2.
    forward. reflexivity.
Qed.

Lemma checks_not_compute_budget i0 i1 i2 keys R :
  account_at keys i0.(program_id_index) <> None ->
  account_at keys i1.(program_id_index) <> None ->
  ~ (counted_instruction keys i0 /\ counted_instruction keys i1) ->
  try_return (verify_checks self [i0; i1; i2] keys R) invalid
  = invalid "First 2 instructions must be ComputeBudget instructions".
Proof.
  intros H0 H1 Hnot. unfold verify_checks.
  destruct (is_compute_budget_decided i0 keys H0)
    as (a2 & a3 & A2 & A3 & Ha2 & Ha3).
  destruct (is_compute_budget_decided i1 keys H1)
    as (b2 & b3 & B2 & B3 & Hb2 & Hb3).
  unfold counted_instruction in Hnot.
  destruct a2, a3, b2, b3; forward; try reflexivity; exfalso; apply Hnot;
    split; first [left; apply Ha2; reflexivity | right; apply Ha3; reflexivity
                 | left; apply Hb2; reflexivity | right; apply Hb3; reflexivity].
Qed.

Lemma checks_transfer_raised i0 i1 i2 keys R e :
  prelude_ok self keys i0 i1 ->
  _verify_transfer_instruction self i2 keys R = Raise e ->
  try_return (verify_checks self [i0; i1; i2] keys R) invalid = invalid e.
Proof.
  intros (H0 & H1 & Hp1 & Hp0) Htr.
  unfold verify_checks.
  destruct H0 as [H0|H0], H1 as [H1|H1].
  all: pose proof (budget_instruction_eval _ _ _ 2 H0) as E0;
    pose proof (budget_instruction_eval _ _ _ 3 H0) as E0';
    pose proof (budget_instruction_eval _ _ _ 2 H1) as E1;
    pose proof (budget_instruction_eval _ _ _ 3 H1) as E1';
    cbn [Z.eqb Pos.eqb] in E0, E0', E1, E1'.
  all: try pose proof (compute_price_eval self _ (Hp1 H1)) as P1.
  all: try pose proof (compute_price_eval self _ (Hp0 H0 H1)) as P0.
  all: forward; reflexivity.
Qed.

Lemma token_program_test keys ix :
  token_instruction keys ix ->
  exists program,
    py_index keys (Byte.to_nat ix.(program_id_index)) = Ok program /\
    Pubkey_eqb program SPL_TOKEN_PROGRAM
    || Pubkey_eqb program TOKEN_2022_PROGRAM = true.
Proof.
  unfold token_instruction, account_at.
  intros [H|H]; apply py_index_Ok in H; eexists; (split; [exact H|]).
  - reflexivity.
  - reflexivity.
Qed.

(** The outcome of the transfer check at each of its first steps. *)
Lemma transfer_first_steps ix keys R :
  (account_at keys ix.(program_id_index) = None ->
   _verify_transfer_instruction self ix keys R
   = Raise "list index out of range") /\
  (forall program,
     account_at keys ix.(program_id_index) = Some program ->
     program <> SPL_TOKEN_PROGRAM -> program <> TOKEN_2022_PROGRAM ->
     _verify_transfer_instruction self ix keys R
     = Ok (false,
           Some "Third instruction must be SPL Token TransferChecked")) /\
  (token_instruction keys ix ->
   (forall rest, ix.(data) <> x0c :: rest) ->
   _verify_transfer_instruction self ix keys R
   = Ok (false, Some "Expected TransferChecked instruction")) /\
  (token_instruction keys ix ->
   (exists rest, ix.(data) = x0c :: rest) ->
   len ix.(data) < 10 ->
   _verify_transfer_instruction self ix keys R
   = Ok (false, Some "Invalid TransferChecked data")) /\
  (token_instruction keys ix ->
   (exists rest, ix.(data) = x0c :: rest) ->
   10 <= len ix.(data) ->
   (forall e, py_int R.(max_amount_required) = Raise e ->
      _verify_transfer_instruction self ix keys R = Raise e) /\
   (forall required,
      py_int R.(max_amount_required) = Ok required ->
      u64_at 1 ix.(data) <> required ->
      _verify_transfer_instruction self ix keys R
      = Ok (false, Some (amount_mismatch (u64_at 1 ix.(data)) required)))).
Proof.
  unfold _verify_transfer_instruction.
  split; [|split; [|split; [|split]]].
  - intro H. unfold account_at in H. apply py_index_None in H.
    now rewrite H.
  - intros program H Hspl H22. unfold account_at in H.
    apply py_index_Ok in H. rewrite H. cbn [call fbind].
    apply Pubkey_eqb_neq in Hspl, H22. rewrite Hspl, H22. reflexivity.
  - intros Htok Hdisc.
    destruct (token_program_test keys ix Htok) as (program & -> & Htest).
    cbn [call fbind]. rewrite Htest. cbn [call fbind negb return_if].
    destruct (data ix) as [|d0 rest] eqn:Hd; [reflexivity|].
    destruct (Z.ltb_spec (len (d0 :: rest)) 1) as [|_]; [reflexivity|].
    cbn [py_index nth_error call fbind].
    destruct (Z.eqb_spec (byte_val d0) 12) as [E|_]; [|reflexivity].
    exfalso. apply (Hdisc rest). f_equal.
    apply byte_val_inj. exact E.
  - intros Htok (rest & Hd) Hlen.
    destruct (token_program_test keys ix Htok) as (program & -> & Htest).
    cbn [call fbind]. rewrite Htest. cbn [call fbind negb return_if]. rewrite Hd in *.
    destruct (Z.ltb_spec (len (x0c :: rest)) 1) as [Hl|_].
    { unfold len in Hl. cbn [List.length] in Hl. lia. }
    cbn [py_index nth_error call fbind].
    change (byte_val x0c =? 12) with true. cbn [negb return_if fbind].
    destruct (Z.ltb_spec (len (x0c :: rest)) 10); [reflexivity|lia].
  - intros Htok (rest & Hd) Hlen.
    destruct (token_program_test keys ix Htok) as (program & -> & Htest).
    cbn [call fbind]. rewrite Htest. cbn [call fbind negb return_if].
    assert (H9 : exists d9, py_index (data ix) 9 = Ok d9).
    { unfold py_index. destruct (nth_error (data ix) 9) eqn:E;
        [eexists; reflexivity|].
      apply nth_error_None in E. unfold len in Hlen. lia. }
    destruct H9 as (d9 & H9).
    unfold u64_at, amount_mismatch. cbn [Nat.add].
    rewrite Hd in *.
    destruct (Z.ltb_spec (len (x0c :: rest)) 1) as [Hl|_].
    { unfold len in Hl. cbn [List.length] in Hl. lia. }
    cbn [py_index nth_error call fbind] in *.
    change (byte_val x0c =? 12) with true. cbn [negb return_if fbind].
    destruct (Z.ltb_spec (len (x0c :: rest)) 10) as [|_]; [lia|].
    cbn [return_if fbind]. rewrite H9. cbn [call fbind].
    split.
    + intros e ->. reflexivity.
    + intros required -> Hne. cbn [call fbind].
      apply Z.eqb_neq in Hne. rewrite Hne. reflexivity.
Qed.

Lemma fails_before_amount_reason h R reason :
  fails_before_amount self h reason -> verify self h R = invalid reason.
Proof.
  intro H. rewrite verify_cases.
  destruct H as [e He|tx_bytes e1 e2 Hb H1 H2|t Ht Hfmt|t Ht Hfmt Hlen
                |t i0 i1 i2 Ht Hfmt Hixs Hrange
                |t i0 i1 i2 Ht Hfmt Hixs H0 H1 Hnot
                |t i0 i1 i2 ix Ht Hfmt Hixs Hchecked Hlen
                |t i0 i1 i2 ix Ht Hfmt Hixs Hchecked Hlen Hprice
                |t i0 i1 i2 Ht Hfmt Hixs Hpre Hrange
                |t i0 i1 i2 program Ht Hfmt Hixs Hpre Hp Hspl H22
                |t i0 i1 i2 Ht Hfmt Hixs Hpre Htok Hdisc
                |t i0 i1 i2 Ht Hfmt Hixs Hpre Htok Hdisc Hlen].
  - unfold decoded_transaction. now rewrite He.
  - unfold decoded_transaction. now rewrite Hb, H1, H2.
  - now rewrite Ht, Hfmt.
  - rewrite Ht, Hfmt. unfold verify_checks.
    apply Z.eqb_neq in Hlen. rewrite Hlen. reflexivity.
  - rewrite Ht, Hfmt, Hixs. now apply checks_prelude_out_of_range.
  - rewrite Ht, Hfmt, Hixs. now apply checks_not_compute_budget.
  - rewrite Ht, Hfmt, Hixs.
    apply (checks_price_rejected self _ _ _ ix); [assumption|].
    now apply (proj1 (compute_price_rejected self ix)).
  - rewrite Ht, Hfmt, Hixs.
    apply (checks_price_rejected self _ _ _ ix); [assumption|].
    now apply (proj2 (compute_price_rejected self ix)).
  - rewrite Ht, Hfmt, Hixs. apply checks_transfer_raised; [assumption|].
    now apply (proj1 (transfer_first_steps i2 _ R)).
  - rewrite Ht, Hfmt, Hixs.
    apply (checks_transfer_rejected self); [assumption|].
    now apply (proj1 (proj2 (transfer_first_steps i2 _ R)) program).
  - rewrite Ht, Hfmt, Hixs.
    apply (checks_transfer_rejected self); [assumption|].
    now apply (proj1 (proj2 (proj2 (transfer_first_steps i2 _ R)))).
  - rewrite Ht, Hfmt, Hixs.
    apply (checks_transfer_rejected self); [assumption|].
    now apply (proj1 (proj2 (proj2 (proj2 (transfer_first_steps i2 _ R))))).
Qed.

Lemma reaches_amount_check_reason h R t i2 :
  reaches_amount_check self h t i2 ->
  (forall required,
     py_int R.(max_amount_required) = Ok required ->
     u64_at 1 i2.(data) <> required ->
     verify self h R
     = invalid (amount_mismatch (u64_at 1 i2.(data)) required)) /\
  (forall e,
     py_int R.(max_amount_required) = Raise e ->
     verify self h R = invalid e).
Proof.
  intros (Ht & Hfmt & (i0 & i1 & Hixs & Hpre) & Htok & Hdisc & Hlen).
  rewrite verify_cases, Ht, Hfmt, Hixs.
  destruct (proj2 (proj2 (proj2 (proj2
              (transfer_first_steps i2 (tx_account_keys t) R))))
              Htok Hdisc Hlen) as (Hraise & Hamount).
  split.
  - intros required Hint Hne.
    apply (checks_transfer_rejected self); [assumption|].
    now apply Hamount.
  - intros e Hint. apply checks_transfer_raised; [assumption|].
    now apply Hraise.
Qed.

(** Whether an instruction is counted, and as what, can be told. *)
Lemma counted_instruction_cases keys ix :
  account_at keys ix.(program_id_index) <> None ->
  (budget_instruction keys ix 2 /\ ~ budget_instruction keys ix 3) \/
  (budget_instruction keys ix 3 /\ ~ budget_instruction keys ix 2) \/
  ~ counted_instruction keys ix.
Proof.
  intro H.
  destruct (is_compute_budget_decided ix keys H)
    as (b2 & b3 & E2 & E3 & H2 & H3).
  assert (Hex : budget_instruction keys ix 2 ->
                budget_instruction keys ix 3 -> False).
  { intros (_ & d & rest & Hd & Hv) (_ & d' & rest' & Hd' & Hv').
    rewrite Hd in Hd'. injection Hd' as <- _. lia. }
  destruct b2.
  - left. split; [now apply H2|]. intro. apply Hex; [now apply H2|assumption].
  - destruct b3.
    + right. left. split; [now apply H3|].
      intro. apply Hex; [assumption|now apply H3].
    + right. right. intros [Hb|Hb].
      * apply H2 in Hb. discriminate.
      * apply H3 in Hb. discriminate.
Qed.

Lemma before_or_at_amount_check h :
  (exists reason, fails_before_amount self h reason) \/
  (exists t i2, reaches_amount_check self h t i2).
Proof.
  destruct (decoded_transaction h) as [t|e] eqn:Ht.
  2:{ left. unfold decoded_transaction in Ht.
      destruct (b64decode h) as [tx_bytes|e0] eqn:Hb.
      - destruct (Transaction_from_bytes tx_bytes) as [tx|e1] eqn:H1;
          [discriminate|].
        destruct (VersionedTransaction_from_bytes tx_bytes) as [tx|e2] eqn:H2;
          [discriminate|].
        exists e2. now apply (bytes_not_a_transaction self h tx_bytes e1 e2).
      - exists e0. now apply header_not_base64. }
  destruct (supported_format t) eqn:Hfmt.
  2:{ left. eexists. now apply (format_unsupported self h t). }
  destruct (Z.eq_dec (len (tx_instructions t)) 3) as [Hlen|Hlen].
  2:{ left. eexists. now apply (instruction_count self h t). }
  apply three_instructions in Hlen as (i0 & i1 & i2 & Hixs).
  set (keys := tx_account_keys t) in *.
  destruct (account_at keys (program_id_index i0)) as [p0|] eqn:Hp0.
  2:{ left. eexists.
      apply (prelude_program_out_of_range self h t i0 i1 i2); auto. }
  destruct (account_at keys (program_id_index i1)) as [p1|] eqn:Hp1.
  2:{ left. eexists.
      apply (prelude_program_out_of_range self h t i0 i1 i2); auto. }
  assert (Hr0 : account_at keys (program_id_index i0) <> None) by congruence.
  assert (Hr1 : account_at keys (program_id_index i1) <> None) by congruence.
  assert (Hpre : (exists reason, fails_before_amount self h reason) \/
                 prelude_ok self keys i0 i1).
  { destruct (counted_instruction_cases keys i0 Hr0)
      as [(A2 & A3)|[(A3 & A2)|A]];
    destruct (counted_instruction_cases keys i1 Hr1)
      as [(B2 & B3)|[(B3 & B2)|B]].
    all: try (left; eexists;
              apply (prelude_not_compute_budget self h t i0 i1 i2); auto;
              intros (? & ?); contradiction).
    - right. unfold prelude_ok.
      split; [now left|]. split; [now left|].
      split; intros; contradiction.
    - destruct (Z.lt_ge_cases (len (data i1)) 9) as [Hs|Hs].
      { left. eexists.
        apply (price_data_short self h t i0 i1 i2 i1); auto.
        left. split; [assumption|]. split; [reflexivity|]. now left. }
      destruct (Z.lt_ge_cases (max_compute_unit_price (settings self))
                  (u64_at 1 (data i1))) as [Hh|Hh].
      { left. eexists.
        apply (price_above_maximum self h t i0 i1 i2 i1); auto.
        left. split; [assumption|]. split; [reflexivity|]. now left. }
      right. unfold prelude_ok.
      split; [now left|]. split; [now right|].
      split; [intros _; split; assumption|]. intros; contradiction.
    - destruct (Z.lt_ge_cases (len (data i0)) 9) as [Hs|Hs].
      { left. eexists.
        apply (price_data_short self h t i0 i1 i2 i0); auto.
        right. split; [assumption|]. split; [reflexivity|]. assumption. }
      destruct (Z.lt_ge_cases (max_compute_unit_price (settings self))
                  (u64_at 1 (data i0))) as [Hh|Hh].
      { left. eexists.
        apply (price_above_maximum self h t i0 i1 i2 i0); auto.
        right. split; [assumption|]. split; [reflexivity|]. assumption. }
      right. unfold prelude_ok.
      split; [now right|]. split; [now left|].
      split; [intros; contradiction|]. intros _ _. split; assumption.
    - destruct (Z.lt_ge_cases (len (data i1)) 9) as [Hs|Hs].
      { left. eexists.
        apply (price_data_short self h t i0 i1 i2 i1); auto.
        left. split; [assumption|]. split; [reflexivity|]. now right. }
      destruct (Z.lt_ge_cases (max_compute_unit_price (settings self))
                  (u64_at 1 (data i1))) as [Hh|Hh].
      { left. eexists.
        apply (price_above_maximum self h t i0 i1 i2 i1); auto.
        left. split; [assumption|]. split; [reflexivity|]. now right. }
      right. unfold prelude_ok.
      split; [now right|]. split; [now right|].
      split; [intros _; split; assumption|]. intros; contradiction. }
  destruct Hpre as [Hfail|Hpre]; [now left|].
  destruct (account_at keys (program_id_index i2)) as [p2|] eqn:Hp2.
  2:{ left. eexists.
      apply (transfer_program_out_of_range self h t i0 i1 i2); auto. }
  assert (Htok : token_instruction keys i2 \/
                 (p2 <> SPL_TOKEN_PROGRAM /\ p2 <> TOKEN_2022_PROGRAM)).
  { unfold token_instruction. rewrite Hp2.
    destruct (Pubkey_eqb p2 SPL_TOKEN_PROGRAM) eqn:E1.
    - apply Pubkey_eqb_eq in E1. left. left. now subst.
    - destruct (Pubkey_eqb p2 TOKEN_2022_PROGRAM) eqn:E2.
      + apply Pubkey_eqb_eq in E2. left. right. now subst.
      + apply Pubkey_eqb_neq in E1, E2. now right. }
  destruct Htok as [Htok|(Hspl & H22)].
  2:{ left. eexists.
      apply (transfer_not_token_program self h t i0 i1 i2 p2); auto. }
  assert (Hdisc : (exists rest, data i2 = x0c :: rest) \/
                  (forall rest, data i2 <> x0c :: rest)).
  { destruct (data i2) as [|d0 rest]; [right; discriminate|].
    destruct (Byte.byte_eq_dec d0 x0c) as [->|Hne].
    - left. now exists rest.
    - right. intros rest' [= E _]. contradiction. }
  destruct Hdisc as [Hdisc|Hdisc].
  2:{ left. eexists.
      apply (transfer_wrong_discriminator self h t i0 i1 i2); auto. }
  destruct (Z.lt_ge_cases (len (data i2)) 10) as [Hs|Hs].
  { left. eexists. apply (transfer_data_short self h t i0 i1 i2); auto. }
  right. exists t, i2. unfold reaches_amount_check.
  split; [assumption|]. split; [assumption|].
  split; [exists i0, i1; split; assumption|].
  split; [assumption|]. split; assumption.
Qed.

(** C6, as the code has it. If [verify] returns valid, the u64 at
    offset 1 of instruction 2's data equals [int(max_amount_required)],
    and the same payment is rejected with the amount reason for every
    requirement that differs only in a [max_amount_required] of another
    value. The amount is compared as soon as the checks before it have
    passed, whatever the checks after it would find: then an amount
    other than the required one is rejected with the reason
    ["Amount <amount> does not match required <required>"], and a
    [max_amount_required] that is no integer with the error of [int()].
    A payment that fails a check before the comparison is rejected with
    that check's reason; and every header either fails such a check or
    reaches the comparison. *)
Theorem verify_amount_exact h R :
  (is_valid (verify self h R) = true ->
   exists t i0 i1 i2 amount,
     decoded_transaction h = Ok t /\
     tx_instructions t = [i0; i1; i2] /\
     amount = u64_at 1 i2.(data) /\
     py_int R.(max_amount_required) = Ok amount /\
     forall s' required,
       py_int s' = Ok required ->
       required <> amount ->
       verify self h (with_max_amount R s')
       = invalid (amount_mismatch amount required)) /\
  (forall t i2,
     reaches_amount_check self h t i2 ->
     (forall required,
        py_int R.(max_amount_required) = Ok required ->
        u64_at 1 i2.(data) <> required ->
        verify self h R
        = invalid (amount_mismatch (u64_at 1 i2.(data)) required)) /\
     (forall e,
        py_int R.(max_amount_required) = Raise e ->
        verify self h R = invalid e)) /\
  (forall reason,
     fails_before_amount self h reason ->
     verify self h R = invalid reason) /\
  ((exists reason, fails_before_amount self h reason) \/
   (exists t i2, reaches_amount_check self h t i2)).
Proof.
  split; [|split; [|split]].
  - intro H. pose proof H as Hvalid.
    apply verify_valid in H as (t & i0 & i1 & i2 & r & fp & Ht & Hfmt & Hixs
                                & Htr & _).
    apply verify_transfer_inv in Htr
      as (tp & ra & d9 & a1 & a2 & mint & dest & pk & _ & _ & _ & _ & Hint
          & Hamount & _).
    exists t, i0, i1, i2, ra. repeat split; try assumption.
    + now symmetry.
    + intros s' required Hs Hne.
      rewrite verify_cases in Hvalid |- *.
      rewrite Ht, Hfmt, Hixs in *. subst ra.
      now apply checks_wrong_amount.
  - intros t i2. apply reaches_amount_check_reason.
  - intro reason. apply fails_before_amount_reason.
  - apply before_or_at_amount_check.
Qed.

End AmountCheck.


(** ** The settler, call by call *)

Section SettlerComplete.

Context {py : PyBuiltins} {sol : Solders}.
Variable self : SolanaFacilitator.

Lemma settle_run_unverified rpc h R :
  self.(facilitator_fee_payer) = None \/
  is_valid (verify self h R) = false ->
  exists e, run_chain rpc (settle self h R) = (settle_error e, []).
Proof.
  intro H. unfold settle, settle_decode.
  destruct (facilitator_fee_payer self) as [kp|].
  - destruct H as [H|H]; [discriminate|]. rewrite H.
    eexists. reflexivity.
  - eexists. reflexivity.
Qed.

Lemma settle_run_verified rpc h R kp t :
  self.(facilitator_fee_payer) = Some kp ->
  is_valid (verify self h R) = true ->
  decoded_transaction h = Ok t ->
  run_chain rpc (settle self h R) =
  match rpc.(latest_blockhash) with
  | Raise e => (settle_error e, [GetLatestBlockhashCall Confirmed])
  | Ok _ =>
      match settle_sign kp t with
      | Return r => (r, [GetLatestBlockhashCall Confirmed])
      | Throw e => (settle_error e, [GetLatestBlockhashCall Confirmed])
      | Next tx_to_send =>
          (match rpc.(send_result) tx_to_send with
           | Raise e => settle_error e
           | Ok tx_signature => settled self kp tx_signature
           end,
           [GetLatestBlockhashCall Confirmed;
            SendTransactionCall tx_to_send send_opts])
      end
  end.
Proof.
  intros Hkey Hvalid Ht. unfold settle.
  rewrite (settle_decode_verified self h R kp Hkey Hvalid _ Ht).
  cbn [run_chain].
  destruct (latest_blockhash rpc); [|reflexivity].
  destruct (settle_sign kp t); try reflexivity.
  cbn [run_chain]. destruct (send_result rpc a0); reflexivity.
Qed.

Lemma sign_loop_outcome (fee_payer : Keypair) (facilitator_sig : Signature)
    (l : list (nat * Pubkey)) :
  forall sigs,
    (exists sigs',
       for_each (R := SettleResponse) l sigs
         (fun signatures '(i, account_key) =>
            if String.eqb (Pubkey_str account_key)
                          (Pubkey_str (Keypair_pubkey fee_payer))
            then call (py_setitem signatures i facilitator_sig)
            else Next signatures)
       = Next sigs') \/
    for_each (R := SettleResponse) l sigs
      (fun signatures '(i, account_key) =>
         if String.eqb (Pubkey_str account_key)
                       (Pubkey_str (Keypair_pubkey fee_payer))
         then call (py_setitem signatures i facilitator_sig)
         else Next signatures)
    = Throw "list assignment index out of range".
Proof.
  induction l as [|[i k] l IH]; intro sigs; cbn [for_each].
  - left. now exists sigs.
  - destruct (String.eqb (Pubkey_str k) _).
    + unfold py_setitem. destruct (i <? List.length sigs)%nat.
      * cbn [call fbind]. apply IH.
      * right. reflexivity.
    + cbn [fbind]. apply IH.
Qed.

Lemma settle_sign_outcome kp t :
  (exists t', settle_sign kp t = Next t' /\ tx_message t' = tx_message t) \/
  settle_sign kp t = Throw "list assignment index out of range".
Proof.
  destruct t as [tx|tx]; cbn [settle_sign].
  - destruct (sign_loop_outcome kp
                (sign_message kp (Message_bytes (message tx)))
                (enumerate
                   (firstn (Byte.to_nat
                              (num_required_signatures
                                 (header (message tx))))
                      (account_keys (message tx))))
                (signatures tx)) as [(sigs' & ->)| ->].
    + left. eexists. split; reflexivity.
    + right. reflexivity.
  - left. eexists. split; reflexivity.
Qed.

(** X9. [settle] calls the RPC node at most twice: first for the latest
    block hash, then, at most once, to send a transaction with preflight
    checks on. It makes no call at all unless a key is loaded and
    [verify] returns valid for the same header and requirement, and what
    it sends carries the message of the decoded payment unchanged. *)
Theorem settle_calls_after_verification rpc h R :
  let calls := snd (run_chain rpc (settle self h R)) in
  (calls = [] \/
   calls = [GetLatestBlockhashCall Confirmed] \/
   exists tx,
     calls = [GetLatestBlockhashCall Confirmed;
              SendTransactionCall tx send_opts] /\
     exists t, decoded_transaction h = Ok t /\
               tx_message tx = tx_message t) /\
  (calls <> [] ->
   self.(facilitator_fee_payer) <> None /\
   is_valid (verify self h R) = true).
Proof.
  cbn zeta.
  destruct (facilitator_fee_payer self) as [kp|] eqn:Hkey.
  2:{ destruct (settle_run_unverified rpc h R (or_introl Hkey))
        as (e & ->).
      cbn [snd]. split; [now left|]. intro H. now contradiction H. }
  destruct (is_valid (verify self h R)) eqn:Hvalid.
  2:{ destruct (settle_run_unverified rpc h R (or_intror Hvalid))
        as (e & ->).
      cbn [snd]. split; [now left|]. intro H. now contradiction H. }
  split; [|intros _; split; [discriminate|reflexivity]].
  pose proof Hvalid as Hv.
  apply verify_valid in Hv as (t & _ & _ & _ & _ & _ & Ht & _).
  rewrite (settle_run_verified rpc h R kp t Hkey Hvalid Ht).
  destruct (latest_blockhash rpc); [|right; left; reflexivity].
  destruct (settle_sign_outcome kp t) as [(t' & -> & Hmsg)| ->].
  - right. right. exists t'. split; [reflexivity|]. now exists t.
  - right. left. reflexivity.
Qed.

(** X10. The response of [settle] says success exactly when
    [send_transaction] returned: then it carries the signature the node
    returned, the network of the settings and the facilitator's own
    public key as payer. When [get_latest_blockhash] or
    [send_transaction] raises, the response is a failure with the
    message of that exception; a failing block-hash query prevents the
    submission although the hash is not used. *)
Theorem settle_outcome rpc h R kp :
  self.(facilitator_fee_payer) = Some kp ->
  is_valid (verify self h R) = true ->
  let '(response, calls) := run_chain rpc (settle self h R) in
  (forall e, rpc.(latest_blockhash) = Raise e ->
     response = settle_error e /\
     calls = [GetLatestBlockhashCall Confirmed]) /\
  (forall tx opts,
     In (SendTransactionCall tx opts) calls ->
     response = match rpc.(send_result) tx with
                | Raise e => settle_error e
                | Ok tx_signature => settled self kp tx_signature
                end) /\
  (response.(success) = true ->
   exists tx tx_signature,
     In (SendTransactionCall tx send_opts) calls /\
     rpc.(send_result) tx = Ok tx_signature /\
     response = settled self kp tx_signature).
Proof.
  intros Hkey Hvalid. pose proof Hvalid as Hv.
  apply verify_valid in Hv as (t & _ & _ & _ & _ & _ & Ht & _).
  rewrite (settle_run_verified rpc h R kp t Hkey Hvalid Ht).
  destruct (latest_blockhash rpc) as [recent|e0].
  - destruct (settle_sign_outcome kp t) as [(t' & -> & Hmsg)| ->].
    + split; [discriminate|]. split.
      * intros tx opts [H|[H|[]]]; [discriminate|].
        now injection H as <- <-.
      * intro Hs. destruct (send_result rpc t') as [sig|e] eqn:Hsend;
          [|discriminate].
        exists t', sig. repeat split; try assumption.
        right. now left.
    + split; [discriminate|]. split.
      * intros tx opts [H|[]]. discriminate.
      * discriminate.
  - split; [intros e He; now injection He as <-|]. split.
    + intros tx opts [H|[]]. discriminate.
    + discriminate.
Qed.

(** *** The positions the loop visits *)

Lemma In_combine_seq {A} (l : list A) :
  forall start i x,
    In (i, x) (combine (seq start (List.length l)) l) ->
    (start <= i)%nat /\ nth_error l (i - start) = Some x.
Proof.
  induction l as [|y l IH]; intros start i x Hin; cbn in Hin.
  - contradiction.
  - destruct Hin as [Heq|Hin].
    + injection Heq as <- <-. split; [lia|].
      now rewrite Nat.sub_diag.
    + apply IH in Hin as (Hle & Hnth). split; [lia|].
      replace (i - start)%nat with (S (i - S start)) by lia. exact Hnth.
Qed.

Lemma no_slot_no_match kp (m : Message) i k :
  (forall j, facilitator_slot kp m j = false) ->
  In (i, k)
     (enumerate (firstn (Byte.to_nat m.(header).(num_required_signatures))
                   m.(account_keys))) ->
  String.eqb (Pubkey_str k) (Pubkey_str (Keypair_pubkey kp)) = false.
Proof.
  intros Hno Hin. apply In_combine_seq in Hin as (_ & Hnth).
  rewrite Nat.sub_0_r, nth_error_firstn in Hnth.
  specialize (Hno i). unfold facilitator_slot in Hno.
  destruct (i <? _)%nat; [|discriminate].
  rewrite Hnth in Hno. exact Hno.
Qed.

Lemma sign_loop_no_match (fee_payer : Keypair) (facilitator_sig : Signature)
    (l : list (nat * Pubkey)) sigs :
  (forall i k, In (i, k) l ->
     String.eqb (Pubkey_str k) (Pubkey_str (Keypair_pubkey fee_payer))
     = false) ->
  for_each (R := SettleResponse) l sigs
    (fun signatures '(i, account_key) =>
       if String.eqb (Pubkey_str account_key)
                     (Pubkey_str (Keypair_pubkey fee_payer))
       then call (py_setitem signatures i facilitator_sig)
       else Next signatures)
  = Next sigs.
Proof.
  induction l as [|[i k] l IH]; intro H; cbn [for_each].
  - reflexivity.
  - rewrite (H i k (or_introl eq_refl)). cbn [fbind].
    apply IH. intros j k' Hin. apply (H j k'). now right.
Qed.

(** X11. When the facilitator's own key is at none of the signer
    positions of a verified legacy transaction, [settle] submits the
    transaction exactly as it came, without the facilitator's
    signature. *)
Theorem settle_submits_unsigned h R tx kp rpc recent :
  self.(facilitator_fee_payer) = Some kp ->
  is_valid (verify self h R) = true ->
  decoded_transaction h = Ok (LegacyTx tx) ->
  rpc.(latest_blockhash) = Ok recent ->
  (forall i, facilitator_slot kp tx.(message) i = false) ->
  snd (run_chain rpc (settle self h R)) =
    [GetLatestBlockhashCall Confirmed;
     SendTransactionCall (LegacyTx tx) send_opts].
Proof.
  intros Hkey Hvalid Ht Hrpc Hno.
  rewrite (settle_run_verified rpc h R kp _ Hkey Hvalid Ht), Hrpc.
  cbn [settle_sign].
  rewrite sign_loop_no_match.
  - cbn [fbind snd]. destruct tx. reflexivity.
  - intros i k Hin. eapply no_slot_no_match; eassumption.
Qed.

Lemma sign_loop_Next_inv (fee_payer : Keypair) (facilitator_sig : Signature)
    (keys : list Pubkey) :
  forall (start : nat) (sigs sigs' : list Signature),
    for_each (R := SettleResponse)
      (combine (seq start (List.length keys)) keys) sigs
      (fun signatures '(i, account_key) =>
         if String.eqb (Pubkey_str account_key)
                       (Pubkey_str (Keypair_pubkey fee_payer))
         then call (py_setitem signatures i facilitator_sig)
         else Next signatures)
    = Next sigs' ->
    forall j k, nth_error keys j = Some k ->
      String.eqb (Pubkey_str k) (Pubkey_str (Keypair_pubkey fee_payer))
      = true ->
      (start + j < List.length sigs)%nat.
Proof.
  induction keys as [|k0 keys IH]; intros start sigs sigs' Hloop j k Hj Hk.
  - destruct j; discriminate.
  - cbn [List.length seq combine for_each] in Hloop.
    destruct (String.eqb (Pubkey_str k0) _) eqn:Hk0.
    + unfold py_setitem in Hloop.
      destruct (Nat.ltb_spec start (List.length sigs)) as [Hlt|Hge];
        [|discriminate].
      cbn [call fbind] in Hloop.
      destruct j as [|j]; [lia|].
      cbn [nth_error] in Hj.
      pose proof (IH _ _ _ Hloop j k Hj Hk) as Hb.
      rewrite length_app, length_firstn in Hb. cbn [List.length] in Hb.
      rewrite length_skipn in Hb. lia.
    + cbn [fbind] in Hloop.
      destruct j as [|j].
      * cbn in Hj. injection Hj as ->. congruence.
      * cbn [nth_error] in Hj.
        pose proof (IH _ _ _ Hloop j k Hj Hk). lia.
Qed.

(** X12. When the facilitator's key is at a signer position for which a
    verified legacy transaction has no signature slot, [settle] fails
    with the message of the index error after the block-hash query and
    sends nothing. *)
Theorem settle_missing_slot h R tx kp rpc recent i :
  self.(facilitator_fee_payer) = Some kp ->
  is_valid (verify self h R) = true ->
  decoded_transaction h = Ok (LegacyTx tx) ->
  rpc.(latest_blockhash) = Ok recent ->
  facilitator_slot kp tx.(message) i = true ->
  (List.length tx.(signatures) <= i)%nat ->
  run_chain rpc (settle self h R) =
    (settle_error "list assignment index out of range",
     [GetLatestBlockhashCall Confirmed]).
Proof.
  intros Hkey Hvalid Ht Hrpc Hslot Hlen.
  rewrite (settle_run_verified rpc h R kp _ Hkey Hvalid Ht), Hrpc.
  cbn [settle_sign].
  destruct (sign_loop_outcome kp
              (sign_message kp (Message_bytes (message tx)))
              (enumerate
                 (firstn (Byte.to_nat
                            (num_required_signatures (header (message tx))))
                    (account_keys (message tx))))
              (signatures tx)) as [(sigs' & Hloop)| ->];
    [|reflexivity].
  exfalso. unfold facilitator_slot in Hslot.
  apply andb_true_iff in Hslot as (Hi & Hk).
  destruct (nth_error (account_keys (message tx)) i) as [k|] eqn:Hnth;
    [|discriminate].
  unfold enumerate in Hloop.
  pose proof (sign_loop_Next_inv kp _ _ 0 _ _ Hloop i k) as Hb.
  rewrite nth_error_firstn, Hi in Hb.
  specialize (Hb Hnth Hk). lia.
Qed.

End SettlerComplete.

(** ** The global instance *)

Section InstanceFacts.

Context {keys : KeyLoading}.
Variable env : Environment.

Lemma initialize_outcome self :
  (exists kp,
     initialize env self =
     (Ok tt, {| settings := self.(settings);
                facilitator_fee_payer := Some kp |})) \/
  (env.(facilitator_private_key) = "" /\ initialize env self = (Ok tt, self)) \/
  (exists e,
     initialize env self =
     (Raise ("Invalid facilitator private key: " ++ e), self)).
Proof.
  unfold initialize.
  destruct (String.eqb_spec (facilitator_private_key env) "") as [E|E].
  - right. left. now split.
  - destruct (base58_b58decode (facilitator_private_key env)) as [b|e];
      cbn [run call fbind].
    + destruct (Keypair_from_bytes b) as [kp|e]; cbn [run call fbind].
      * left. now exists kp.
      * right. right. now exists e.
    + right. right. now exists e.
Qed.

(** X14. Whatever the global held, after [get_facilitator] it holds a
    facilitator, and every later call returns that facilitator without
    initialising again. The call itself returns it too, with one
    exception: when the configured key cannot be loaded, the first call
    raises "Invalid facilitator private key: ..." and leaves a
    facilitator without a key installed, so the error is raised once. *)
Theorem get_facilitator_raises_once g :
  exists f,
    snd (get_facilitator env g) = Some f /\
    get_facilitator env (Some f) = (Ok f, Some f) /\
    (fst (get_facilitator env g) = Ok f \/
     g = None /\ f = new_facilitator env /\
     exists e,
       fst (get_facilitator env g)
       = Raise ("Invalid facilitator private key: " ++ e)).
Proof.
  destruct g as [f|]; cbn [get_facilitator].
  - exists f. cbn [fst snd]. auto.
  - destruct (initialize_outcome (new_facilitator env))
      as [(kp & ->)|[(_ & ->)|(e & ->)]]; cbn [fst snd].
    + eexists. split; [reflexivity|]. split; [reflexivity|]. now left.
    + eexists. split; [reflexivity|]. split; [reflexivity|]. now left.
    + exists (new_facilitator env). split; [reflexivity|].
      split; [reflexivity|]. right. split; [reflexivity|].
      split; [reflexivity|]. now exists e.
Qed.

End InstanceFacts.

(** ** The service *)

Lemma run_chain_bind {A B} (rpc : MockRpc) (p : Chain A) (k : A -> Chain B) :
  run_chain rpc (chain_bind p k) =
  (fst (run_chain rpc (k (fst (run_chain rpc p)))),
   (snd (run_chain rpc p) ++
    snd (run_chain rpc (k (fst (run_chain rpc p)))))%list).
Proof.
  induction p as [a|c k' IH|tx opts k' IH]; cbn [chain_bind run_chain].
  - cbn [fst snd app]. now destruct (run_chain rpc (k a)).
  - rewrite IH. destruct (run_chain rpc (k' (latest_blockhash rpc))).
    reflexivity.
  - rewrite IH. destruct (run_chain rpc (k' (send_result rpc tx))).
    reflexivity.
Qed.

Lemma or_default_nonempty x d : d <> "" -> or_default x d <> "".
Proof.
  intro Hd. unfold or_default. destruct x as [s|]; [|exact Hd].
  destruct (String.eqb_spec s ""); assumption.
Qed.

Section ServiceFacts.

Context {py : PyBuiltins} {sol : Solders} {keys : KeyLoading}
        {json : JsonBuiltins}.
Variable env : Environment.

Lemma initialize_unusable :
  key_unusable env ->
  snd (get_facilitator env None) = Some (new_facilitator env).
Proof.
  intro H. cbn [get_facilitator]. unfold initialize.
  destruct H as [H|[(e & H)|(b & e & H & H')]].
  - rewrite H. reflexivity.
  - destruct (String.eqb _ ""); [reflexivity|]. rewrite H. reflexivity.
  - destruct (String.eqb _ ""); [reflexivity|]. rewrite H.
    cbn [run call fbind]. rewrite H'. reflexivity.
Qed.

(** X15. A service started with a key that cannot be loaded keeps
    running on a facilitator without a key: the verify endpoint still
    verifies, the settle endpoint answers "Facilitator not configured",
    the fee-payer and requirements endpoints answer 500 and the demo
    endpoint 503, and no endpoint reports the key error. *)
Theorem service_without_key :
  key_unusable env ->
  let g := lifespan_startup env None in
  g = Some (new_facilitator env) /\
  (forall h R,
     verify_payment env g h R = (verify (new_facilitator env) h R, g)) /\
  (forall h R,
     settle_payment env g h R
     = (Done (settle_error "Facilitator not configured"), g)) /\
  get_fee_payer env g
    = (HTTPException 500 "Facilitator not initialized", g) /\
  (forall url x,
     demo_protected env g url x = (Done demo_unavailable, g)) /\
  (forall request,
     exists e,
       generate_requirements_endpoint env g request
       = (HTTPException 500 e, g) /\
       (e = "Facilitator not initialized" \/
        amount_atomic (new_facilitator env) request.(price) = Raise e)).
Proof.
  intro H. unfold lifespan_startup. rewrite (initialize_unusable H).
  cbv zeta. split; [reflexivity|].
  split; [reflexivity|]. split; [reflexivity|]. split; [reflexivity|].
  split; [reflexivity|].
  intro request.
  unfold generate_requirements_endpoint, generate_requirements.
  cbn [get_facilitator].
  destruct (amount_atomic (new_facilitator env) (price request))
    as [amount|e] eqn:Ha; cbn [run call fbind].
  - exists "Facilitator not initialized". split; [reflexivity|]. now left.
  - exists e. split; [reflexivity|]. now right.
Qed.

End ServiceFacts.

Section RequirementFields.

Context {py : PyBuiltins} {sol : Solders}.
Variable self : SolanaFacilitator.

(** X16. [verify] and [settle] read four fields of the requirement:
    the amount, the asset, the recipient and the fee payer. Scheme,
    network, resource, description, MIME type and timeout play no part,
    so a payment is not bound to the resource it was made for. *)
Theorem verify_reads_four_fields h R R' :
  same_terms R R' ->
  verify self h R = verify self h R' /\
  settle self h R = settle self h R'.
Proof.
  intros (Ha & Hb & Hc & Hd).
  destruct R as [sch net amt ast pto res des mim tmo [fp]].
  destruct R' as [sch' net' amt' ast' pto' res' des' mim' tmo' [fp']].
  cbn in Ha, Hb, Hc, Hd. subst.
  split; reflexivity.
Qed.

End RequirementFields.

(** ** The demo endpoint *)

Section DemoFacts.

Context {py : PyBuiltins} {sol : Solders} {json : JsonBuiltins}.
Variable env : Environment.
Variable f : SolanaFacilitator.
Variable url : string.

Lemma demo_with_key kp x :
  f.(facilitator_fee_payer) = Some kp ->
  demo_protected_with env f url x =
  let req := demo_requirements env (Pubkey_str (Keypair_pubkey kp)) url in
  match x with
  | None => Done (payment_required_402 req "Payment required")
  | Some payment =>
      if String.eqb payment "" then
        Done (payment_required_402 req "Payment required")
      else if negb (is_valid (verify f payment req)) then
        Done (payment_required_402 req
                (or_default (invalid_reason (verify f payment req))
                   "Invalid payment"))
      else
        chain_bind (settle f payment req)
          (fun settle_result =>
             if negb settle_result.(success) then
               Done (payment_required_402 req
                       (or_default settle_result.(error)
                          "Settlement failed"))
             else
               Done (JSONResponse 200
                       (ProtectedContent demo_message
                          "This is the premium content you paid for."
                          settle_result.(tx_hash))
                       [("X-PAYMENT-RESPONSE",
                         b64encode_text
                           (list_byte_of_string
                              (model_dump_json settle_result)))]))
  end.
Proof.
  intro Hkey. unfold demo_protected_with, get_fee_payer_pubkey.
  rewrite Hkey. reflexivity.
Qed.

(** The run of the demo handler on a payment that verifies. *)
Lemma demo_run_verified kp h rpc :
  f.(facilitator_fee_payer) = Some kp ->
  h <> "" ->
  let req := demo_requirements env (Pubkey_str (Keypair_pubkey kp)) url in
  is_valid (verify f h req) = true ->
  exists t,
    decoded_transaction h = Ok t /\
    run_chain rpc (demo_protected_with env f url (Some h)) =
    match rpc.(latest_blockhash) with
    | Raise e =>
        (payment_required_402 req (or_default (Some e) "Settlement failed"),
         [GetLatestBlockhashCall Confirmed])
    | Ok _ =>
        match settle_sign kp t with
        | Return r =>
            (if negb r.(success) then
               payment_required_402 req
                 (or_default r.(error) "Settlement failed")
             else
               JSONResponse 200
                 (ProtectedContent demo_message
                    "This is the premium content you paid for."
                    r.(tx_hash))
                 [("X-PAYMENT-RESPONSE",
                   b64encode_text
                     (list_byte_of_string (model_dump_json r)))],
             [GetLatestBlockhashCall Confirmed])
        | Throw e =>
            (payment_required_402 req
               (or_default (Some e) "Settlement failed"),
             [GetLatestBlockhashCall Confirmed])
        | Next tx_to_send =>
            (match rpc.(send_result) tx_to_send with
             | Raise e =>
                 payment_required_402 req
                   (or_default (Some e) "Settlement failed")
             | Ok tx_signature =>
                 JSONResponse 200
                   (ProtectedContent demo_message
                      "This is the premium content you paid for."
                      (Some tx_signature))
                   [("X-PAYMENT-RESPONSE",
                     b64encode_text
                       (list_byte_of_string
                          (model_dump_json (settled f kp tx_signature))))]
             end,
             [GetLatestBlockhashCall Confirmed;
              SendTransactionCall tx_to_send send_opts])
        end
    end.
Proof.
  intros Hkey Hh req Hvalid. pose proof Hvalid as Hv.
  apply verify_valid in Hv as (t & _ & _ & _ & _ & _ & Ht & _).
  exists t. split; [exact Ht|].
  rewrite (demo_with_key kp _ Hkey). cbv zeta. fold req.
  destruct (String.eqb_spec h "") as [E|_]; [contradiction|].
  rewrite Hvalid. cbn [negb].
  rewrite run_chain_bind.
  rewrite (settle_run_verified f rpc h req kp t Hkey Hvalid Ht).
  destruct (latest_blockhash rpc) as [recent|e]; [|reflexivity].
  destruct (settle_sign kp t) as [tx|r|e]; cbn [fst snd].
  - destruct (send_result rpc tx); reflexivity.
  - destruct (negb (success r)); reflexivity.
  - reflexivity.
Qed.

(** X17. With a key loaded, a request to the demo endpoint without a
    payment header, with an empty one, or with a payment that [verify]
    rejects is answered 402 with the demo requirement and a reason that
    is never empty, and no RPC call is made. The reason is "Payment
    required" without a payment and the verifier's reason for a rejected
    one. *)
Theorem demo_protected_unpaid kp x rpc :
  f.(facilitator_fee_payer) = Some kp ->
  let req := demo_requirements env (Pubkey_str (Keypair_pubkey kp)) url in
  (forall h, x = Some h ->
     h = "" \/ is_valid (verify f h req) = false) ->
  exists reason,
    run_chain rpc (demo_protected_with env f url x)
    = (payment_required_402 req reason, []) /\
    reason <> "" /\
    (x = None \/ x = Some "" -> reason = "Payment required") /\
    (forall h r, x = Some h -> h <> "" ->
       verify f h req = invalid r -> r <> "" -> reason = r).
Proof.
  intros Hkey req Hx. rewrite (demo_with_key kp _ Hkey). cbv zeta. fold req.
  destruct x as [h|].
  - destruct (String.eqb_spec h "") as [E|E].
    + exists "Payment required". split; [reflexivity|].
      split; [discriminate|]. split; [reflexivity|].
      intros h' r [= <-] Hne. contradiction.
    + destruct (Hx h eq_refl) as [|Hinv]; [contradiction|].
      rewrite Hinv. cbn [negb].
      eexists. split; [reflexivity|].
      split; [apply or_default_nonempty; discriminate|].
      split; [intros [|[= ->]]; [discriminate|contradiction]|].
      intros h' r [= <-] _ Hr Hne. rewrite Hr. cbn [invalid_reason invalid or_default].
      destruct (String.eqb_spec r ""); [contradiction|reflexivity].
  - exists "Payment required". split; [reflexivity|].
    split; [discriminate|]. split; [reflexivity|]. discriminate.
Qed.

(** X18. The demo endpoint answers 200 only for a payment: a key is
    loaded, the header is a payment that [verify] accepts for the demo
    requirement, the node was asked for a block hash and then accepted
    the transaction, whose message is the one of the payment. The content
    carries the signature the node returned, and the header
    [X-PAYMENT-RESPONSE] the base64 text of the settlement response. *)
Theorem demo_protected_content_is_paid x rpc content headers :
  fst (run_chain rpc (demo_protected_with env f url x))
    = JSONResponse 200 content headers ->
  exists kp h t tx tx_signature,
    f.(facilitator_fee_payer) = Some kp /\
    x = Some h /\ h <> "" /\
    is_valid (verify f h
                (demo_requirements env (Pubkey_str (Keypair_pubkey kp)) url))
      = true /\
    decoded_transaction h = Ok t /\
    tx_message tx = tx_message t /\
    snd (run_chain rpc (demo_protected_with env f url x))
      = [GetLatestBlockhashCall Confirmed;
         SendTransactionCall tx send_opts] /\
    rpc.(send_result) tx = Ok tx_signature /\
    content = ProtectedContent demo_message
                "This is the premium content you paid for."
                (Some tx_signature) /\
    headers = [("X-PAYMENT-RESPONSE",
                b64encode_text
                  (list_byte_of_string
                     (model_dump_json (settled f kp tx_signature))))].
Proof.
  destruct (facilitator_fee_payer f) as [kp|] eqn:Hkey.
  2:{ unfold demo_protected_with, get_fee_payer_pubkey. rewrite Hkey.
      discriminate. }
  destruct x as [h|].
  2:{ rewrite (demo_with_key kp _ Hkey). discriminate. }
  destruct (String.eqb_spec h "") as [E|E].
  { rewrite (demo_with_key kp _ Hkey). cbv zeta. subst h. discriminate. }
  destruct (is_valid (verify f h
              (demo_requirements env (Pubkey_str (Keypair_pubkey kp)) url)))
    eqn:Hvalid.
  2:{ rewrite (demo_with_key kp _ Hkey). cbv zeta.
      destruct (String.eqb_spec h ""); [contradiction|].
      rewrite Hvalid. discriminate. }
  destruct (demo_run_verified kp h rpc Hkey E Hvalid) as (t & Ht & ->).
  destruct (latest_blockhash rpc) as [recent|e]; [|discriminate].
  destruct (settle_sign_outcome kp t) as [(t' & -> & Hmsg)| ->];
    [|discriminate].
  cbn [fst snd].
  destruct (send_result rpc t') as [tx_signature|e] eqn:Hsend;
    [|discriminate].
  intros [= <- <-].
  exists kp, h, t, t', tx_signature.
  repeat (split; [first [reflexivity | assumption]|]). reflexivity.
Qed.

(** X19. For a payment that [verify] accepts, the demo endpoint asks the
    node for a block hash first. When that call or the submission fails
    the answer is 402 with the node's error ("Settlement failed" for an
    empty one), and when nothing was submitted although a block hash
    came, the answer is 402 with "list assignment index out of range". *)
Theorem demo_protected_chain_errors kp h rpc :
  f.(facilitator_fee_payer) = Some kp ->
  h <> "" ->
  let req := demo_requirements env (Pubkey_str (Keypair_pubkey kp)) url in
  is_valid (verify f h req) = true ->
  let '(response, calls) :=
    run_chain rpc (demo_protected_with env f url (Some h)) in
  (exists more, calls = GetLatestBlockhashCall Confirmed :: more) /\
  (forall e, rpc.(latest_blockhash) = Raise e ->
     response = payment_required_402 req
                  (or_default (Some e) "Settlement failed") /\
     calls = [GetLatestBlockhashCall Confirmed]) /\
  (forall tx opts e,
     In (SendTransactionCall tx opts) calls ->
     rpc.(send_result) tx = Raise e ->
     response = payment_required_402 req
                  (or_default (Some e) "Settlement failed")) /\
  (forall recent,
     rpc.(latest_blockhash) = Ok recent ->
     (forall tx opts, ~ In (SendTransactionCall tx opts) calls) ->
     response = payment_required_402 req
                  "list assignment index out of range").
Proof.
  intros Hkey Hh req Hvalid.
  destruct (demo_run_verified kp h rpc Hkey Hh Hvalid) as (t & Ht & ->).
  fold req.
  destruct (latest_blockhash rpc) as [recent|e0].
  - destruct (settle_sign_outcome kp t) as [(t' & -> & Hmsg)| ->].
    + split; [eexists; reflexivity|]. split; [discriminate|]. split.
      * intros tx opts e [H|[H|[]]]; [discriminate|].
        injection H as <- <-. now intros ->.
      * intros recent' _ Hno. exfalso.
        apply (Hno t' send_opts). right. now left.
    + split; [eexists; reflexivity|]. split; [discriminate|]. split.
      * intros tx opts e [H|[]]. discriminate.
      * reflexivity.
  - split; [eexists; reflexivity|].
    split; [intros e [= <-]; now split|]. split.
    + intros tx opts e [H|[]]. discriminate.
    + discriminate.
Qed.

End DemoFacts.

(** ** The paying client *)

Lemma byte_val_of_Z z : byte_val (byte_of_Z z) = z mod 256.
Proof.
  unfold byte_val, byte_of_Z.
  assert (H : (Z.to_N (z mod 256) < 256)%N).
  { pose proof (Z.mod_pos_bound z 256 ltac:(lia)). lia. }
  destruct (Byte.of_N (Z.to_N (z mod 256))) as [b|] eqn:E.
  - apply Byte.to_of_N in E. rewrite E.
    pose proof (Z.mod_pos_bound z 256 ltac:(lia)). lia.
  - apply Byte.of_N_None_iff in E. lia.
Qed.

Lemma unpack_le_bytes n v :
  unpack_le (le_bytes n v) = v mod 256 ^ Z.of_nat n.
Proof.
  revert v. induction n as [|n IH]; intro v.
  - cbn [le_bytes unpack_le]. change (256 ^ Z.of_nat 0) with 1.
    now rewrite Z.mod_1_r.
  - cbn [le_bytes unpack_le]. rewrite IH, byte_val_of_Z.
    rewrite Nat2Z.inj_succ, Z.pow_succ_r by lia.
    rewrite Z.rem_mul_r by lia. reflexivity.
Qed.

Lemma le_bytes_length n v : List.length (le_bytes n v) = n.
Proof. revert v. induction n; intro v; cbn [le_bytes List.length]; auto. Qed.

Lemma struct_pack_Ok amount decimals data :
  struct_pack_BQB 12 amount decimals = Ok data ->
  data = (x0c :: le_bytes 8 amount ++ [byte_of_Z decimals])%list /\
  0 <= amount < 2 ^ 64 /\ 0 <= decimals <= 255.
Proof.
  unfold struct_pack_BQB.
  change (negb ((0 <=? 12) && (12 <=? 255))) with false. cbv iota.
  destruct (Z.leb_spec 0 amount), (Z.ltb_spec amount (2 ^ 64)),
    (Z.leb_spec 0 decimals), (Z.leb_spec decimals 255);
    cbn [andb negb]; intros [=]. subst data.
  split; [reflexivity|lia].
Qed.

Lemma struct_pack_in_range amount decimals :
  0 <= amount < 2 ^ 64 -> 0 <= decimals <= 255 ->
  exists data, struct_pack_BQB 12 amount decimals = Ok data.
Proof.
  intros Ha Hd. unfold struct_pack_BQB.
  change (negb ((0 <=? 12) && (12 <=? 255))) with false. cbv iota.
  destruct (Z.leb_spec 0 amount), (Z.ltb_spec amount (2 ^ 64)),
    (Z.leb_spec 0 decimals), (Z.leb_spec decimals 255);
    cbn [andb negb]; try lia.
  eexists. reflexivity.
Qed.

Lemma packed_amount amount decimals :
  0 <= amount < 2 ^ 64 ->
  u64_at 1 (x0c :: le_bytes 8 amount ++ [byte_of_Z decimals]) = amount.
Proof.
  intro Ha. unfold u64_at, py_slice.
  change (1 + 8 - 1)%nat with 8%nat. cbn [skipn].
  rewrite firstn_app, le_bytes_length, Nat.sub_diag, firstn_O, app_nil_r.
  rewrite firstn_all2 by (rewrite le_bytes_length; lia).
  rewrite unpack_le_bytes.
  change (256 ^ Z.of_nat 8) with (2 ^ 64). apply Z.mod_small. lia.
Qed.

Lemma packed_decimals amount decimals :
  nth_error (x0c :: le_bytes 8 amount ++ [byte_of_Z decimals]) 9
  = Some (byte_of_Z decimals).
Proof.
  change (nth_error (le_bytes 8 amount ++ [byte_of_Z decimals]) 8
          = Some (byte_of_Z decimals)).
  rewrite nth_error_app2 by (rewrite le_bytes_length; lia).
  rewrite le_bytes_length. reflexivity.
Qed.

Lemma packed_length amount decimals :
  len (x0c :: le_bytes 8 amount ++ [byte_of_Z decimals]) = 10.
Proof.
  unfold len. cbn [List.length].
  rewrite length_app, le_bytes_length. reflexivity.
Qed.

(** X20. What the client packs, the verifier unpacks: the data of a
    transfer instruction has ten bytes, starts with the discriminator 12,
    holds the amount as the little-endian value at offset 1 and the
    decimals at offset 9. Packing succeeds exactly when the amount fits
    64 bits and the decimals one byte. *)
Theorem struct_pack_round_trip amount decimals :
  (forall data,
     struct_pack_BQB 12 amount decimals = Ok data ->
     len data = 10 /\
     nth_error data 0 = Some x0c /\
     u64_at 1 data = amount /\
     exists d, nth_error data 9 = Some d /\ byte_val d = decimals) /\
  ((exists data, struct_pack_BQB 12 amount decimals = Ok data) <->
   0 <= amount < 2 ^ 64 /\ 0 <= decimals <= 255).
Proof.
  split.
  - intros data H. apply struct_pack_Ok in H as (-> & Ha & Hd).
    split; [apply packed_length|]. split; [reflexivity|].
    split; [now apply packed_amount|].
    exists (byte_of_Z decimals). split; [apply packed_decimals|].
    rewrite byte_val_of_Z. apply Z.mod_small. lia.
  - split.
    + intros (data & H). now apply struct_pack_Ok in H.
    + intros (Ha & Hd). now apply struct_pack_in_range.
Qed.

Section ClientFacts.

Context {py : PyBuiltins} {sol : Solders}.
Variable self : SolanaFacilitator.

(** X21. A transfer instruction that the client builds for a requirement
    (the amount it parsed, the mint of the asset, the associated token
    account of the recipient as destination, the configured decimals)
    passes the verifier's transfer check, whichever message it is
    compiled into. *)
Theorem client_transfer_accepted R account_keys source mint pay_to_key
    owner amount instruction ix :
  py_int R.(max_amount_required) = Ok amount ->
  Pubkey_from_string R.(asset) = Ok mint ->
  Pubkey_from_string R.(pay_to) = Ok pay_to_key ->
  create_transfer_checked_instruction source mint
    (get_associated_token_address mint pay_to_key) owner amount
    self.(settings).(usdc_decimals) = Ok instruction ->
  compiles account_keys instruction ix ->
  _verify_transfer_instruction self ix account_keys R = Ok (true, None).
Proof.
  intros Hint Hmint Hpay Hcreate (Hprog & Hdata & Haccs).
  unfold create_transfer_checked_instruction in Hcreate.
  destruct (struct_pack_BQB 12 amount (usdc_decimals (settings self)))
    as [data|e] eqn:Hpack; [|discriminate].
  cbn [run call fbind] in Hcreate. injection Hcreate as <-.
  cbn [instruction_program_id instruction_data instruction_accounts
       map meta_pubkey] in Hprog, Hdata, Haccs.
  apply struct_pack_Ok in Hpack as (-> & Ha & Hd).
  destruct (accounts ix) as [|a0 [|a1 [|a2 [|a3 [|a4 more]]]]] eqn:Hix;
    try discriminate.
  cbn [map] in Haccs. injection Haccs as H0 H1 H2 H3.
  apply transfer_eval.
  exists TOKEN_PROGRAM_ID, amount, (byte_of_Z (usdc_decimals (settings self))),
    a1, a2, mint, (get_associated_token_address mint pay_to_key), pay_to_key.
  rewrite Hdata, Hix.
  split; [exact Hprog|]. split; [now left|].
  split; [eexists; reflexivity|].
  split; [rewrite packed_length; lia|].
  split; [exact Hint|].
  split; [now apply packed_amount|].
  split; [apply packed_decimals|].
  split; [rewrite byte_val_of_Z; apply Z.mod_small; lia|].
  split; [vm_compute; discriminate|].
  split; [reflexivity|]. split; [exact H1|]. split; [exact Hmint|].
  split; [reflexivity|]. split; [exact H2|]. split; [exact Hpay|].
  reflexivity.
Qed.

End ClientFacts.

(** ** Signing, end to end *)

(** A loop that writes [sig] at the positions whose key passes [test]:
    the loop of the client, and that of [settle]. *)
Lemma place_loop {R} (test : Pubkey -> bool) (sig : Signature)
    (keys : list Pubkey) :
  forall (start : nat) (sigs : list Signature),
    (start + List.length keys <= List.length sigs)%nat ->
    exists sigs',
      for_each (R := R)
        (combine (seq start (List.length keys)) keys) sigs
        (fun signatures '(i, account_key) =>
           if test account_key
           then call (py_setitem signatures i sig)
           else Next signatures)
      = Next sigs' /\
      List.length sigs' = List.length sigs /\
      forall i,
        nth_error sigs' i =
        if (start <=? i)%nat &&
           match nth_error keys (i - start) with
           | Some account_key => test account_key
           | None => false
           end
        then Some sig
        else nth_error sigs i.
Proof.
  induction keys as [|k keys IH]; intros start sigs Hlen.
  - exists sigs. split; [reflexivity|]. split; [reflexivity|].
    intro i. destruct (i - start)%nat; cbn [nth_error];
      now rewrite andb_false_r.
  - cbn [List.length seq combine for_each] in *.
    assert (Hstep : exists sigs1,
      (if test k
       then call (R := R) (py_setitem sigs start sig)
       else Next sigs) = Next sigs1 /\
      List.length sigs1 = List.length sigs /\
      forall i, nth_error sigs1 i =
        if (i =? start)%nat && test k
        then Some sig else nth_error sigs i).
    { destruct (test k).
      - destruct (py_setitem_Ok sigs start sig)
          as (l' & -> & Hl & Hn); [lia|].
        exists l'. split; [reflexivity|]. split; [assumption|].
        intro i. rewrite Hn. now rewrite andb_true_r.
      - exists sigs. split; [reflexivity|]. split; [reflexivity|].
        intro i. now rewrite andb_false_r. }
    destruct Hstep as (sigs1 & -> & Hl1 & Hn1). cbn [fbind].
    destruct (IH (S start) sigs1) as (sigs' & Hloop & Hl' & Hn'); [lia|].
    exists sigs'. split; [assumption|]. split; [congruence|].
    intro i. rewrite Hn', Hn1.
    destruct (Nat.leb_spec (S start) i) as [Hgt|Hle].
    + destruct (Nat.leb_spec start i); [|lia].
      replace (i - start)%nat with (S (i - S start)) by lia.
      cbn [nth_error andb].
      destruct (Nat.eqb_spec i start); [lia|]. reflexivity.
    + cbn [andb]. destruct (Nat.eqb_spec i start) as [->|Hne].
      * rewrite Nat.leb_refl, Nat.sub_diag. reflexivity.
      * destruct (Nat.leb_spec start i); [lia|]. reflexivity.
Qed.

Section SigningFacts.

Context {py : PyBuiltins} {sol : Solders}.
Variable self : SolanaFacilitator.

Lemma partially_signed_Ok (msg : Message) (wallet : Keypair) :
  exists sigs,
    partially_signed msg wallet
    = Ok {| signatures := sigs; message := msg |} /\
    List.length sigs
    = Byte.to_nat msg.(header).(num_required_signatures) /\
    forall i,
      nth_error sigs i =
      if customer_slot wallet msg i
      then Some (sign_message wallet (Message_bytes msg))
      else nth_error
             (repeat Signature_default
                (Byte.to_nat msg.(header).(num_required_signatures))) i.
Proof.
  set (n := Byte.to_nat msg.(header).(num_required_signatures)).
  destruct (place_loop (R := Transaction)
              (fun k => Pubkey_eqb k (Keypair_pubkey wallet))
              (sign_message wallet (Message_bytes msg))
              (firstn n msg.(account_keys)) 0
              (repeat Signature_default n))
    as (sigs & Hloop & Hlen & Hnth).
  { rewrite repeat_length.
    pose proof (firstn_le_length n msg.(account_keys)). lia. }
  exists sigs. split; [|split].
  - unfold partially_signed, enumerate. fold n. cbv zeta.
    rewrite Hloop. reflexivity.
  - now rewrite Hlen, repeat_length.
  - intro i. rewrite Hnth. unfold customer_slot. fold n.
    rewrite Nat.sub_0_r, nth_error_firstn. cbn [Nat.leb andb].
    destruct (i <? n)%nat; reflexivity.
Qed.

(** X22. The client and the facilitator complete each other's
    signatures. The client's partially signed transaction always exists
    and has one slot per required signer; when it is what the payment
    header decodes to and the payment verifies, [settle] submits the same
    message with, at every signer position, the facilitator's signature
    where the facilitator's key stands, else the customer's where the
    wallet's key stands, else the default signature. *)
Theorem payment_fully_signed h R msg wallet kp rpc recent :
  self.(facilitator_fee_payer) = Some kp ->
  is_valid (verify self h R) = true ->
  rpc.(latest_blockhash) = Ok recent ->
  exists tx,
    partially_signed msg wallet = Ok tx /\
    tx.(message) = msg /\
    (decoded_transaction h = Ok (LegacyTx tx) ->
     exists signatures',
       snd (run_chain rpc (settle self h R)) =
         [GetLatestBlockhashCall Confirmed;
          SendTransactionCall
            (LegacyTx {| signatures := signatures'; message := msg |})
            send_opts] /\
       List.length signatures'
       = Byte.to_nat msg.(header).(num_required_signatures) /\
       forall i,
         (i < Byte.to_nat msg.(header).(num_required_signatures))%nat ->
         nth_error signatures' i =
         Some (if facilitator_slot kp msg i
               then sign_message kp (Message_bytes msg)
               else if customer_slot wallet msg i
               then sign_message wallet (Message_bytes msg)
               else Signature_default)).
Proof.
  intros Hkey Hvalid Hrpc.
  destruct (partially_signed_Ok msg wallet) as (sigs & Hps & Hlen & Hnth).
  eexists. split; [exact Hps|]. split; [reflexivity|].
  intro Ht.
  set (n := Byte.to_nat msg.(header).(num_required_signatures)) in *.
  destruct (sign_loop kp (sign_message kp (Message_bytes msg))
              (firstn n msg.(account_keys)) 0 sigs)
    as (sigs' & Hloop & Hlen' & Hnth').
  { pose proof (firstn_le_length n msg.(account_keys)). lia. }
  exists sigs'. split; [|split].
  - unfold settle.
    rewrite (settle_decode_verified self h R kp Hkey Hvalid _ Ht).
    cbn [run_chain]. rewrite Hrpc.
    unfold settle_sign, enumerate. cbn [signatures message]. fold n.
    rewrite Hloop. cbn [fbind run_chain].
    destruct (send_result rpc _); reflexivity.
  - congruence.
  - intros i Hi. rewrite Hnth', Hnth. unfold facilitator_slot. fold n.
    rewrite Nat.sub_0_r, nth_error_firstn. cbn [Nat.leb andb].
    destruct (Nat.ltb_spec i n) as [_|]; [|lia]. cbn [andb].
    destruct (nth_error (account_keys msg) i) as [k|].
    + destruct (String.eqb (Pubkey_str k) _); [reflexivity|].
      destruct (customer_slot wallet msg i); [reflexivity|].
      now rewrite nth_error_repeat.
    + destruct (customer_slot wallet msg i); [reflexivity|].
      now rewrite nth_error_repeat.
Qed.

End SigningFacts.

(** ** Concrete payments *)

#[local] Existing Instance Reference.builtins.
#[local] Existing Instance Reference.solders.

(** *** Payments that pass *)

Lemma verify_fee_payer_isolation_witness :
  is_valid (verify Example.facilitator Example.payment_header
              Example.requirements) = true /\
  exists t fp,
    decoded_transaction Example.payment_header = Ok t /\
    Pubkey_from_string Example.requirements.(extra).(fee_payer) = Ok fp /\
    List.length (tx_instructions t) = 3%nat /\
    forall ix, In ix (tx_instructions t) ->
    forall a, In a ix.(accounts) ->
      exists k, account_at (tx_account_keys t) a = Some k /\ k <> fp.
Proof.
  split; [vm_compute; reflexivity|].
  apply (verify_fee_payer_isolation Example.facilitator).
  vm_compute; reflexivity.
Defined.

Lemma verify_fee_payer_first_unreferenced_witness :
  is_valid (verify Example.facilitator Example.payment_header
              Example.requirements) = true /\
  exists t fp,
    decoded_transaction Example.payment_header = Ok t /\
    Pubkey_from_string Example.requirements.(extra).(fee_payer) = Ok fp /\
    (nth_error (tx_account_keys t) 0 = Some fp ->
     forall ix, In ix (tx_instructions t) -> ~ In x00 ix.(accounts)).
Proof.
  split; [vm_compute; reflexivity|].
  apply (verify_fee_payer_first_unreferenced Example.facilitator).
  vm_compute; reflexivity.
Defined.

Lemma verify_transfer_authority_witness :
  is_valid (verify Example.facilitator Example.payment_header
              Example.requirements) = true /\
  exists t i0 i1 i2 accounts3 authority fp,
    decoded_transaction Example.payment_header = Ok t /\
    tx_instructions t = [i0; i1; i2] /\
    nth_error i2.(accounts) 3 = Some accounts3 /\
    account_at (tx_account_keys t) accounts3 = Some authority /\
    Pubkey_from_string Example.requirements.(extra).(fee_payer) = Ok fp /\
    authority <> fp.
Proof.
  split; [vm_compute; reflexivity|].
  apply (verify_transfer_authority Example.facilitator).
  vm_compute; reflexivity.
Defined.

Lemma verify_transfer_destination_witness :
  is_valid (verify Example.facilitator Example.five_accounts_header
              Example.requirements) = true /\
  exists t i0 i1 i2 source mint_idx destination_idx authority more
         token_program mint destination pay_to_key,
    decoded_transaction Example.five_accounts_header = Ok t /\
    tx_instructions t = [i0; i1; i2] /\
    i2.(accounts) =
      (source :: mint_idx :: destination_idx :: authority :: more)%list /\
    account_at (tx_account_keys t) i2.(program_id_index)
      = Some token_program /\
    (token_program = SPL_TOKEN_PROGRAM \/
     token_program = TOKEN_2022_PROGRAM) /\
    Pubkey_from_string Example.requirements.(asset) = Ok mint /\
    Pubkey_from_string Example.requirements.(pay_to) = Ok pay_to_key /\
    account_at (tx_account_keys t) mint_idx = Some mint /\
    account_at (tx_account_keys t) destination_idx = Some destination /\
    destination =
      fst (find_program_address [pay_to_key; token_program; mint]
             ASSOCIATED_TOKEN_PROGRAM).
Proof.
  split; [vm_compute; reflexivity|].
  apply (verify_transfer_destination Example.facilitator).
  vm_compute; reflexivity.
Defined.

Lemma verify_amount_exact_witness :
  is_valid (verify Example.facilitator Example.payment_header
              Example.requirements) = true /\
  (exists t i0 i1 i2 amount,
     decoded_transaction Example.payment_header = Ok t /\
     tx_instructions t = [i0; i1; i2] /\
     amount = u64_at 1 i2.(data) /\
     py_int Example.requirements.(max_amount_required) = Ok amount /\
     forall s' required,
       py_int s' = Ok required ->
       required <> amount ->
       verify Example.facilitator Example.payment_header
         (with_max_amount Example.requirements s')
       = invalid (amount_mismatch amount required)) /\
  reaches_amount_check Example.facilitator
    Example.wrong_amount_and_decimals_header
    (LegacyTx Example.wrong_amount_and_decimals)
    (Example.transfer_checked 9999 x09 x05 [x02; x04; x03; x01]) /\
  verify Example.facilitator Example.wrong_amount_and_decimals_header
    Example.requirements
  = invalid (amount_mismatch 9999 10000).
Proof.
  split; [vm_compute; reflexivity|].
  split.
  { apply (proj1 (verify_amount_exact Example.facilitator
                    Example.payment_header Example.requirements)).
    vm_compute; reflexivity. }
  assert (Hreach : reaches_amount_check Example.facilitator
            Example.wrong_amount_and_decimals_header
            (LegacyTx Example.wrong_amount_and_decimals)
            (Example.transfer_checked 9999 x09 x05 [x02; x04; x03; x01])).
  { split; [vm_compute; reflexivity|]. split; [reflexivity|].
    split.
    { exists (Example.set_compute_unit_price 5 x06),
             (Example.set_compute_unit_limit 200000 x06).
      split; [reflexivity|].
      assert (H0 : budget_instruction Example.payment_keys
                     (Example.set_compute_unit_price 5 x06) 3).
      { split; [vm_compute; reflexivity|].
        exists x03, (Example.pack_u64 5). split; reflexivity. }
      assert (H1 : budget_instruction Example.payment_keys
                     (Example.set_compute_unit_limit 200000 x06) 2).
      { split; [vm_compute; reflexivity|].
        exists x02, (firstn 4 (Example.pack_u64 200000)).
        split; reflexivity. }
      split; [right; exact H0|]. split; [left; exact H1|].
      split.
      - intros (_ & d & rest & Hd & Hv). exfalso.
        injection Hd as <- _. vm_compute in Hv. discriminate.
      - intros _ _. split; vm_compute; discriminate. }
    split; [left; vm_compute; reflexivity|].
    split; [eexists; reflexivity|]. vm_compute; discriminate. }
  split; [exact Hreach|].
  apply (proj1 (proj1 (proj2 (verify_amount_exact Example.facilitator
                                Example.wrong_amount_and_decimals_header
                                Example.requirements))
                  _ _ Hreach) 10000).
  - vm_compute; reflexivity.
  - vm_compute; discriminate.
Defined.

Lemma verify_ignores_signatures_witness :
  decoded_transaction Example.payment_header
    = Ok (LegacyTx Example.payment) /\
  decoded_transaction Example.unsigned_payment_header
    = Ok (LegacyTx Example.unsigned_payment) /\
  tx_signatures (LegacyTx Example.payment)
    <> tx_signatures (LegacyTx Example.unsigned_payment) /\
  verify Example.facilitator Example.payment_header Example.requirements
  = verify Example.facilitator Example.unsigned_payment_header
      Example.requirements.
Proof.
  split; [vm_compute; reflexivity|].
  split; [vm_compute; reflexivity|].
  split; [vm_compute; discriminate|].
  apply (verify_ignores_signatures Example.facilitator
           Example.payment_header Example.unsigned_payment_header
           Example.requirements
           (LegacyTx Example.payment) (LegacyTx Example.unsigned_payment));
    vm_compute; reflexivity.
Defined.

Lemma settle_rejection_touches_no_chain_witness :
  is_valid (verify Example.facilitator Example.wrong_amount_header
              Example.requirements) = false /\
  exists reason response e,
    verify Example.facilitator Example.wrong_amount_header
      Example.requirements = invalid reason /\
    settle Example.facilitator Example.wrong_amount_header
      Example.requirements = Done response /\
    response.(success) = false /\
    response.(error) = Some e /\
    e = match Example.facilitator.(facilitator_fee_payer) with
        | Some _ => "Verification failed: " ++ reason
        | None => "Facilitator not configured"
        end /\
    (Example.facilitator.(facilitator_fee_payer) <> None ->
     contains reason e = true) /\
    response.(tx_hash) = None /\
    forall rpc,
      run_chain rpc (settle Example.facilitator Example.wrong_amount_header
                       Example.requirements) = (response, []).
Proof.
  split; [vm_compute; reflexivity|].
  apply (settle_rejection_touches_no_chain Example.facilitator).
  vm_compute; reflexivity.
Defined.

Lemma settle_signature_localized_witness :
  Example.facilitator.(facilitator_fee_payer)
    = Some Example.facilitator_keypair /\
  is_valid (verify Example.facilitator Example.payment_header
              Example.requirements) = true /\
  decoded_transaction Example.payment_header
    = Ok (LegacyTx Example.payment) /\
  exists signatures',
    snd (run_chain Example.mock_rpc
           (settle Example.facilitator Example.payment_header
              Example.requirements)) =
      [GetLatestBlockhashCall Confirmed;
       SendTransactionCall
         (LegacyTx {| signatures := signatures';
                      message := Example.payment.(message) |})
         send_opts] /\
    List.length signatures' = List.length Example.payment.(signatures) /\
    (forall i,
       nth_error signatures' i =
       if facilitator_slot Example.facilitator_keypair
            Example.payment.(message) i
       then Some (sign_message Example.facilitator_keypair
                    (Message_bytes Example.payment.(message)))
       else nth_error Example.payment.(signatures) i) /\
    ((forall i, facilitator_slot Example.facilitator_keypair
                  Example.payment.(message) i = true -> i = 0%nat) ->
     forall i, i <> 0%nat ->
       nth_error signatures' i = nth_error Example.payment.(signatures) i).
Proof.
  split; [reflexivity|].
  split; [vm_compute; reflexivity|].
  split; [vm_compute; reflexivity|].
  apply (settle_signature_localized Example.facilitator
           Example.payment_header Example.requirements Example.payment
           Example.facilitator_keypair Example.mock_rpc Example.blockhash);
    vm_compute; reflexivity.
Defined.


(** *** Payments that show where the code parts from the specification *)

(** C1 as stated fails: a payment whose fee the customer pays, with the
    customer at [account_keys[0]] and the facilitator in no position, is
    valid for a requirement that names the facilitator as fee payer. *)
Lemma fee_payer_first_counterexample :
  is_valid (verify Example.facilitator Example.self_paid_header
              Example.requirements) = true /\
  decoded_transaction Example.self_paid_header
    = Ok (LegacyTx Example.self_paid) /\
  Pubkey_from_string Example.requirements.(extra).(fee_payer)
    = Ok Example.facilitator_key /\
  nth_error (tx_account_keys (LegacyTx Example.self_paid)) 0
    = Some Example.customer_key /\
  Example.customer_key <> Example.facilitator_key.
Proof.
  repeat split; try (vm_compute; reflexivity). discriminate.
Qed.

(** C2 as stated fails: the same payment is valid with one required
    signature, and its [account_keys[1]] is not the transfer
    authority. *)
Lemma two_signers_counterexample :
  is_valid (verify Example.facilitator Example.self_paid_header
              Example.requirements) = true /\
  decoded_transaction Example.self_paid_header
    = Ok (LegacyTx Example.self_paid) /\
  byte_val (tx_header (LegacyTx Example.self_paid)).(num_required_signatures)
    = 1 /\
  (exists i0 i1 i2 accounts3,
     tx_instructions (LegacyTx Example.self_paid) = [i0; i1; i2] /\
     nth_error i2.(accounts) 3 = Some accounts3 /\
     nth_error (tx_account_keys (LegacyTx Example.self_paid)) 1
       <> account_at (tx_account_keys (LegacyTx Example.self_paid))
            accounts3).
Proof.
  repeat split; try (vm_compute; reflexivity).
  do 4 eexists. split; [reflexivity|]. split; [reflexivity|].
  vm_compute. discriminate.
Qed.

(** C4 as stated fails: with the facilitator as second signer the
    payment is valid, and the transaction [settle] submits differs from
    the input in [signatures[1]], while [signatures[0]] is unchanged. *)
Lemma signature_slot_counterexample :
  is_valid (verify Example.facilitator Example.facilitator_second_header
              Example.requirements) = true /\
  decoded_transaction Example.facilitator_second_header
    = Ok (LegacyTx Example.facilitator_second) /\
  exists signatures',
    snd (run_chain Example.mock_rpc
           (settle Example.facilitator Example.facilitator_second_header
              Example.requirements)) =
      [GetLatestBlockhashCall Confirmed;
       SendTransactionCall
         (LegacyTx {| signatures := signatures';
                      message := Example.facilitator_second.(message) |})
         send_opts] /\
    nth_error signatures' 0
      = nth_error Example.facilitator_second.(signatures) 0 /\
    nth_error signatures' 1
      <> nth_error Example.facilitator_second.(signatures) 1.
Proof.
  split; [vm_compute; reflexivity|].
  split; [vm_compute; reflexivity|].
  eexists. split; [vm_compute; reflexivity|].
  split; [reflexivity|]. vm_compute. discriminate.
Qed.

(** The versioned path of [settle] on the demo payment: the submitted
    transaction has three signatures for two signers, the last one being
    a signature over the message hash. *)
Lemma versioned_settlement_example :
  is_valid (verify Example.facilitator Example.versioned_payment_header
              Example.requirements) = true /\
  snd (run_chain Example.mock_rpc
         (settle Example.facilitator Example.versioned_payment_header
            Example.requirements)) =
    [GetLatestBlockhashCall Confirmed;
     SendTransactionCall
       (VersionedTx
          {| v_signatures :=
               [Example.absent_signature; Example.customer_signature;
                sign_message Example.facilitator_keypair
                  (Message_hash Example.versioned_payment.(v_message))];
             v_message := Example.versioned_payment.(v_message) |})
       send_opts].
Proof.
  split; [vm_compute; reflexivity|].
  apply (settle_versioned_appends Example.facilitator
           Example.versioned_payment_header Example.requirements
           Example.versioned_payment Example.facilitator_keypair
           Example.mock_rpc Example.blockhash);
    vm_compute; reflexivity.
Defined.

(** C5: the code accepts a prelude of two compute-unit-limit instructions
    (no price instruction at all), and a prelude of two compute-unit-price
    instructions whose first price, 1000000, is above the maximum of 5:
    only the price of the last price instruction is checked. *)
Theorem prelude_duplicates_accepted :
  verify Example.facilitator Example.two_limits_header Example.requirements
    = {| is_valid := true; invalid_reason := None |} /\
  decoded_transaction Example.two_limits_header
    = Ok (LegacyTx Example.two_limits) /\
  map (fun ix => nth_error ix.(data) 0)
      (firstn 2 (tx_instructions (LegacyTx Example.two_limits)))
    = [Some x02; Some x02] /\
  verify Example.facilitator Example.two_prices_header Example.requirements
    = {| is_valid := true; invalid_reason := None |} /\
  decoded_transaction Example.two_prices_header
    = Ok (LegacyTx Example.two_prices) /\
  map (fun ix => (nth_error ix.(data) 0, u64_at 1 ix.(data)))
      (firstn 2 (tx_instructions (LegacyTx Example.two_prices)))
    = [(Some x03, 1000000); (Some x03, 5)] /\
  Example.facilitator.(settings).(max_compute_unit_price) = 5.
Proof.
  repeat split; vm_compute; reflexivity.
Qed.

(** C6 as stated fails: a transaction with a fourth instruction and a
    transfer of 9999 is rejected for the instruction count; the reason
    does not mention the amount. *)
Lemma amount_reason_counterexample :
  decoded_transaction Example.four_instructions_header
    = Ok (LegacyTx Example.four_instructions) /\
  (exists i2,
     nth_error (tx_instructions (LegacyTx Example.four_instructions)) 2
       = Some i2 /\
     u64_at 1 i2.(data) = 9999) /\
  py_int Example.requirements.(max_amount_required) = Ok 10000 /\
  verify Example.facilitator Example.four_instructions_header
    Example.requirements = invalid "Expected 3 instructions, got 4" /\
  contains (amount_mismatch 9999 10000) "Expected 3 instructions, got 4"
    = false.
Proof.
  split; [vm_compute; reflexivity|].
  split; [eexists; split; vm_compute; reflexivity|].
  repeat split; vm_compute; reflexivity.
Qed.

(** C7 as stated fails: a transfer with five account indices is valid. *)
Lemma four_accounts_counterexample :
  is_valid (verify Example.facilitator Example.five_accounts_header
              Example.requirements) = true /\
  decoded_transaction Example.five_accounts_header
    = Ok (LegacyTx Example.five_accounts) /\
  exists i2,
    nth_error (tx_instructions (LegacyTx Example.five_accounts)) 2
      = Some i2 /\
    List.length i2.(accounts) = 5%nat.
Proof.
  split; [vm_compute; reflexivity|].
  split; [vm_compute; reflexivity|].
  eexists. split; vm_compute; reflexivity.
Qed.


(** *** The verifier, completely *)

Lemma verify_valid_iff_witness :
  exists t i0 i1 i2,
    decoded_transaction Example.payment_header = Ok t /\
    supported_format t = true /\
    tx_instructions t = [i0; i1; i2] /\
    prelude_ok Example.facilitator (tx_account_keys t) i0 i1 /\
    transfer_ok Example.facilitator (tx_account_keys t)
      Example.requirements i2 /\
    isolation_ok (tx_account_keys t) Example.requirements
      (tx_instructions t).
Proof.
  apply (proj1 (verify_valid_iff Example.facilitator Example.payment_header
                  Example.requirements)).
  vm_compute; reflexivity.
Defined.

Lemma verify_monotone_in_max_price_witness :
  Example.facilitator.(settings).(max_compute_unit_price) <= 10 /\
  is_valid (verify Example.facilitator Example.payment_header
              Example.requirements) = true /\
  is_valid (verify (with_max_price Example.facilitator 10)
              Example.payment_header Example.requirements) = true.
Proof.
  split; [vm_compute; discriminate|].
  split; [vm_compute; reflexivity|].
  apply (verify_monotone_in_max_price Example.facilitator).
  - vm_compute; discriminate.
  - vm_compute; reflexivity.
Defined.

Lemma verify_instruction_count_witness :
  decoded_transaction Example.four_instructions_header
    = Ok (LegacyTx Example.four_instructions) /\
  len (tx_instructions (LegacyTx Example.four_instructions)) <> 3 /\
  verify Example.facilitator Example.four_instructions_header
    Example.requirements
  = invalid ("Expected 3 instructions, got " ++
             str_int (len (tx_instructions
                             (LegacyTx Example.four_instructions)))).
Proof.
  split; [vm_compute; reflexivity|].
  split; [vm_compute; discriminate|].
  apply (verify_instruction_count Example.facilitator).
  - vm_compute; reflexivity.
  - reflexivity.
  - vm_compute; discriminate.
Defined.

Lemma verify_undecodable_witness :
  b64decode "AA" = Raise "Incorrect padding" /\
  verify Example.facilitator "AA" Example.requirements
  = invalid "Incorrect padding".
Proof.
  split; [vm_compute; reflexivity|].
  apply (proj1 (verify_undecodable Example.facilitator "AA"
                  Example.requirements)).
  vm_compute; reflexivity.
Defined.

(** *** The reasons of rejection *)

Lemma verify_price_rejected_witness :
  decoded_transaction Example.high_price_header
    = Ok (LegacyTx Example.high_price) /\
  verify Example.facilitator Example.high_price_header Example.requirements
  = invalid (price_exceeds 6 5).
Proof.
  split; [vm_compute; reflexivity|].
  refine (proj2 (verify_price_rejected Example.facilitator
                   Example.high_price_header Example.requirements
                   (LegacyTx Example.high_price)
                   (Example.set_compute_unit_price 6 x06)
                   (Example.set_compute_unit_limit 200000 x06)
                   (Example.transfer_checked 10000 x06 x05
                      [x02; x04; x03; x01])
                   (Example.set_compute_unit_price 6 x06)
                   _ _ _ _) _ _).
  - vm_compute; reflexivity.
  - reflexivity.
  - reflexivity.
  - right. split; [|split; [reflexivity|]].
    + split; [vm_compute; reflexivity|].
      exists x03, (Example.pack_u64 6). split; reflexivity.
    + split; [vm_compute; reflexivity|].
      exists x02, (firstn 4 (Example.pack_u64 200000)).
      split; reflexivity.
  - vm_compute; discriminate.
  - vm_compute; reflexivity.
Defined.

Lemma verify_fee_payer_referenced_witness :
  is_valid (verify Example.facilitator Example.payment_header
              Example.requirements) = true /\
  Pubkey_from_string (Pubkey_str Example.customer_key)
    = Ok Example.customer_key /\
  verify Example.facilitator Example.payment_header
    (with_fee_payer Example.requirements (Pubkey_str Example.customer_key))
  = invalid fee_payer_in_accounts /\
  Pubkey_from_string Service.overlong_address
    = Raise "String is the wrong size" /\
  verify Example.facilitator Example.payment_header
    (with_fee_payer Example.requirements Service.overlong_address)
  = invalid "String is the wrong size".
Proof.
  split; [vm_compute; reflexivity|].
  split; [vm_compute; reflexivity|].
  destruct (verify_fee_payer_referenced Example.facilitator
              Example.payment_header Example.requirements
              (Pubkey_str Example.customer_key))
    as (t & Ht & Hin & _); [vm_compute; reflexivity|].
  destruct (verify_fee_payer_referenced Example.facilitator
              Example.payment_header Example.requirements
              Service.overlong_address)
    as (t' & _ & _ & Hraise); [vm_compute; reflexivity|].
  assert (E : Ok t = Ok (LegacyTx Example.payment)).
  { rewrite <- Ht. vm_compute. reflexivity. }
  injection E as ->.
  split.
  - apply (Hin Example.customer_key
             (Example.transfer_checked 10000 x06 x05 [x02; x04; x03; x01])
             x01).
    + vm_compute; reflexivity.
    + right. right. left. reflexivity.
    + right. right. right. left. reflexivity.
    + reflexivity.
  - split; [vm_compute; reflexivity|].
    apply Hraise. vm_compute; reflexivity.
Defined.

Lemma verify_wrong_asset_or_recipient_witness :
  is_valid (verify Example.facilitator Example.payment_header
              Example.requirements) = true /\
  exists mint destination token_program,
    Pubkey_from_string Example.requirements.(asset) = Ok mint /\
    (forall s mint',
       Pubkey_from_string s = Ok mint' -> mint' <> mint ->
       verify Example.facilitator Example.payment_header
         (with_asset Example.requirements s)
       = invalid (mint_mismatch mint mint')) /\
    (forall s pay_to_key,
       Pubkey_from_string s = Ok pay_to_key ->
       fst (find_program_address [pay_to_key; token_program; mint]
              ASSOCIATED_TOKEN_PROGRAM) <> destination ->
       verify Example.facilitator Example.payment_header
         (with_pay_to Example.requirements s)
       = invalid (destination_mismatch destination
                    (fst (find_program_address
                            [pay_to_key; token_program; mint]
                            ASSOCIATED_TOKEN_PROGRAM)))).
Proof.
  split; [vm_compute; reflexivity|].
  apply (verify_wrong_asset_or_recipient Example.facilitator).
  vm_compute; reflexivity.
Defined.

Lemma verify_reads_instructions_and_keys_witness :
  decoded_transaction Example.payment_header
    = Ok (LegacyTx Example.payment) /\
  decoded_transaction Example.versioned_payment_header
    = Ok (VersionedTx Example.versioned_payment) /\
  verify Example.facilitator Example.payment_header Example.requirements
  = verify Example.facilitator Example.versioned_payment_header
      Example.requirements.
Proof.
  split; [vm_compute; reflexivity|].
  split; [vm_compute; reflexivity|].
  apply (verify_reads_instructions_and_keys Example.facilitator
           Example.payment_header Example.versioned_payment_header
           Example.requirements
           (LegacyTx Example.payment)
           (VersionedTx Example.versioned_payment));
    vm_compute; reflexivity.
Defined.

(** *** The settler, call by call *)

Lemma settle_calls_after_verification_witness :
  snd (run_chain Example.mock_rpc
         (settle Example.facilitator Example.payment_header
            Example.requirements)) <> [] /\
  Example.facilitator.(facilitator_fee_payer) <> None /\
  is_valid (verify Example.facilitator Example.payment_header
              Example.requirements) = true.
Proof.
  split; [vm_compute; discriminate|].
  apply (proj2 (settle_calls_after_verification Example.facilitator
                  Example.mock_rpc Example.payment_header
                  Example.requirements)).
  vm_compute; discriminate.
Defined.

Lemma settle_outcome_witness :
  Example.facilitator.(facilitator_fee_payer)
    = Some Example.facilitator_keypair /\
  is_valid (verify Example.facilitator Example.payment_header
              Example.requirements) = true /\
  let '(response, calls) :=
    run_chain Example.mock_rpc
      (settle Example.facilitator Example.payment_header
         Example.requirements) in
  (forall e, Example.mock_rpc.(latest_blockhash) = Raise e ->
     response = settle_error e /\
     calls = [GetLatestBlockhashCall Confirmed]) /\
  (forall tx opts,
     In (SendTransactionCall tx opts) calls ->
     response = match Example.mock_rpc.(send_result) tx with
                | Raise e => settle_error e
                | Ok tx_signature =>
                    settled Example.facilitator
                      Example.facilitator_keypair tx_signature
                end) /\
  (response.(success) = true ->
   exists tx tx_signature,
     In (SendTransactionCall tx send_opts) calls /\
     Example.mock_rpc.(send_result) tx = Ok tx_signature /\
     response = settled Example.facilitator
                  Example.facilitator_keypair tx_signature).
Proof.
  split; [reflexivity|].
  split; [vm_compute; reflexivity|].
  apply (settle_outcome Example.facilitator Example.mock_rpc
           Example.payment_header Example.requirements
           Example.facilitator_keypair).
  - reflexivity.
  - vm_compute; reflexivity.
Defined.

Lemma settle_submits_unsigned_witness :
  is_valid (verify Example.facilitator Example.self_paid_header
              Example.requirements) = true /\
  decoded_transaction Example.self_paid_header
    = Ok (LegacyTx Example.self_paid) /\
  snd (run_chain Example.mock_rpc
         (settle Example.facilitator Example.self_paid_header
            Example.requirements)) =
    [GetLatestBlockhashCall Confirmed;
     SendTransactionCall (LegacyTx Example.self_paid) send_opts].
Proof.
  split; [vm_compute; reflexivity|].
  split; [vm_compute; reflexivity|].
  apply (settle_submits_unsigned Example.facilitator
           Example.self_paid_header Example.requirements Example.self_paid
           Example.facilitator_keypair Example.mock_rpc Example.blockhash).
  - reflexivity.
  - vm_compute; reflexivity.
  - vm_compute; reflexivity.
  - reflexivity.
  - intros [|i]; [vm_compute; reflexivity|].
    unfold facilitator_slot.
    replace (S i <? _)%nat with false; [reflexivity|].
    symmetry. apply Nat.ltb_ge. vm_compute. lia.
Defined.

Lemma settle_missing_slot_witness :
  is_valid (verify Example.facilitator Example.no_signature_slots_header
              Example.requirements) = true /\
  decoded_transaction Example.no_signature_slots_header
    = Ok (LegacyTx Example.no_signature_slots) /\
  run_chain Example.mock_rpc
    (settle Example.facilitator Example.no_signature_slots_header
       Example.requirements) =
    (settle_error "list assignment index out of range",
     [GetLatestBlockhashCall Confirmed]).
Proof.
  split; [vm_compute; reflexivity|].
  split; [vm_compute; reflexivity|].
  apply (settle_missing_slot Example.facilitator
           Example.no_signature_slots_header Example.requirements
           Example.no_signature_slots Example.facilitator_keypair
           Example.mock_rpc Example.blockhash 0%nat).
  - reflexivity.
  - vm_compute; reflexivity.
  - vm_compute; reflexivity.
  - reflexivity.
  - vm_compute; reflexivity.
  - vm_compute; lia.
Defined.

(** *** The service *)

#[local] Existing Instance Service.keys.
#[local] Existing Instance Service.json.

Lemma get_facilitator_raises_once_witness :
  fst (get_facilitator Service.bad_env None)
    = Raise "Invalid facilitator private key: Invalid character" /\
  exists f,
    snd (get_facilitator Service.bad_env None) = Some f /\
    get_facilitator Service.bad_env (Some f) = (Ok f, Some f) /\
    (fst (get_facilitator Service.bad_env None) = Ok f \/
     @None SolanaFacilitator = None /\
     f = new_facilitator Service.bad_env /\
     exists e,
       fst (get_facilitator Service.bad_env None)
       = Raise ("Invalid facilitator private key: " ++ e)).
Proof.
  split; [vm_compute; reflexivity|].
  apply (get_facilitator_raises_once Service.bad_env None).
Defined.

Lemma service_without_key_witness :
  key_unusable Service.bad_env /\
  let g := lifespan_startup Service.bad_env None in
  g = Some (new_facilitator Service.bad_env) /\
  (forall h R,
     verify_payment Service.bad_env g h R
     = (verify (new_facilitator Service.bad_env) h R, g)) /\
  (forall h R,
     settle_payment Service.bad_env g h R
     = (Done (settle_error "Facilitator not configured"), g)) /\
  get_fee_payer Service.bad_env g
    = (HTTPException 500 "Facilitator not initialized", g) /\
  (forall url x,
     demo_protected Service.bad_env g url x = (Done demo_unavailable, g)) /\
  (forall request,
     exists e,
       generate_requirements_endpoint Service.bad_env g request
       = (HTTPException 500 e, g) /\
       (e = "Facilitator not initialized" \/
        amount_atomic (new_facilitator Service.bad_env) request.(price)
        = Raise e)).
Proof.
  assert (H : key_unusable Service.bad_env).
  { right. left. exists "Invalid character". vm_compute. reflexivity. }
  split; [exact H|].
  apply (service_without_key Service.bad_env H).
Defined.

Lemma verify_reads_four_fields_witness :
  same_terms Example.requirements Service.elsewhere /\
  Example.requirements <> Service.elsewhere /\
  verify Example.facilitator Example.payment_header Example.requirements
  = verify Example.facilitator Example.payment_header Service.elsewhere /\
  settle Example.facilitator Example.payment_header Example.requirements
  = settle Example.facilitator Example.payment_header Service.elsewhere.
Proof.
  assert (H : same_terms Example.requirements Service.elsewhere).
  { repeat split. }
  split; [exact H|]. split; [discriminate|].
  apply (verify_reads_four_fields Example.facilitator
           Example.payment_header _ _ H).
Defined.

(** *** The demo endpoint *)

Lemma demo_protected_unpaid_witness :
  Example.facilitator.(facilitator_fee_payer)
    = Some Example.facilitator_keypair /\
  exists reason,
    run_chain Example.mock_rpc
      (demo_protected_with Service.env Example.facilitator Service.url
         (Some Example.wrong_amount_header))
    = (payment_required_402
         (demo_requirements Service.env
            (Pubkey_str (Keypair_pubkey Example.facilitator_keypair))
            Service.url)
         reason, []) /\
    reason <> "" /\
    (Some Example.wrong_amount_header = None \/
     Some Example.wrong_amount_header = Some "" ->
     reason = "Payment required") /\
    (forall h r,
       Some Example.wrong_amount_header = Some h -> h <> "" ->
       verify Example.facilitator h
         (demo_requirements Service.env
            (Pubkey_str (Keypair_pubkey Example.facilitator_keypair))
            Service.url) = invalid r ->
       r <> "" -> reason = r).
Proof.
  split; [reflexivity|].
  apply (demo_protected_unpaid Service.env Example.facilitator Service.url
           Example.facilitator_keypair (Some Example.wrong_amount_header)
           Example.mock_rpc).
  - reflexivity.
  - intros h [= <-]. right. vm_compute. reflexivity.
Defined.

Lemma demo_protected_content_is_paid_witness :
  exists content headers,
    fst (run_chain Example.mock_rpc
           (demo_protected_with Service.env Example.facilitator Service.url
              (Some Service.demo_payment_header)))
      = JSONResponse 200 content headers /\
    exists kp h t tx tx_signature,
      Example.facilitator.(facilitator_fee_payer) = Some kp /\
      Some Service.demo_payment_header = Some h /\ h <> "" /\
      is_valid (verify Example.facilitator h
                  (demo_requirements Service.env
                     (Pubkey_str (Keypair_pubkey kp)) Service.url))
        = true /\
      decoded_transaction h = Ok t /\
      tx_message tx = tx_message t /\
      snd (run_chain Example.mock_rpc
             (demo_protected_with Service.env Example.facilitator
                Service.url (Some Service.demo_payment_header)))
        = [GetLatestBlockhashCall Confirmed;
           SendTransactionCall tx send_opts] /\
      Example.mock_rpc.(send_result) tx = Ok tx_signature /\
      content = ProtectedContent demo_message
                  "This is the premium content you paid for."
                  (Some tx_signature) /\
      headers = [("X-PAYMENT-RESPONSE",
                  b64encode_text
                    (list_byte_of_string
                       (model_dump_json
                          (settled Example.facilitator kp tx_signature))))].
Proof.
  eexists. eexists. split.
  - vm_compute. reflexivity.
  - apply (demo_protected_content_is_paid Service.env Example.facilitator
             Service.url (Some Service.demo_payment_header)
             Example.mock_rpc).
    vm_compute. reflexivity.
Defined.

Lemma demo_protected_chain_errors_witness :
  Example.facilitator.(facilitator_fee_payer)
    = Some Example.facilitator_keypair /\
  is_valid (verify Example.facilitator Service.demo_payment_header
              (demo_requirements Service.env
                 (Pubkey_str (Keypair_pubkey Example.facilitator_keypair))
                 Service.url)) = true /\
  run_chain Service.failing_rpc
    (demo_protected_with Service.env Example.facilitator Service.url
       (Some Service.demo_payment_header))
  = (payment_required_402
       (demo_requirements Service.env
          (Pubkey_str (Keypair_pubkey Example.facilitator_keypair))
          Service.url)
       "Connection refused",
     [GetLatestBlockhashCall Confirmed]).
Proof.
  split; [reflexivity|]. split; [vm_compute; reflexivity|].
  pose proof (demo_protected_chain_errors Service.env Example.facilitator
                Service.url Example.facilitator_keypair
                Service.demo_payment_header Service.failing_rpc
                eq_refl) as H.
  assert (Hne : Service.demo_payment_header <> "") by discriminate.
  specialize (H Hne). cbv zeta in H.
  assert (Hv : is_valid (verify Example.facilitator
                 Service.demo_payment_header
                 (demo_requirements Service.env
                    (Pubkey_str (Keypair_pubkey Example.facilitator_keypair))
                    Service.url)) = true) by (vm_compute; reflexivity).
  specialize (H Hv).
  destruct (run_chain Service.failing_rpc
              (demo_protected_with Service.env Example.facilitator
                 Service.url (Some Service.demo_payment_header)))
    as [response calls].
  destruct H as (_ & H & _).
  destruct (H "Connection refused" eq_refl) as [-> ->].
  reflexivity.
Defined.

(** *** The paying client *)

Lemma struct_pack_round_trip_witness :
  exists data,
    struct_pack_BQB 12 10000 6 = Ok data /\
    len data = 10 /\
    nth_error data 0 = Some x0c /\
    u64_at 1 data = 10000 /\
    exists d, nth_error data 9 = Some d /\ byte_val d = 6.
Proof.
  eexists. split; [vm_compute; reflexivity|].
  apply (proj1 (struct_pack_round_trip 10000 6)).
  vm_compute. reflexivity.
Defined.

Lemma client_transfer_accepted_witness :
  exists instruction,
    create_transfer_checked_instruction Example.customer_ata
      Example.USDC_MINT
      (get_associated_token_address Example.USDC_MINT Example.merchant_key)
      Example.customer_key 10000
      Example.facilitator.(settings).(usdc_decimals) = Ok instruction /\
    compiles Example.payment_keys instruction
      (Example.transfer_checked 10000 x06 x05 [x02; x04; x03; x01]) /\
    _verify_transfer_instruction Example.facilitator
      (Example.transfer_checked 10000 x06 x05 [x02; x04; x03; x01])
      Example.payment_keys Example.requirements = Ok (true, None).
Proof.
  exists {| instruction_program_id := TOKEN_PROGRAM_ID;
            instruction_data :=
              data (Example.transfer_checked 10000 x06 x05 []);
            instruction_accounts :=
              [ {| meta_pubkey := Example.customer_ata;
                   is_signer := false; is_writable := true |};
                {| meta_pubkey := Example.USDC_MINT;
                   is_signer := false; is_writable := false |};
                {| meta_pubkey := Example.merchant_ata;
                   is_signer := false; is_writable := true |};
                {| meta_pubkey := Example.customer_key;
                   is_signer := true; is_writable := false |} ] |}.
  split; [vm_compute; reflexivity|].
  match goal with
  | |- ?C /\ _ => assert (HC : C)
  end.
  { split; [vm_compute; reflexivity|].
    split; vm_compute; reflexivity. }
  split; [exact HC|].
  refine (client_transfer_accepted Example.facilitator Example.requirements
            Example.payment_keys Example.customer_ata Example.USDC_MINT
            Example.merchant_key Example.customer_key 10000 _
            (Example.transfer_checked 10000 x06 x05 [x02; x04; x03; x01])
            _ _ _ _ HC).
  - vm_compute; reflexivity.
  - vm_compute; reflexivity.
  - vm_compute; reflexivity.
  - vm_compute; reflexivity.
Defined.

(** *** Signing, end to end *)

Lemma payment_fully_signed_witness :
  is_valid (verify Example.facilitator Service.client_payment_header
              Example.requirements) = true /\
  decoded_transaction Service.client_payment_header
    = Ok (LegacyTx Service.client_payment) /\
  exists tx,
    partially_signed Example.payment_message Service.customer_keypair
      = Ok tx /\
    tx.(message) = Example.payment_message /\
    (decoded_transaction Service.client_payment_header = Ok (LegacyTx tx) ->
     exists signatures',
       snd (run_chain Example.mock_rpc
              (settle Example.facilitator Service.client_payment_header
                 Example.requirements)) =
         [GetLatestBlockhashCall Confirmed;
          SendTransactionCall
            (LegacyTx {| signatures := signatures';
                         message := Example.payment_message |})
            send_opts] /\
       List.length signatures'
       = Byte.to_nat
           Example.payment_message.(header).(num_required_signatures) /\
       forall i,
         (i < Byte.to_nat
                Example.payment_message.(header).(num_required_signatures))%nat ->
         nth_error signatures' i =
         Some (if facilitator_slot Example.facilitator_keypair
                    Example.payment_message i
               then sign_message Example.facilitator_keypair
                      (Message_bytes Example.payment_message)
               else if customer_slot Service.customer_keypair
                         Example.payment_message i
               then sign_message Service.customer_keypair
                      (Message_bytes Example.payment_message)
               else Signature_default)).
Proof.
  split; [vm_compute; reflexivity|].
  split; [vm_compute; reflexivity|].
  apply (payment_fully_signed Example.facilitator
           Service.client_payment_header Example.requirements
           Example.payment_message Service.customer_keypair
           Example.facilitator_keypair Example.mock_rpc Example.blockhash).
  - reflexivity.
  - vm_compute; reflexivity.
  - reflexivity.
Defined.
